(** * Anypoint consumption analyzer: estimation pipeline and aggregation

    A shallow embedding of the estimation core of [consumption-analyzer.js]
    ([flattenBusinessGroups], [estimateBasedOnAppDetails],
    [analyzeJarForFlows], [estimateMessageVolume], the summary bookkeeping of
    [analyzeBillableConsumption] and the totals of
    [generateOrganizationSummaryReport]) together with the properties the
    specification states about them, followed by the functions around that
    core ([CONFIG], [getEnvironments], [getApplications],
    [getApplicationDetails], [downloadApplicationJar],
    [getApplicationMonitoringData], [generateBusinessGroupCsvReport]) and
    the properties the code shows for them.

    Conventions of the embedding.
    - A JavaScript number is an exact rational extended with [NaN] and the two
      infinities ([JsNumber.number]).  Division by zero, [NaN] propagation,
      comparison with [NaN], truthiness and [Math.round] (round half up) are
      as in JavaScript; the rounding error and the overflow of binary64 and
      the sign of zero are not modelled.
    - A property that may be absent, [null], or of another type than the one
      the code tests for is an [option].  Where the type matters, for a name
      that is not a string or a [null] among the flow metrics, the estimators
      are given a second time on the parsed values themselves ([Parsed],
      [Metrics]), and shown to agree with the typed ones on typed input.
    - Strings are [string]s of 8-bit characters; [toLowerCase] acts on the
      letters [A]-[Z].
    - What the code obtains from the file system and from child processes is
      an explicit argument ([FileSystem]); an operation that can throw returns
      an [outcome].
    - The body of a response of the platform is a value of JSON
      ([Api.value]); the outcome of a request is an explicit argument. *)

From Stdlib Require Import QArith Qround Qreduction ZArith List String Ascii Bool.
From Stdlib Require Import DecimalString DecimalPos DecimalN Lia Lqa.
Import ListNotations.

Set Implicit Arguments.
Set Warnings "-register-all".

(** ** JavaScript numbers *)

Module JsNumber.

Inductive number : Type :=
| Fin (q : Q)
| PosInf
| NegInf
| NaN.

Definition of_Z (z : Z) : number := Fin (inject_Z z).
Definition of_nat (n : nat) : number := of_Z (Z.of_nat n).

Definition zero : number := of_Z 0.
Definition one : number := of_Z 1.

Definition neg (a : number) : number :=
  match a with
  | Fin q => Fin (Qred (- q))
  | PosInf => NegInf
  | NegInf => PosInf
  | NaN => NaN
  end.

(** [a + b] *)
Definition add (a b : number) : number :=
  match a, b with
  | NaN, _ | _, NaN => NaN
  | Fin x, Fin y => Fin (Qred (x + y))
  | PosInf, NegInf | NegInf, PosInf => NaN
  | PosInf, _ | _, PosInf => PosInf
  | NegInf, _ | _, NegInf => NegInf
  end.

(** [a - b] *)
Definition sub (a b : number) : number := add a (neg b).

(** The sign of an infinity times (or divided by) a finite factor. *)
Definition scale_inf (positive : bool) (q : Q) : number :=
  match q ?= 0 with
  | Eq => NaN
  | Gt => if positive then PosInf else NegInf
  | Lt => if positive then NegInf else PosInf
  end.

(** [a * b] *)
Definition mul (a b : number) : number :=
  match a, b with
  | NaN, _ | _, NaN => NaN
  | Fin x, Fin y => Fin (Qred (x * y))
  | PosInf, Fin y | Fin y, PosInf => scale_inf true y
  | NegInf, Fin y | Fin y, NegInf => scale_inf false y
  | PosInf, PosInf | NegInf, NegInf => PosInf
  | PosInf, NegInf | NegInf, PosInf => NegInf
  end.

(** [a / b]; a finite number divided by zero is an infinity of its sign, and
    [0 / 0] is [NaN]. *)
Definition div (a b : number) : number :=
  match a, b with
  | NaN, _ | _, NaN => NaN
  | Fin x, Fin y =>
      if Qeq_bool y 0 then
        match x ?= 0 with
        | Eq => NaN
        | Gt => PosInf
        | Lt => NegInf
        end
      else Fin (Qred (x / y))
  | Fin _, PosInf | Fin _, NegInf => zero
  | PosInf, Fin y => if Qeq_bool y 0 then PosInf else scale_inf true y
  | NegInf, Fin y => if Qeq_bool y 0 then NegInf else scale_inf false y
  | PosInf, _ | NegInf, _ => NaN
  end.

(** [a < b] *)
Definition lt (a b : number) : bool :=
  match a, b with
  | NaN, _ | _, NaN => false
  | Fin x, Fin y => match x ?= y with Lt => true | _ => false end
  | NegInf, NegInf => false
  | NegInf, _ => true
  | _, NegInf => false
  | PosInf, _ => false
  | Fin _, PosInf => true
  end.

(** [a > b] *)
Definition gt (a b : number) : bool := lt b a.

(** [a === b] on numbers *)
Definition strict_eq (a b : number) : bool :=
  match a, b with
  | Fin x, Fin y => Qeq_bool x y
  | PosInf, PosInf | NegInf, NegInf => true
  | _, _ => false
  end.

(** Truthiness of a number: [0] and [NaN] are falsy. *)
Definition truthy (a : number) : bool :=
  match a with
  | Fin q => negb (Qeq_bool q 0)
  | PosInf | NegInf => true
  | NaN => false
  end.

(** [a || 0] *)
Definition or_zero (a : number) : number := if truthy a then a else zero.

(** [Math.round]: the nearest integer, a tie going up. *)
Definition Math_round (a : number) : number :=
  match a with
  | Fin q => of_Z (Qfloor (q + (1 # 2)))
  | _ => a
  end.

(** [Math.min(a, b)] *)
Definition Math_min (a b : number) : number :=
  match a, b with
  | NaN, _ | _, NaN => NaN
  | _, _ => if lt b a then b else a
  end.

(** [Math.max(a, b)] *)
Definition Math_max (a b : number) : number :=
  match a, b with
  | NaN, _ | _, NaN => NaN
  | _, _ => if lt a b then b else a
  end.

(** [a <= b] as a proposition, for stating bounds ([NaN] is below and above
    nothing). *)
Definition le (a b : number) : Prop :=
  match a, b with
  | NaN, _ | _, NaN => False
  | Fin x, Fin y => (x <= y)%Q
  | NegInf, _ => True
  | _, PosInf => True
  | _, _ => False
  end.

(** A finite integer that is not negative. *)
Definition is_nonneg_integer (a : number) : Prop :=
  exists z : Z, (0 <= z)%Z /\ a = of_Z z.

Definition is_finite (a : number) : bool :=
  match a with Fin _ => true | _ => false end.

End JsNumber.

Import JsNumber.

Declare Scope js_scope.
Delimit Scope js_scope with js.
Bind Scope js_scope with number.
Infix "+" := add : js_scope.
Infix "-" := sub : js_scope.
Infix "*" := mul : js_scope.
Infix "/" := div : js_scope.
Infix "<=" := le : js_scope.

(** Decimal literals used by the program. *)
Definition num (z : Z) : number := of_Z z.
Definition dec (n : Z) (d : positive) : number := Fin (Qred (n # d)).

(** ** Strings *)

Module JsString.

Open Scope char_scope.

(** Lower-casing of one character. *)
Definition lower_char (c : ascii) : ascii :=
  let n := nat_of_ascii c in
  if (65 <=? n)%nat && (n <=? 90)%nat then ascii_of_nat (n + 32) else c.

(** [s.toLowerCase()] *)
Fixpoint toLowerCase (s : string) : string :=
  match s with
  | EmptyString => EmptyString
  | String c s' => String (lower_char c) (toLowerCase s')
  end.

(** [s.includes(pat)] *)
Fixpoint includes (s pat : string) : bool :=
  prefix pat s ||
  match s with
  | EmptyString => false
  | String _ s' => includes s' pat
  end.

(** Truthiness of a string-valued property: a missing one and the empty string
    are falsy. *)
Definition truthy_string (s : option string) : option string :=
  match s with
  | Some EmptyString | None => None
  | Some s' => Some s'
  end.

Definition is_space (c : ascii) : bool :=
  match c with
  | " " | "009" | "010" | "011" | "012" | "013" => true
  | _ => false
  end.

Definition digit_value (c : ascii) : option Z :=
  let n := nat_of_ascii c in
  if (48 <=? n)%nat && (n <=? 57)%nat then Some (Z.of_nat (n - 48)) else None.

Fixpoint skip_spaces (s : string) : string :=
  match s with
  | String c s' => if is_space c then skip_spaces s' else s
  | EmptyString => s
  end.

(** The value of the longest prefix of decimal digits, [None] without one. *)
Fixpoint digits (acc : option Z) (s : string) : option Z :=
  match s with
  | EmptyString => acc
  | String c s' =>
      match digit_value c with
      | Some d =>
          digits (Some (match acc with Some a => 10 * a + d | None => d end)%Z) s'
      | None => acc
      end
  end.

(** [parseInt(s, 10)]: leading white space, an optional sign, then the longest
    run of digits; [NaN] when there is no digit. *)
Definition parseInt (s : string) : number :=
  let s1 := skip_spaces s in
  let '(negative, s2) :=
    match s1 with
    | String "-" r => (true, r)
    | String "+" r => (false, r)
    | _ => (false, s1)
    end in
  match digits None s2 with
  | Some z => of_Z (if negative then - z else z)
  | None => NaN
  end.

(** Decimal numeral of a natural number. *)
Definition decimal (n : N) : string :=
  NilEmpty.string_of_uint (N.to_uint n).

(** [x.toFixed(2)] of a finite number that is not negative: the nearest
    multiple of [1/100], a tie going up, with two decimals. *)
Definition toFixed2 (x : number) : string :=
  match x with
  | Fin q =>
      let n := Z.to_N (Qfloor (q * 100 + (1 # 2))) in
      let frac := (n mod 100)%N in
      (decimal (n / 100) ++ "." ++
       (if (frac <? 10)%N then "0" else EmptyString) ++ decimal frac)%string
  | PosInf => "Infinity"%string
  | NegInf => "-Infinity"%string
  | NaN => "NaN"%string
  end.

End JsString.

Import JsString.
Open Scope string_scope.

(** ** Results of the estimators *)

Inductive Confidence : Type := high | medium | low | none.

Record FlowDetails : Type := { actualAnalysis : bool }.

(** The object [analyzeJarForFlows] and [estimateBasedOnAppDetails] return;
    [size] and [details] are absent from the metadata estimates. *)
Record FlowEstimate : Type := {
  estimatedFlows : number;
  confidence : Confidence;
  source : string;
  size : option string;
  details : option FlowDetails
}.

(** The object [estimateMessageVolume] returns. *)
Record MessageEstimate : Type := {
  estimatedDailyMessages : number;
  estimatedMonthlyMessages : number;
  messageConfidence : Confidence;
  messageSource : string
}.

(** ** Application metadata and [estimateBasedOnAppDetails] *)

Record WorkerType : Type := { weight : option number }.

Record Workers : Type := {
  amount : option number;
  type : option WorkerType
}.

(** The fields of the application details the estimators read. *)
Record AppDetails : Type := {
  domain : option string;
  fileName : option string;
  workers : option Workers
}.

(** [Math.max(1, Math.min(20, x))] *)
Definition clamp (x : number) : number :=
  Math_max (num 1) (Math_min (num 20) x).

(** The two chains of [if]/[else if] on the lower-cased file name. *)
Definition fileNamePatterns (fileName : string) (st : number * string)
  : number * string :=
  let '(estimatedFlows, source) :=
    if includes fileName "eapi" || includes fileName "experience-api" then
      (num 5, "EAPI filename pattern")
    else if includes fileName "papi" || includes fileName "process-api" then
      (num 7, "PAPI filename pattern")
    else if includes fileName "sapi" || includes fileName "system-api" then
      (num 3, "SAPI filename pattern")
    else st in
  if includes fileName "salesforce" || includes fileName "sfdc" then
    ((estimatedFlows + num 2)%js, source ++ " + Salesforce pattern")
  else if includes fileName "onbase" || includes fileName "database" then
    ((estimatedFlows + num 1)%js, source ++ " + Database pattern")
  else if includes fileName "splunk" then
    ((estimatedFlows + num 1)%js, source ++ " + Splunk pattern")
  else (estimatedFlows, source).

(** The same two chains on the lower-cased domain. *)
Definition domainPatterns (domain : string) (st : number * string)
  : number * string :=
  let '(estimatedFlows, source) :=
    if includes domain "eapi" || includes domain "experience" then
      (num 5, "EAPI domain pattern")
    else if includes domain "papi" || includes domain "process" then
      (num 7, "PAPI domain pattern")
    else if includes domain "sapi" || includes domain "system" then
      (num 3, "SAPI domain pattern")
    else st in
  if includes domain "salesforce" || includes domain "sfdc" then
    ((estimatedFlows + num 2)%js, source ++ " + Salesforce pattern")
  else if includes domain "onbase" || includes domain "database" then
    ((estimatedFlows + num 1)%js, source ++ " + Database pattern")
  else if includes domain "splunk" then
    ((estimatedFlows + num 1)%js, source ++ " + Splunk pattern")
  else (estimatedFlows, source).

(** [if (appDetails.workers) { ... }] *)
Definition workerHints (w : option Workers) (st : number * string)
  : number * string :=
  match w with
  | None => st
  | Some w =>
      let '(estimatedFlows, source) := st in
      let '(estimatedFlows, source) :=
        match amount w with
        | Some a =>
            if gt a (num 1) then
              ((estimatedFlows + Math_min (num 3) (a - num 1))%js,
               source ++ " + Multiple workers")
            else (estimatedFlows, source)
        | None => (estimatedFlows, source)
        end in
      match type w with
      | Some {| weight := Some wt |} =>
          if gt wt (dec 1 10) then
            ((estimatedFlows + Math_min (num 3) (Math_round (wt * num 10)))%js,
             source ++ " + Larger worker size")
          else (estimatedFlows, source)
      | _ => (estimatedFlows, source)
      end
  end.

Definition estimateBasedOnAppDetails (appDetails : option AppDetails)
  : FlowEstimate :=
  let estimatedFlows := num 2 in
  let confidence := low in
  let source := "Application metadata" in
  match appDetails with
  | None =>
      {| estimatedFlows := estimatedFlows;
         confidence := confidence;
         source := "Default estimate (no metadata)";
         size := None;
         details := None |}
  | Some appDetails =>
      let st := (estimatedFlows, source) in
      let st :=
        match truthy_string (fileName appDetails) with
        | Some f => fileNamePatterns (toLowerCase f) st
        | None =>
            match truthy_string (domain appDetails) with
            | Some d => domainPatterns (toLowerCase d) st
            | None => st
            end
        end in
      let '(estimatedFlows, source) := workerHints (workers appDetails) st in
      {| estimatedFlows := clamp estimatedFlows;
         confidence := confidence;
         source := source;
         size := None;
         details := None |}
  end.

(** ** Exceptions *)

Inductive outcome (A : Type) : Type :=
| Returns (a : A)
| Throws (message : string).

Arguments Returns {A} a.
Arguments Throws {A} message.

Definition bind {A B : Type} (m : outcome A) (k : A -> outcome B) : outcome B :=
  match m with
  | Returns a => k a
  | Throws e => Throws e
  end.

(** [try { body } catch (e) { handler(e) }] *)
Definition try_catch {A : Type} (body : outcome A) (handler : string -> outcome A)
  : outcome A :=
  match body with
  | Returns a => Returns a
  | Throws e => handler e
  end.

Notation "x <- m ;; k" := (bind m (fun x => k))
  (at level 61, m at next level, right associativity).

(** ** The artifact on disk and [analyzeJarForFlows] *)

Record Stats : Type := { stat_size : N }.

(** What the extraction of one archive gives: whether the temporary directory
    could be made ([ensureDirectoryExists] is the one call of the inner [try]
    that can throw), the configuration files the [find] pipeline lists, and the
    standard output of the three [grep -c ... || echo 0] commands per file. *)
Record Extraction : Type := {
  ensureTempDir : outcome unit;
  muleConfigFiles : list string;
  grepFlows : string -> string;
  grepSubFlows : string -> string;
  grepOtherFlows : string -> string
}.

Record FileSystem : Type := {
  existsSync : string -> bool;
  statSync : string -> outcome Stats;
  extractJar : string -> Extraction
}.

(** The loop over the configuration files, with its three running totals.
    The [trim] applied to each output is left out: [parseInt] skips leading
    white space and stops at the first character that is not a digit. *)
Definition countConfig (ex : Extraction) (totals : number * number * number)
  (configFile : string) : number * number * number :=
  let '(totalFlows, totalSubFlows, totalOtherFlows) := totals in
  let flowCount := parseInt (grepFlows ex configFile) in
  let subFlowCount := parseInt (grepSubFlows ex configFile) in
  let otherFlowCount := parseInt (grepOtherFlows ex configFile) in
  ((totalFlows + flowCount)%js,
   (totalSubFlows + subFlowCount)%js,
   (totalOtherFlows + otherFlowCount)%js).

(** Step 1, the inner [try]: [Some (extractedFlows, flowSource)] after a
    structured count, [None] while both are still [null]. *)
Definition extractFlows (ex : Extraction) : option (number * string) :=
  let body :=
    _ <- ensureTempDir ex ;;
    match muleConfigFiles ex with
    | [] => Returns None
    | files =>
        let '(totalFlows, totalSubFlows, totalOtherFlows) :=
          fold_left (countConfig ex) files (num 0, num 0, num 0) in
        Returns (Some ((totalFlows + totalSubFlows + totalOtherFlows)%js,
                       "XML analysis"))
    end in
  match try_catch body (fun _ => Returns None) with
  | Returns r => r
  | Throws _ => None
  end.

(** The estimate of the size heuristic for an archive of [fileSizeInMB]. *)
Definition sizeHeuristic (fileSizeInMB : number) : number :=
  Math_max (num 1) (Math_min (num 20) (Math_round (fileSizeInMB / dec 1 2))).

Definition fileSizeInMB (stats : Stats) : number :=
  (of_Z (Z.of_N (stat_size stats)) / (num 1024 * num 1024))%js.

Definition analyzeJarForFlows (fs : FileSystem) (jarPath : option string)
  (appDetails : option AppDetails) : outcome FlowEstimate :=
  match truthy_string jarPath with
  | None => Returns (estimateBasedOnAppDetails appDetails)
  | Some jarPath =>
      if negb (existsSync fs jarPath) then
        Returns (estimateBasedOnAppDetails appDetails)
      else
        try_catch
          (stats <- statSync fs jarPath ;;
           let fileSizeInMB := fileSizeInMB stats in
           match extractFlows (extractJar fs jarPath) with
           | Some (extractedFlows, flowSource) =>
               Returns {| estimatedFlows := extractedFlows;
                          confidence := high;
                          source := flowSource;
                          size := Some (toFixed2 fileSizeInMB ++ " MB");
                          details := Some {| actualAnalysis := true |} |}
           | None =>
               let estimatedFlows := sizeHeuristic fileSizeInMB in
               Returns {| estimatedFlows := estimatedFlows;
                          confidence := low;
                          source := "JAR size heuristic";
                          size := Some (toFixed2 fileSizeInMB ++ " MB");
                          details := Some {| actualAnalysis := false |} |}
           end)
          (fun _ => Returns (estimateBasedOnAppDetails appDetails))
  end.

(** ** Monitoring data and [estimateMessageVolume] *)

(** [messageCount]: [count] is [Some] when [typeof count === 'number']. *)
Record MessageCount : Type := { count : option number }.

Record FlowMetric : Type := { flowMessageCount : option MessageCount }.

Record MessageData : Type := { messageCount : option MessageCount }.

Record Cpu : Type := { average : option number }.

Record ResourceData : Type := { cpu : option Cpu }.

Record Period : Type := { from : string; to : string; days : number }.

(** [flowMetrics] is [Some] when the property is an array. *)
Record MonitoringData : Type := {
  messageData : option MessageData;
  resourceData : option ResourceData;
  flowMetrics : option (list FlowMetric);
  period : Period
}.

(** The three variables the tiers assign. *)
Record Working : Type := {
  daily : number;
  workingConfidence : Confidence;
  workingSource : string
}.

Definition initialWorking : Working :=
  {| daily := num 0;
     workingConfidence := none;
     workingSource := "No message data available" |}.

(** The body of the [forEach] over the flow metrics. *)
Definition addFlow (acc : number * nat) (flow : FlowMetric) : number * nat :=
  let '(totalMessages, flowsWithData) := acc in
  match flowMessageCount flow with
  | Some {| count := Some c |} => ((totalMessages + c)%js, S flowsWithData)
  | _ => acc
  end.

Definition sumFlows (flows : list FlowMetric) : number * nat :=
  fold_left addFlow flows (num 0, 0%nat).

(** Tier 1: flow-level metrics. *)
Definition flowTier (md : MonitoringData) (w : Working) : Working :=
  match flowMetrics md with
  | Some flows =>
      let '(totalMessages, flowsWithData) := sumFlows flows in
      if (0 <? flowsWithData)%nat then
        {| daily := (totalMessages / days (period md))%js;
           workingConfidence := high;
           workingSource := "Flow-level message metrics" |}
      else w
  | None => w
  end.

(** Tier 2: the application-level message count. *)
Definition applicationTier (md : MonitoringData) (w : Working) : Working :=
  if strict_eq (daily w) (num 0) then
    match messageData md with
    | Some {| messageCount := Some {| count := Some c |} |} =>
        {| daily := (c / days (period md))%js;
           workingConfidence := medium;
           workingSource := "Application-level message metrics" |}
    | _ => w
    end
  else w.

(** Tier 3: the CPU heuristic. *)
Definition cpuTier (md : MonitoringData) (w : Working) : Working :=
  if strict_eq (daily w) (num 0) then
    match resourceData md with
    | Some {| cpu := Some {| average := Some avgCpuPercent |} |} =>
        {| daily := (avgCpuPercent * num 100)%js;
           workingConfidence := low;
           workingSource := "CPU usage heuristic" |}
    | _ => w
    end
  else w.

(** The value of the three variables when the monthly estimate is computed. *)
Definition workingEstimate (md : MonitoringData) : Working :=
  cpuTier md (applicationTier md (flowTier md initialWorking)).

Definition estimateMessageVolume (monitoringData : option MonitoringData)
  : MessageEstimate :=
  match monitoringData with
  | None =>
      {| estimatedDailyMessages := num 0;
         estimatedMonthlyMessages := num 0;
         messageConfidence := none;
         messageSource := "No monitoring data available" |}
  | Some md =>
      let w := workingEstimate md in
      let estimatedMonthlyMessages := Math_round (daily w * num 30) in
      {| estimatedDailyMessages := Math_round (daily w);
         estimatedMonthlyMessages := estimatedMonthlyMessages;
         messageConfidence := workingConfidence w;
         messageSource := workingSource w |}
  end.

(** ** The business-group hierarchy and [flattenBusinessGroups] *)

(** A node of the hierarchy the platform returns: [parentId] and
    [subOrganizations] may be missing. *)
Inductive Group : Type :=
| mkGroup (id : string) (name : string) (parentId : option string)
          (subOrganizations : option (list Group)).

Definition groupId (g : Group) : string :=
  match g with mkGroup id _ _ _ => id end.

(** An entry of the flat list. *)
Record BusinessGroup : Type := {
  bgId : string;
  bgName : string;
  bgParentId : option string
}.

Fixpoint flattenBusinessGroups (group : Group) : list BusinessGroup :=
  match group with
  | mkGroup id name parentId subOrganizations =>
      {| bgId := id; bgName := name; bgParentId := truthy_string parentId |} ::
      match subOrganizations with
      | Some subs =>
          (fix each (l : list Group) : list BusinessGroup :=
             match l with
             | [] => []
             | subOrg :: rest => (flattenBusinessGroups subOrg ++ each rest)%list
             end) subs
      | None => []
      end
  end.

(** The number of nodes of a hierarchy. *)
Fixpoint groupCount (group : Group) : nat :=
  match group with
  | mkGroup _ _ _ subOrganizations =>
      S match subOrganizations with
        | Some subs =>
            (fix each (l : list Group) : nat :=
               match l with
               | [] => 0%nat
               | subOrg :: rest => (groupCount subOrg + each rest)%nat
               end) subs
        | None => 0%nat
        end
  end.

(** ** The inventory and [analyzeBillableConsumption] *)

Record Config : Type := {
  downloadJars : bool;
  exportCsv : bool
}.

(** The entry of one application in the listing of an environment. *)
Record Application : Type := {
  appDomain : string;
  status : option string
}.

Record JarInfo : Type := { jarPath : option string }.

(** What the platform answers about one application: its listing entry, its
    details, the result of [downloadApplicationJar] and its monitoring data. *)
Record ApplicationSource : Type := {
  listed : Application;
  applicationDetails : option AppDetails;
  downloadApplicationJar : option JarInfo;
  applicationMonitoringData : option MonitoringData
}.

Record EnvironmentSource : Type := {
  envId : string;
  envName : string;
  envIsProduction : bool;
  envApplications : list ApplicationSource
}.

(** The platform as the run sees it. *)
Record Platform : Type := {
  hierarchy : Group;
  getEnvironments : string -> list EnvironmentSource
}.

Record AppData : Type := {
  app : Application;
  flowAnalysis : FlowEstimate;
  messageAnalysis : MessageEstimate;
  jarInfo : option JarInfo;
  monitoringData : option MonitoringData
}.

Record EnvironmentData : Type := {
  environmentId : string;
  environmentName : string;
  isProduction : bool;
  applications : list AppData
}.

Record BusinessGroupData : Type := {
  groupEntry : BusinessGroup;
  environments : list EnvironmentData
}.

Record Summary : Type := {
  totalApplications : number;
  totalEstimatedFlows : number;
  totalEstimatedMonthlyMessages : number
}.

Record Inventory : Type := {
  businessGroups : list BusinessGroupData;
  summary : Summary
}.

Fixpoint foldM {A S : Type} (f : S -> A -> outcome S) (l : list A) (s : S)
  : outcome S :=
  match l with
  | [] => Returns s
  | a :: rest => s' <- f s a ;; foldM f rest s'
  end.

(** The update of the summary totals for one application. *)
Definition updateSummary (s : Summary) (flowAnalysis : FlowEstimate)
  (messageAnalysis : MessageEstimate) : Summary :=
  {| totalApplications := (totalApplications s + num 1)%js;
     totalEstimatedFlows :=
       (totalEstimatedFlows s + or_zero (estimatedFlows flowAnalysis))%js;
     totalEstimatedMonthlyMessages :=
       (totalEstimatedMonthlyMessages s
        + or_zero (estimatedMonthlyMessages messageAnalysis))%js |}.

(** The body of the loop over the applications of an environment; the state
    is the application list of the environment and the summary. *)
Definition processApplication (cfg : Config) (fs : FileSystem)
  (st : list AppData * Summary) (src : ApplicationSource)
  : outcome (list AppData * Summary) :=
  let '(apps, s) := st in
  let appDetails := applicationDetails src in
  let jarInfo :=
    match appDetails with
    | Some _ => if downloadJars cfg then downloadApplicationJar src else None
    | None => None
    end in
  let monitoringData := applicationMonitoringData src in
  flowAnalysis <-
    match jarInfo with
    | Some info =>
        match truthy_string (jarPath info) with
        | Some p => analyzeJarForFlows fs (Some p) appDetails
        | None => analyzeJarForFlows fs None appDetails
        end
    | None => analyzeJarForFlows fs None appDetails
    end ;;
  let messageAnalysis := estimateMessageVolume monitoringData in
  let appData :=
    {| app := listed src;
       flowAnalysis := flowAnalysis;
       messageAnalysis := messageAnalysis;
       jarInfo := jarInfo;
       monitoringData := monitoringData |} in
  Returns ((apps ++ [appData])%list,
           updateSummary s flowAnalysis messageAnalysis).

(** The body of the loop over the environments of a business group. *)
Definition processEnvironment (cfg : Config) (fs : FileSystem)
  (st : list EnvironmentData * Summary) (env : EnvironmentSource)
  : outcome (list EnvironmentData * Summary) :=
  let '(envs, s) := st in
  r <- foldM (processApplication cfg fs) (envApplications env) ([], s) ;;
  let '(apps, s') := r in
  Returns ((envs ++ [ {| environmentId := envId env;
                         environmentName := envName env;
                         isProduction := envIsProduction env;
                         applications := apps |} ])%list, s').

(** The body of the loop over the business groups. *)
Definition processGroup (cfg : Config) (fs : FileSystem) (p : Platform)
  (inv : Inventory) (group : BusinessGroup) : outcome Inventory :=
  r <- foldM (processEnvironment cfg fs) (getEnvironments p (bgId group))
             ([], summary inv) ;;
  let '(envs, s') := r in
  Returns {| businessGroups :=
               (businessGroups inv ++
                [ {| groupEntry := group; environments := envs |} ])%list;
             summary := s' |}.

(** The inventory before the first business group. *)
Definition emptyInventory : Inventory :=
  {| businessGroups := [];
     summary := {| totalApplications := num 0;
                   totalEstimatedFlows := num 0;
                   totalEstimatedMonthlyMessages := num 0 |} |}.

(** The inventory [analyzeBillableConsumption] builds. *)
Definition analyzeBillableConsumption (cfg : Config) (fs : FileSystem)
  (p : Platform) : outcome Inventory :=
  let businessGroups := flattenBusinessGroups (hierarchy p) in
  foldM (processGroup cfg fs p) businessGroups emptyInventory.

(** ** [generateOrganizationSummaryReport] *)

(** The nine totals of the organization summary. *)
Record OrganizationTotals : Type := {
  totalApps : number;
  productionApps : number;
  sandboxApps : number;
  totalFlows : number;
  productionFlows : number;
  sandboxFlows : number;
  totalMonthlyMessages : number;
  productionMonthlyMessages : number;
  sandboxMonthlyMessages : number
}.

Definition noTotals : OrganizationTotals :=
  {| totalApps := num 0; productionApps := num 0; sandboxApps := num 0;
     totalFlows := num 0; productionFlows := num 0; sandboxFlows := num 0;
     totalMonthlyMessages := num 0; productionMonthlyMessages := num 0;
     sandboxMonthlyMessages := num 0 |}.

(** The inner [forEach], over the applications of an environment. *)
Definition reportApplication (isProduction : bool) (t : OrganizationTotals)
  (a : AppData) : OrganizationTotals :=
  let flows := or_zero (estimatedFlows (flowAnalysis a)) in
  let messages := or_zero (estimatedMonthlyMessages (messageAnalysis a)) in
  {| totalApps := totalApps t;
     productionApps := productionApps t;
     sandboxApps := sandboxApps t;
     totalFlows := (totalFlows t + flows)%js;
     productionFlows :=
       if isProduction then (productionFlows t + flows)%js
       else productionFlows t;
     sandboxFlows :=
       if isProduction then sandboxFlows t else (sandboxFlows t + flows)%js;
     totalMonthlyMessages := (totalMonthlyMessages t + messages)%js;
     productionMonthlyMessages :=
       if isProduction then (productionMonthlyMessages t + messages)%js
       else productionMonthlyMessages t;
     sandboxMonthlyMessages :=
       if isProduction then sandboxMonthlyMessages t
       else (sandboxMonthlyMessages t + messages)%js |}.

Definition reportEnvironment (t : OrganizationTotals) (env : EnvironmentData)
  : OrganizationTotals :=
  let apps := of_nat (List.length (applications env)) in
  let t' :=
    {| totalApps := (totalApps t + apps)%js;
       productionApps :=
         if isProduction env then (productionApps t + apps)%js
         else productionApps t;
       sandboxApps :=
         if isProduction env then sandboxApps t else (sandboxApps t + apps)%js;
       totalFlows := totalFlows t;
       productionFlows := productionFlows t;
       sandboxFlows := sandboxFlows t;
       totalMonthlyMessages := totalMonthlyMessages t;
       productionMonthlyMessages := productionMonthlyMessages t;
       sandboxMonthlyMessages := sandboxMonthlyMessages t |} in
  fold_left (reportApplication (isProduction env)) (applications env) t'.

Definition reportGroup (t : OrganizationTotals) (g : BusinessGroupData)
  : OrganizationTotals :=
  fold_left reportEnvironment (environments g) t.

(** The totals the report writes; nothing when CSV export is off. *)
Definition generateOrganizationSummaryReport (cfg : Config) (inventory : Inventory)
  : option OrganizationTotals :=
  if negb (exportCsv cfg) then None
  else Some (fold_left reportGroup (businessGroups inventory) noTotals).

(** ** Recomputation from the leaves *)

(** All applications of an inventory, in the order of the tree. *)
Definition leaves (inventory : Inventory) : list AppData :=
  flat_map (fun g => flat_map applications (environments g))
           (businessGroups inventory).

(** The three summary counters computed afresh from the leaf estimates. *)
Definition recomputeSummary (inventory : Inventory) : Summary :=
  let apps := leaves inventory in
  {| totalApplications := of_nat (List.length apps);
     totalEstimatedFlows :=
       fold_left (fun acc a => (acc + or_zero (estimatedFlows (flowAnalysis a)))%js)
                 apps (num 0);
     totalEstimatedMonthlyMessages :=
       fold_left
         (fun acc a =>
            (acc + or_zero (estimatedMonthlyMessages (messageAnalysis a)))%js)
         apps (num 0) |}.


(** ** Vocabulary of the message-volume properties *)

(** The numeric message count of a metric, when it has one. *)
Definition numericCount (m : option MessageCount) : option number :=
  match m with
  | Some {| count := Some c |} => Some c
  | _ => None
  end.

(** The flow-level metrics are an array and at least one flow carries a
    numeric message count. *)
Definition flowTierFires (md : MonitoringData) : bool :=
  match flowMetrics md with
  | Some flows => (0 <? snd (sumFlows flows))%nat
  | None => false
  end.

(** The sum of the numeric flow-level message counts. *)
Definition flowTotal (md : MonitoringData) : number :=
  match flowMetrics md with
  | Some flows => fst (sumFlows flows)
  | None => num 0
  end.

(** The numeric application-level message count, when present. *)
Definition applicationCount (md : MonitoringData) : option number :=
  match messageData md with
  | Some m => numericCount (messageCount m)
  | None => None
  end.

(** The numeric CPU average, when present. *)
Definition cpuAverage (md : MonitoringData) : option number :=
  match resourceData md with
  | Some {| cpu := Some {| average := Some a |} |} => Some a
  | _ => None
  end.

(** The daily estimate before the final rounding. *)
Definition unroundedDaily (monitoringData : option MonitoringData) : number :=
  match monitoringData with
  | None => num 0
  | Some md => daily (workingEstimate md)
  end.

Definition isZero (a : number) : bool := strict_eq a (num 0).

(** A finite number that is not negative. *)
Definition nonnegFinite (a : number) : Prop :=
  match a with
  | Fin q => (0 <= q)%Q
  | _ => False
  end.

(** Every metric value the estimator can read is finite and not negative. *)
Definition nonnegMetrics (md : MonitoringData) : Prop :=
  (forall flows, flowMetrics md = Some flows ->
     Forall (fun f => forall c, numericCount (flowMessageCount f) = Some c ->
                                nonnegFinite c) flows) /\
  (forall c, applicationCount md = Some c -> nonnegFinite c) /\
  (forall a, cpuAverage md = Some a -> nonnegFinite a).

(** Monitoring data made of flow-level counts, an optional application-level
    count and an optional CPU average, over [d] days. *)
Definition monitoring (flowCounts : option (list number)) (appCount : option number)
  (cpuAvg : option number) (d : number) : MonitoringData :=
  {| messageData :=
       option_map (fun c => {| messageCount := Some {| count := Some c |} |})
                  appCount;
     resourceData :=
       option_map (fun a => {| cpu := Some {| average := Some a |} |}) cpuAvg;
     flowMetrics :=
       option_map
         (map (fun c => {| flowMessageCount := Some {| count := Some c |} |}))
         flowCounts;
     period := {| from := "2025-01-01T00:00:00.000Z";
                  to := "2025-01-31T00:00:00.000Z";
                  days := d |} |}.

(** One flow with 15 messages over 30 days: half a message a day. *)
Definition halfMessageADay : MonitoringData :=
  monitoring (Some [num 15]) None None (num 30).

(** Flows summing to 3000 messages over 30 days. *)
Definition threeThousandMessages : MonitoringData :=
  monitoring (Some [num 1000; num 2000]) None None (num 30).

(** A negative flow-level count over 30 days. *)
Definition negativeCount : MonitoringData :=
  monitoring (Some [num (-30)]) None None (num 30).

(** Flow-level data over a period of zero days. *)
Definition zeroDays : MonitoringData :=
  monitoring (Some [num 5]) None None (num 0).


(** ** Vocabulary of the metadata properties *)

(** Where the name patterns are looked up: the artifact file name when it is
    present, else the domain. *)
Inductive NameSource : Type :=
| FromFileName (lowered : string)
| FromDomain (lowered : string)
| NoName.

Definition chosenName (d : AppDetails) : NameSource :=
  match truthy_string (fileName d) with
  | Some f => FromFileName (toLowerCase f)
  | None =>
      match truthy_string (domain d) with
      | Some n => FromDomain (toLowerCase n)
      | None => NoName
      end
  end.

(** The base value by API layer: 5 for an experience API, 7 for a process API,
    3 for a system API, otherwise 2; the first match decides. *)
Definition baseValue (n : NameSource) : Z :=
  match n with
  | FromFileName s =>
      if includes s "eapi" || includes s "experience-api" then 5
      else if includes s "papi" || includes s "process-api" then 7
      else if includes s "sapi" || includes s "system-api" then 3
      else 2
  | FromDomain s =>
      if includes s "eapi" || includes s "experience" then 5
      else if includes s "papi" || includes s "process" then 7
      else if includes s "sapi" || includes s "system" then 3
      else 2
  | NoName => 2
  end%Z.

(** The one integration bonus: the first of Salesforce (+2), database (+1)
    and Splunk (+1) that matches. *)
Definition integrationBonus (n : NameSource) : Z :=
  match n with
  | FromFileName s | FromDomain s =>
      if includes s "salesforce" || includes s "sfdc" then 2
      else if includes s "onbase" || includes s "database" then 1
      else if includes s "splunk" then 1
      else 0
  | NoName => 0
  end%Z.

(** The bonus for more than one worker. *)
Definition multipleWorkersBonus (w : option Workers) : option number :=
  match w with
  | Some {| amount := Some a |} =>
      if gt a (num 1) then Some (Math_min (num 3) (a - num 1)) else None
  | _ => None
  end.

(** The bonus for a worker weight above 0.1. *)
Definition workerSizeBonus (w : option Workers) : option number :=
  match w with
  | Some {| type := Some {| weight := Some wt |} |} =>
      if gt wt (dec 1 10) then
        Some (Math_min (num 3) (Math_round (wt * num 10)))
      else None
  | _ => None
  end.

Definition plusBonus (x : number) (b : option number) : number :=
  match b with
  | Some y => (x + y)%js
  | None => x
  end.

(** No artifact, file name "customer-eapi-salesforce-v1.jar". *)
Definition customerEapi : AppDetails :=
  {| domain := Some "customer-eapi";
     fileName := Some "customer-eapi-salesforce-v1.jar";
     workers := None |}.

(** No file name, domain "order-papi-database", one worker of weight 0. *)
Definition orderPapi : AppDetails :=
  {| domain := Some "order-papi-database";
     fileName := None;
     workers := Some {| amount := Some (num 1);
                        type := Some {| weight := Some (num 0) |} |} |}.

(** ** Vocabulary of the artifact properties *)

(** The two result objects of the artifact path. *)
Definition structuredResult (stats : Stats) (extractedFlows : number)
  (flowSource : string) : FlowEstimate :=
  {| estimatedFlows := extractedFlows;
     confidence := high;
     source := flowSource;
     size := Some (toFixed2 (fileSizeInMB stats) ++ " MB");
     details := Some {| actualAnalysis := true |} |}.

Definition sizeHeuristicResult (stats : Stats) : FlowEstimate :=
  {| estimatedFlows := clamp (Math_round (fileSizeInMB stats / dec 1 2));
     confidence := low;
     source := "JAR size heuristic";
     size := Some (toFixed2 (fileSizeInMB stats) ++ " MB");
     details := Some {| actualAnalysis := false |} |}.

(** What [grep -c ... || echo 0] prints for [n] matching lines: the count and
    a line feed; without a match [grep] exits with 1 and [echo 0] adds a
    second line. *)
Definition grepOutput (n : N) : string :=
  decimal n ++
  String "010" (if (n =? 0)%N then String "0" (String "010" EmptyString)
                else EmptyString).



(** The sum of the three counts over the configuration files. *)
Definition structuredCount (ex : Extraction) : number :=
  let '(totalFlows, totalSubFlows, totalOtherFlows) :=
    fold_left (countConfig ex) (muleConfigFiles ex) (num 0, num 0, num 0) in
  (totalFlows + totalSubFlows + totalOtherFlows)%js.

Definition appJar : string := "consumption-data/application-jars/app.jar".

(** A file system with one archive of [bytes] bytes at [appJar]. *)
Definition jarOnDisk (bytes : N) (ex : Extraction) : FileSystem :=
  {| existsSync := fun p => String.eqb p appJar;
     statSync := fun _ => Returns {| stat_size := bytes |};
     extractJar := fun _ => ex |}.



(** Two configuration files with 12 + 9 flows, 3 + 0 sub-flows and 1 + 0 other
    elements. *)
Definition twoConfigurations : Extraction :=
  {| ensureTempDir := Returns tt;
     muleConfigFiles := ["api.xml"; "global.xml"];
     grepFlows := fun f => grepOutput (if String.eqb f "api.xml" then 12 else 9);
     grepSubFlows := fun f => grepOutput (if String.eqb f "api.xml" then 3 else 0);
     grepOtherFlows :=
       fun f => grepOutput (if String.eqb f "api.xml" then 1 else 0) |}.

(** An archive of 2411725 bytes, 2.30 MB. *)
Definition twoPointThreeMB : N := 2411725.


(** ** Vocabulary of the hierarchy properties *)

Definition groupName (g : Group) : string :=
  match g with mkGroup _ name _ _ => name end.

Definition groupParentId (g : Group) : option string :=
  match g with mkGroup _ _ parentId _ => parentId end.

(** A group without sub-organizations: the property is missing or empty. *)
Definition isLeaf (g : Group) : bool :=
  match g with
  | mkGroup _ _ _ None | mkGroup _ _ _ (Some []) => true
  | _ => false
  end.

(** A root with two child business groups whose [parentId] property is
    [childParentId]. *)
Definition rootWithTwoChildren (childParentId : option string) : Group :=
  mkGroup "root-id" "Root" None
    (Some [ mkGroup "child-1" "Child One" childParentId None;
            mkGroup "child-2" "Child Two" childParentId (Some []) ]).

(** ** Vocabulary of the aggregation properties *)

Definition flowsOf (a : AppData) : number :=
  or_zero (estimatedFlows (flowAnalysis a)).

Definition messagesOf (a : AppData) : number :=
  or_zero (estimatedMonthlyMessages (messageAnalysis a)).

(** The summary after the updates for the applications [apps], in order. *)
Definition accumulate (apps : list AppData) (s : Summary) : Summary :=
  fold_left (fun s a => updateSummary s (flowAnalysis a) (messageAnalysis a))
            apps s.

(** The report totals and the summary counters agree. *)
Definition agree (t : OrganizationTotals) (s : Summary) : Prop :=
  totalApps t = totalApplications s /\
  totalFlows t = totalEstimatedFlows s /\
  totalMonthlyMessages t = totalEstimatedMonthlyMessages s.

(** A platform with one production and one sandbox environment under the
    root and an empty child group. *)
Definition samplePlatform : Platform :=
  {| hierarchy := rootWithTwoChildren (Some "root-id");
     getEnvironments := fun groupId =>
       if String.eqb groupId "root-id" then
         [ {| envId := "env-prod"; envName := "Production";
              envIsProduction := true;
              envApplications :=
                [ {| listed := {| appDomain := "customer-eapi";
                                  status := Some "STARTED" |};
                     applicationDetails := Some customerEapi;
                     downloadApplicationJar := Some {| jarPath := Some appJar |};
                     applicationMonitoringData := Some threeThousandMessages |};
                  {| listed := {| appDomain := "order-papi-database";
                                  status := Some "STARTED" |};
                     applicationDetails := Some orderPapi;
                     downloadApplicationJar := None;
                     applicationMonitoringData := Some halfMessageADay |} ] |};
           {| envId := "env-dev"; envName := "Sandbox";
              envIsProduction := false;
              envApplications :=
                [ {| listed := {| appDomain := "legacy";
                                  status := None |};
                     applicationDetails := None;
                     downloadApplicationJar := None;
                     applicationMonitoringData := None |} ] |} ]
       else [] |}.

Definition sampleConfig : Config :=
  {| downloadJars := true; exportCsv := true |}.

(** * Further vocabulary *)

(** ** Whole numbers *)

(** A whole number that is not negative: [0 <= a] and [Math.round(a) === a].
    No [NaN] and no negative number is one; [Infinity], which a sum, a
    product or a quotient of binary64 numbers overflows to, is. *)
Definition wholeNotNegative (a : number) : Prop :=
  (num 0 <= a)%js /\ Math_round a = a.

(** ** Command lines the shell rejects *)


(** ** Application details in other letter case *)

Definition customerEapiUpperCase : AppDetails :=
  {| domain := Some "Customer-EAPI";
     fileName := Some "CUSTOMER-EAPI-Salesforce-V1.JAR";
     workers := None |}.

(** ** Counts over the configuration files *)

(** The sum of a count over the configuration files. *)
Definition sumOver (g : string -> N) (files : list string) : Z :=
  fold_right (fun f acc => (Z.of_N (g f) + acc)%Z) 0%Z files.

(** ** Parent references in the hierarchy *)

(** Every sub-organization of the hierarchy carries the id of the group it
    is listed under as its [parentId]. *)
Fixpoint wellParented (group : Group) : bool :=
  match group with
  | mkGroup id _ _ subOrganizations =>
      match subOrganizations with
      | Some subs =>
          (fix each (l : list Group) : bool :=
             match l with
             | [] => true
             | subOrg :: rest =>
                 match truthy_string (groupParentId subOrg) with
                 | Some p => String.eqb p id
                 | None => false
                 end && wellParented subOrg && each rest
             end) subs
      | None => true
      end
  end.

(** Every entry of the list names as its parent an id of [seen] or the id of
    an entry before it. *)
Fixpoint parentsFirst (seen : list string) (l : list BusinessGroup) : Prop :=
  match l with
  | [] => True
  | e :: rest =>
      (exists p, bgParentId e = Some p /\ In p seen) /\
      parentsFirst (bgId e :: seen) rest
  end.

(** A hierarchy of three levels with parent references. *)
Definition threeLevels : Group :=
  mkGroup "root-id" "Root" None
    (Some [ mkGroup "emea" "EMEA" (Some "root-id")
              (Some [ mkGroup "emea-retail" "Retail" (Some "emea") None ]);
            mkGroup "apac" "APAC" (Some "root-id") (Some []) ]).

(** ** Inventories with integer estimates *)

(** Every leaf of the inventory carries integer flow and monthly message
    estimates. *)
Definition integerEstimates (inventory : Inventory) : Prop :=
  Forall (fun a =>
            (exists z, estimatedFlows (flowAnalysis a) = of_Z z) /\
            (exists z, estimatedMonthlyMessages (messageAnalysis a) = of_Z z))
         (leaves inventory).

(** The integer a finite integral number stands for. *)
Definition toZ (x : number) : Z :=
  match x with
  | Fin q => Qfloor q
  | _ => 0%Z
  end.

(** The sum of an integer measure over a list. *)
Definition zsum {A : Type} (f : A -> Z) (l : list A) : Z :=
  fold_right (fun a acc => (f a + acc)%Z) 0%Z l.

(** The leaf estimates are integers whose magnitudes add up to at most
    [2^53], for the flows and for the monthly messages: every sum of some of
    them is an integer that binary64 holds exactly. *)
Definition exactEstimates (inventory : Inventory) : Prop :=
  integerEstimates inventory /\
  (zsum (fun a => Z.abs (toZ (estimatedFlows (flowAnalysis a))))
        (leaves inventory) <= 9007199254740992)%Z /\
  (zsum (fun a => Z.abs (toZ (estimatedMonthlyMessages (messageAnalysis a))))
        (leaves inventory) <= 9007199254740992)%Z.

(** The inventory of the run over the sample platform. *)
Definition sampleInventory : Inventory :=
  match analyzeBillableConsumption
          sampleConfig (jarOnDisk twoPointThreeMB twoConfigurations)
          samplePlatform with
  | Returns inventory => inventory
  | Throws _ => emptyInventory
  end.

(** ** The inventory against the platform *)

(** The path [analyzeJarForFlows] is called with for an application: the path
    of the downloaded archive when downloads are enabled, the details are
    known and the download gave a path, [null] otherwise. *)
Definition chosenJarPath (cfg : Config) (src : ApplicationSource)
  : option string :=
  match applicationDetails src with
  | Some _ =>
      if downloadJars cfg then
        match downloadApplicationJar src with
        | Some info => truthy_string (jarPath info)
        | None => None
        end
      else None
  | None => None
  end.

(** The leaf [a] is the record of the listed application [src]: its listing
    entry, the flow estimate of its own archive and details, and the message
    estimate of its own monitoring data. *)
Definition carries (cfg : Config) (fs : FileSystem) (src : ApplicationSource)
  (a : AppData) : Prop :=
  app a = listed src /\
  analyzeJarForFlows fs (chosenJarPath cfg src) (applicationDetails src)
    = Returns (flowAnalysis a) /\
  messageAnalysis a = estimateMessageVolume (applicationMonitoringData src) /\
  monitoringData a = applicationMonitoringData src.

Definition environmentMatches (cfg : Config) (fs : FileSystem)
  (src : EnvironmentSource) (e : EnvironmentData) : Prop :=
  environmentId e = envId src /\
  environmentName e = envName src /\
  isProduction e = envIsProduction src /\
  Forall2 (carries cfg fs) (envApplications src) (applications e).

Definition groupMatches (cfg : Config) (fs : FileSystem) (p : Platform)
  (g : BusinessGroup) (d : BusinessGroupData) : Prop :=
  groupEntry d = g /\
  Forall2 (environmentMatches cfg fs) (getEnvironments p (bgId g))
          (environments d).

(** The applications the platform lists, in the order of the run. *)
Definition listedApplications (p : Platform) : list ApplicationSource :=
  flat_map (fun g => flat_map envApplications (getEnvironments p (bgId g)))
           (flattenBusinessGroups (hierarchy p)).

(** ** [generateBusinessGroupCsvReport] *)

(** The values of one row of the business-group report. *)
Record GroupRow : Type := {
  rowName : string;
  rowId : string;
  rowTotalApps : number;
  rowProductionApps : number;
  rowSandboxApps : number;
  rowTotalFlows : number;
  rowTotalMonthlyMessages : number
}.

(** The five running totals of a row: applications, production applications,
    sandbox applications, flows and monthly messages. *)
Definition RowTotals : Type := (number * number * number * number * number)%type.

(** The inner [forEach], over the applications of an environment. *)
Definition rowApplication (t : RowTotals) (a : AppData) : RowTotals :=
  let '(totalApps, productionApps, sandboxApps, totalFlows,
        totalMonthlyMessages) := t in
  (totalApps, productionApps, sandboxApps,
   (totalFlows + or_zero (estimatedFlows (flowAnalysis a)))%js,
   (totalMonthlyMessages
    + or_zero (estimatedMonthlyMessages (messageAnalysis a)))%js).

(** The [forEach] over the environments of a business group. *)
Definition rowEnvironment (t : RowTotals) (env : EnvironmentData) : RowTotals :=
  let '(totalApps, productionApps, sandboxApps, totalFlows,
        totalMonthlyMessages) := t in
  let apps := of_nat (List.length (applications env)) in
  let totalApps := (totalApps + apps)%js in
  let '(productionApps, sandboxApps) :=
    if isProduction env then ((productionApps + apps)%js, sandboxApps)
    else (productionApps, (sandboxApps + apps)%js) in
  fold_left rowApplication (applications env)
            (totalApps, productionApps, sandboxApps, totalFlows,
             totalMonthlyMessages).

Definition groupRow (group : BusinessGroupData) : GroupRow :=
  let '(totalApps, productionApps, sandboxApps, totalFlows,
        totalMonthlyMessages) :=
    fold_left rowEnvironment (environments group)
              (num 0, num 0, num 0, num 0, num 0) in
  {| rowName := bgName (groupEntry group);
     rowId := bgId (groupEntry group);
     rowTotalApps := totalApps;
     rowProductionApps := productionApps;
     rowSandboxApps := sandboxApps;
     rowTotalFlows := totalFlows;
     rowTotalMonthlyMessages := totalMonthlyMessages |}.

(** The rows the report writes, one per business group; nothing when CSV
    export is off. *)
Definition generateBusinessGroupCsvReport (cfg : Config) (inventory : Inventory)
  : option (list GroupRow) :=
  if negb (exportCsv cfg) then None
  else Some (map groupRow (businessGroups inventory)).

(** The sum of a column of the business-group report. *)
Definition columnSum (column : GroupRow -> number) (rows : list GroupRow)
  : number :=
  fold_left (fun acc r => (acc + column r)%js) rows (num 0).

(** ** Responses of the platform and [getApplications], [getEnvironments] *)

Module Api.

(** A value of a parsed response.  Property names that objects inherit from
    their prototype are not among the names the program reads. *)
Inductive value : Type :=
| JUndefined
| JNull
| JBool (b : bool)
| JNumber (n : number)
| JString (s : string)
| JArray (items : list value)
| JObject (fields : list (string * value)).

(** The value bound to [key], the last binding winning. *)
Fixpoint lookup (key : string) (fields : list (string * value)) : option value :=
  match fields with
  | [] => None
  | (k, v) :: rest =>
      match lookup key rest with
      | Some v' => Some v'
      | None => if String.eqb key k then Some v else None
      end
  end.

Definition nullish (v : value) : bool :=
  match v with
  | JUndefined | JNull => true
  | _ => false
  end.

(** The property of a value that is not nullish. *)
Definition property (v : value) (key : string) : value :=
  match v with
  | JObject fields =>
      match lookup key fields with
      | Some x => x
      | None => JUndefined
      end
  | _ => JUndefined
  end.

(** [v.key]: a [TypeError] on [null] and [undefined]. *)
Definition member (v : value) (key : string) : outcome value :=
  if nullish v then Throws "TypeError: Cannot read properties"
  else Returns (property v key).

(** [v?.key] *)
Definition optionalMember (v : value) (key : string) : value :=
  if nullish v then JUndefined else property v key.

Definition truthyValue (v : value) : bool :=
  match v with
  | JUndefined | JNull => false
  | JBool b => b
  | JNumber n => truthy n
  | JString EmptyString => false
  | JString _ => true
  | JArray _ | JObject _ => true
  end.

(** [a || b] *)
Definition orElse (a b : value) : value := if truthyValue a then a else b.

(** [Object.keys(v)], for its exception only. *)
Definition objectKeys (v : value) : outcome unit :=
  if nullish v then Throws "TypeError: Cannot convert undefined or null to object"
  else Returns tt.

(** Whether the conversion of a value to a string returns, as a template
    literal applies it.  An object with a [toString] property of its own
    cannot be converted: the property is no function, for no value of a
    response is one, and [valueOf] gives no primitive value.  An array is
    joined, its [null] and [undefined] entries skipped and the others
    converted in turn. *)
Fixpoint convertible (v : value) : bool :=
  match v with
  | JArray items =>
      (fix each (l : list value) : bool :=
         match l with
         | [] => true
         | item :: rest => (nullish item || convertible item) && each rest
         end) items
  | JObject fields =>
      match lookup "toString" fields with
      | Some _ => false
      | None => true
      end
  | _ => true
  end.

(** A template literal that holds [v], for its exception only. *)
Definition toStringOf (v : value) : outcome unit :=
  if convertible v then Returns tt
  else Throws "TypeError: Cannot convert object to primitive value".

(** [items.map(f)] for a callback that can throw. *)
Fixpoint mapM {A B : Type} (f : A -> outcome B) (l : list A) : outcome (list B) :=
  match l with
  | [] => Returns []
  | a :: rest => b <- f a ;; bs <- mapM f rest ;; Returns (b :: bs)
  end.

(** The entry of the listing [getApplications] returns for an application. *)
Record ListedApplication : Type := {
  domain : value;
  status : value;
  lastUpdateTime : value;
  fileName : value;
  muleVersion : value;
  workerSize : value;
  workerType : value;
  numberOfWorkers : value
}.

(** The callback of [applications.map]. *)
Definition listApplication (app : value) : outcome ListedApplication :=
  domain <- member app "domain" ;;
  status <- member app "status" ;;
  lastUpdateTime <- member app "lastUpdateTime" ;;
  fileName <- member app "fileName" ;;
  muleVersion <- member app "muleVersion" ;;
  workers <- member app "workers" ;;
  workers' <- member app "workers" ;;
  workers'' <- member app "workers" ;;
  Returns
    {| domain := domain;
       status := status;
       lastUpdateTime := lastUpdateTime;
       fileName := orElse fileName JNull;
       muleVersion := orElse muleVersion (JString "Unknown");
       workerSize :=
         orElse (optionalMember (optionalMember workers "type") "weight")
                (JNumber (num 0));
       workerType :=
         orElse (optionalMember (optionalMember workers' "type") "name")
                (JString "Unknown");
       numberOfWorkers :=
         orElse (optionalMember workers'' "amount") (JNumber (num 0)) |}.

(** [getApplications]: [response] is the [data] of the response of the
    request, or the exception the request ends with. *)
Definition getApplications (debug : bool) (response : outcome value)
  : list ListedApplication :=
  let body :=
    data <- response ;;
    _ <- (if debug then objectKeys data else Returns tt) ;;
    if negb (truthyValue data) then Returns []
    else
      match data with
      | JArray applications => mapM listApplication applications
      | _ =>
          inData <- member data "data" ;;
          match inData with
          | JArray applications => mapM listApplication applications
          | _ =>
              inApplications <- member data "applications" ;;
              match inApplications with
              | JArray applications => mapM listApplication applications
              | _ => Returns []
              end
          end
      end in
  match try_catch body (fun _ => Returns []) with
  | Returns l => l
  | Throws _ => []
  end.

(** The entry [getEnvironments] returns for an environment. *)
Record ListedEnvironment : Type := {
  id : value;
  name : value;
  type : value;
  isProduction : value
}.

(** The callback of [response.data.data.map]. *)
Definition listEnvironment (env : value) : outcome ListedEnvironment :=
  id <- member env "id" ;;
  name <- member env "name" ;;
  type <- member env "type" ;;
  isProduction <- member env "isProduction" ;;
  Returns {| id := id; name := name; type := type;
             isProduction := isProduction |}.

(** [getEnvironments]: calling [map] on anything but an array is a
    [TypeError]. *)
Definition getEnvironments (response : outcome value) : list ListedEnvironment :=
  let body :=
    data <- response ;;
    inData <- member data "data" ;;
    match inData with
    | JArray environments => mapM listEnvironment environments
    | _ => Throws "TypeError: response.data.data.map is not a function"
    end in
  match try_catch body (fun _ => Returns []) with
  | Returns l => l
  | Throws _ => []
  end.

(** The entries of a listing, for values that are not nullish. *)
Definition listingOf (app : value) : ListedApplication :=
  {| domain := property app "domain";
     status := property app "status";
     lastUpdateTime := property app "lastUpdateTime";
     fileName := orElse (property app "fileName") JNull;
     muleVersion := orElse (property app "muleVersion") (JString "Unknown");
     workerSize :=
       orElse (optionalMember (optionalMember (property app "workers") "type")
                              "weight")
              (JNumber (num 0));
     workerType :=
       orElse (optionalMember (optionalMember (property app "workers") "type")
                              "name")
              (JString "Unknown");
     numberOfWorkers :=
       orElse (optionalMember (property app "workers") "amount")
              (JNumber (num 0)) |}.

(** The array of applications the response is recognized to carry: the
    response itself, else its [data], else its [applications]. *)
Definition recognizedArray (data : value) : option (list value) :=
  match data with
  | JArray l => Some l
  | _ =>
      match property data "data" with
      | JArray l => Some l
      | _ =>
          match property data "applications" with
          | JArray l => Some l
          | _ => None
          end
      end
  end.

(** An application as CloudHub lists it. *)
Definition application (domainName : string) (file : option string)
  (workers : option (number * number)) : value :=
  JObject
    ([ ("domain", JString domainName); ("status", JString "STARTED") ]
     ++ match file with
        | Some f => [ ("fileName", JString f) ]
        | None => []
        end
     ++ match workers with
        | Some (amount, weight) =>
            [ ("workers",
               JObject [ ("amount", JNumber amount);
                         ("type", JObject [ ("weight", JNumber weight);
                                            ("name", JString "Micro") ]) ]) ]
        | None => []
        end)%list.

(** The entry of an environment, for values that are not nullish. *)
Definition environmentOf (env : value) : ListedEnvironment :=
  {| id := property env "id";
     name := property env "name";
     type := property env "type";
     isProduction := property env "isProduction" |}.

(** A value is truthy or it is the default. *)
Definition truthyOr (default v : value) : Prop :=
  truthyValue v = true \/ v = default.

(** A response in the three shapes the platform answers with. *)
Definition twoApplications : list value :=
  [ application "customer-eapi" (Some "customer-eapi-salesforce-v1.jar")
                (Some (num 2, dec 1 10));
    application "legacy" None None ].

End Api.

(** ** The flow estimators on parsed responses *)

(** The details of an application are the body of a response: any value of
    JSON.  [Parsed.estimateBasedOnAppDetails] and [Parsed.analyzeJarForFlows]
    are the two functions on such a value; on details whose names are
    strings and whose worker values are numbers they are the functions
    above ([ofAppDetails]). *)
Module Parsed.

Section Coercion.

(** [ToNumber] of a string, and of an array or an object, where the
    conversion to a primitive value can throw. *)
Variable stringToNumber : string -> number.
Variable objectToNumber : Api.value -> outcome number.

(** [ToNumber], as [>], [-] and [*] apply it to an operand. *)
Definition toNumber (v : Api.value) : outcome number :=
  match v with
  | Api.JUndefined => Returns NaN
  | Api.JNull => Returns (num 0)
  | Api.JBool b => Returns (if b then num 1 else num 0)
  | Api.JNumber n => Returns n
  | Api.JString s => Returns (stringToNumber s)
  | Api.JArray _ | Api.JObject _ => objectToNumber v
  end.

(** [v.toLowerCase()] for a truthy [v]: only a string has the method, and no
    property of a parsed response is a function. *)
Definition toLowerCaseOf (v : Api.value) : outcome string :=
  match v with
  | Api.JString s => Returns (toLowerCase s)
  | _ => Throws "TypeError: toLowerCase is not a function"
  end.

(** [if (appDetails.workers) { ... }] *)
Definition workerHints (workers : Api.value) (st : number * string)
  : outcome (number * string) :=
  if negb (Api.truthyValue workers) then Returns st
  else
    let '(estimatedFlows, source) := st in
    amount <- toNumber (Api.property workers "amount") ;;
    let '(estimatedFlows, source) :=
      if gt amount (num 1) then
        ((estimatedFlows + Math_min (num 3) (amount - num 1))%js,
         source ++ " + Multiple workers")
      else (estimatedFlows, source) in
    let type := Api.property workers "type" in
    if negb (Api.truthyValue type) then Returns (estimatedFlows, source)
    else
      weight <- toNumber (Api.property type "weight") ;;
      if gt weight (dec 1 10) then
        Returns
          ((estimatedFlows + Math_min (num 3) (Math_round (weight * num 10)))%js,
           source ++ " + Larger worker size")
      else Returns (estimatedFlows, source).

Definition estimateBasedOnAppDetails (appDetails : Api.value)
  : outcome FlowEstimate :=
  let estimatedFlows := num 2 in
  let confidence := low in
  let source := "Application metadata" in
  if negb (Api.truthyValue appDetails) then
    Returns {| estimatedFlows := estimatedFlows;
               confidence := confidence;
               source := "Default estimate (no metadata)";
               size := None;
               details := None |}
  else
    let st := (estimatedFlows, source) in
    st <-
      (if Api.truthyValue (Api.property appDetails "fileName") then
         fileName <- toLowerCaseOf (Api.property appDetails "fileName") ;;
         Returns (fileNamePatterns fileName st)
       else if Api.truthyValue (Api.property appDetails "domain") then
         domain <- toLowerCaseOf (Api.property appDetails "domain") ;;
         Returns (domainPatterns domain st)
       else Returns st) ;;
    st <- workerHints (Api.property appDetails "workers") st ;;
    let '(estimatedFlows, source) := st in
    Returns {| estimatedFlows := clamp estimatedFlows;
               confidence := confidence;
               source := source;
               size := None;
               details := None |}.

Definition analyzeJarForFlows (fs : FileSystem) (jarPath : option string)
  (appDetails : Api.value) : outcome FlowEstimate :=
  match truthy_string jarPath with
  | None => estimateBasedOnAppDetails appDetails
  | Some jarPath =>
      if negb (existsSync fs jarPath) then estimateBasedOnAppDetails appDetails
      else
        try_catch
          (stats <- statSync fs jarPath ;;
           let fileSizeInMB := fileSizeInMB stats in
           match extractFlows (extractJar fs jarPath) with
           | Some (extractedFlows, flowSource) =>
               Returns {| estimatedFlows := extractedFlows;
                          confidence := high;
                          source := flowSource;
                          size := Some (toFixed2 fileSizeInMB ++ " MB");
                          details := Some {| actualAnalysis := true |} |}
           | None =>
               let estimatedFlows := sizeHeuristic fileSizeInMB in
               Returns {| estimatedFlows := estimatedFlows;
                          confidence := low;
                          source := "JAR size heuristic";
                          size := Some (toFixed2 fileSizeInMB ++ " MB");
                          details := Some {| actualAnalysis := false |} |}
           end)
          (fun _ => estimateBasedOnAppDetails appDetails)
  end.

End Coercion.







End Parsed.


Definition ofNumber (n : option number) : Api.value :=
  match n with
  | Some n => Api.JNumber n
  | None => Api.JUndefined
  end.



(** ** [estimateMessageVolume] on parsed responses *)

(** The monitoring data [getApplicationMonitoringData] builds hold the bodies
    of three responses: any values of JSON.  [Metrics.estimateMessageVolume]
    is the function on such data; on data whose flow metrics hold no [null]
    it is the function above ([ofMonitoringData]). *)
Module Metrics.

Record MonitoringData : Type := {
  messageData : Api.value;
  resourceData : Api.value;
  flowMetrics : Api.value;
  period : Period
}.

(** The body of the [forEach] over the flow metrics: [flow.messageCount] is a
    [TypeError] on a [null] entry. *)
Definition addFlow (acc : number * nat) (flow : Api.value)
  : outcome (number * nat) :=
  let '(totalMessages, flowsWithData) := acc in
  messageCount <- Api.member flow "messageCount" ;;
  if Api.truthyValue messageCount then
    match Api.property messageCount "count" with
    | Api.JNumber c => Returns ((totalMessages + c)%js, S flowsWithData)
    | _ => Returns acc
    end
  else Returns acc.

(** Tier 1: flow-level metrics. *)
Definition flowTier (md : MonitoringData) (w : Working) : outcome Working :=
  match flowMetrics md with
  | Api.JArray flows =>
      r <- foldM addFlow flows (num 0, 0%nat) ;;
      let '(totalMessages, flowsWithData) := r in
      if (0 <? flowsWithData)%nat then
        Returns {| daily := (totalMessages / days (period md))%js;
                   workingConfidence := high;
                   workingSource := "Flow-level message metrics" |}
      else Returns w
  | _ => Returns w
  end.

(** Tier 2: the application-level message count. *)
Definition applicationTier (md : MonitoringData) (w : Working) : Working :=
  if strict_eq (daily w) (num 0) && Api.truthyValue (messageData md) then
    let messageCount := Api.property (messageData md) "messageCount" in
    if Api.truthyValue messageCount then
      match Api.property messageCount "count" with
      | Api.JNumber c =>
          {| daily := (c / days (period md))%js;
             workingConfidence := medium;
             workingSource := "Application-level message metrics" |}
      | _ => w
      end
    else w
  else w.

(** Tier 3: the CPU heuristic. *)
Definition cpuTier (md : MonitoringData) (w : Working) : Working :=
  if strict_eq (daily w) (num 0) && Api.truthyValue (resourceData md) then
    let cpu := Api.property (resourceData md) "cpu" in
    if Api.truthyValue cpu then
      match Api.property cpu "average" with
      | Api.JNumber avgCpuPercent =>
          {| daily := (avgCpuPercent * num 100)%js;
             workingConfidence := low;
             workingSource := "CPU usage heuristic" |}
      | _ => w
      end
    else w
  else w.

Definition estimateMessageVolume (monitoringData : option MonitoringData)
  : outcome MessageEstimate :=
  match monitoringData with
  | None =>
      Returns {| estimatedDailyMessages := num 0;
                 estimatedMonthlyMessages := num 0;
                 messageConfidence := none;
                 messageSource := "No monitoring data available" |}
  | Some md =>
      w <- flowTier md initialWorking ;;
      let w := cpuTier md (applicationTier md w) in
      let estimatedMonthlyMessages := Math_round (daily w * num 30) in
      Returns {| estimatedDailyMessages := Math_round (daily w);
                 estimatedMonthlyMessages := estimatedMonthlyMessages;
                 messageConfidence := workingConfidence w;
                 messageSource := workingSource w |}
  end.

(** An entry of the flow metrics that carries a numeric message count. *)
Definition hasNumericCount (flow : Api.value) : bool :=
  Api.truthyValue (Api.property flow "messageCount") &&
  match Api.property (Api.property flow "messageCount") "count" with
  | Api.JNumber _ => true
  | _ => false
  end.

(** The monitoring data with its flow-level metrics replaced. *)
Definition withFlowMetrics (md : MonitoringData) (flows : Api.value)
  : MonitoringData :=
  {| messageData := messageData md;
     resourceData := resourceData md;
     flowMetrics := flows;
     period := period md |}.

(** An entry with the message count [c]. *)
Definition flowWithCount (c : number) : Api.value :=
  Api.JObject
    [ ("flowName", Api.JString "main");
      ("messageCount", Api.JObject [ ("count", Api.JNumber c) ]) ].

(** Flow metrics with a [null] entry, an entry without message count, an
    entry whose count is a string, and two entries with a count. *)
Definition flowsWithNull : list Api.value :=
  [ flowWithCount (num 1200);
    Api.JNull;
    Api.JObject [ ("flowName", Api.JString "idle") ];
    Api.JObject [ ("messageCount",
                   Api.JObject [ ("count", Api.JString "7") ]) ];
    flowWithCount (num 300) ].

Definition overThirtyDays (flows : list Api.value) : MonitoringData :=
  {| messageData := Api.JNull;
     resourceData := Api.JNull;
     flowMetrics := Api.JArray flows;
     period := {| from := "2025-01-01T00:00:00.000Z";
                  to := "2025-01-31T00:00:00.000Z";
                  days := num 30 |} |}.

End Metrics.

(** The typed monitoring data as parsed values. *)
Definition ofMessageCount (m : option MessageCount) : Api.value :=
  match m with
  | Some m => Api.JObject [ ("count", ofNumber (count m)) ]
  | None => Api.JUndefined
  end.

Definition ofFlowMetric (flow : FlowMetric) : Api.value :=
  Api.JObject [ ("messageCount", ofMessageCount (flowMessageCount flow)) ].

Definition ofMonitoringData (md : MonitoringData) : Metrics.MonitoringData :=
  {| Metrics.messageData :=
       match messageData md with
       | Some m =>
           Api.JObject [ ("messageCount", ofMessageCount (messageCount m)) ]
       | None => Api.JNull
       end;
     Metrics.resourceData :=
       match resourceData md with
       | Some r =>
           Api.JObject
             [ ("cpu",
                match cpu r with
                | Some c => Api.JObject [ ("average", ofNumber (average c)) ]
                | None => Api.JUndefined
                end) ]
       | None => Api.JNull
       end;
     Metrics.flowMetrics :=
       match flowMetrics md with
       | Some flows => Api.JArray (map ofFlowMetric flows)
       | None => Api.JNull
       end;
     Metrics.period := period md |}.

(** ** The configuration read at startup *)

Module Startup.

(** [CONFIG], without the two directory names. *)
Record CONFIG : Type := {
  clientId : string;
  clientSecret : string;
  debug : bool;
  exportCsv : bool;
  downloadJars : bool;
  analyzeDays : number
}.

(** [a || b] on strings that may be undefined. *)
Definition orString (a b : option string) : option string :=
  match truthy_string a with
  | Some s => Some s
  | None => b
  end.

(** [process.env.NAME !== 'false'] *)
Definition notFalse (v : option string) : bool :=
  match v with
  | Some s => negb (String.eqb s "false")
  | None => true
  end.

(** The configuration for the environment variables [env] and the arguments
    [argv] of the process, [None] when the process exits for want of
    credentials. *)
Definition loadConfig (env : string -> option string) (argv : list string)
  : option CONFIG :=
  let clientId := orString (env "ANYPOINT_CLIENT_ID") (nth_error argv 2) in
  let clientSecret :=
    orString (env "ANYPOINT_CLIENT_SECRET") (nth_error argv 3) in
  let debug :=
    match truthy_string (env "DEBUG") with
    | Some _ => true
    | None =>
        match nth_error argv 4 with
        | Some a => String.eqb a "debug"
        | None => false
        end
    end in
  let analyzeDays :=
    parseInt match orString (env "ANALYZE_DAYS") (Some "30") with
             | Some s => s
             | None => "30"
             end in
  match truthy_string clientId, truthy_string clientSecret with
  | Some id, Some secret =>
      Some {| clientId := id;
              clientSecret := secret;
              debug := debug;
              exportCsv := notFalse (env "EXPORT_CSV");
              downloadJars := notFalse (env "DOWNLOAD_JARS");
              analyzeDays := analyzeDays |}
  | _, _ => None
  end.

(** A string that does not start with a decimal digit. *)
Definition noLeadingDigit (s : string) : Prop :=
  match s with
  | EmptyString => True
  | String c _ => digit_value c = None
  end.

(** Environment variables with credentials and the given [ANALYZE_DAYS]. *)
Definition withAnalyzeDays (days : option string) (name : string)
  : option string :=
  if String.eqb name "ANYPOINT_CLIENT_ID" then Some "client"
  else if String.eqb name "ANYPOINT_CLIENT_SECRET" then Some "secret"
  else if String.eqb name "ANALYZE_DAYS" then days
  else None.

End Startup.

(** ** [getApplicationMonitoringData] *)

Module Monitoring.

(** The [data] of a metrics response, with the truthiness of its [error]
    property. *)
Record Body (A : Type) : Type := {
  content : A;
  error : bool
}.

Arguments content {A} b.
Arguments error {A} b.

(** One request: it throws, or answers with data that may be falsy. *)
Definition Fetch (A : Type) : Type := outcome (option (Body A)).

(** The [try] around one request: the data when the request succeeds with
    truthy data without error, [null] otherwise. *)
Definition payload {A : Type} (f : Fetch A) : option A :=
  match try_catch
          (r <- f ;;
           match r with
           | Some body => if negb (error body) then Returns (Some (content body))
                          else Returns None
           | None => Returns None
           end)
          (fun _ => Returns None) with
  | Returns p => p
  | Throws _ => None
  end.

(** [getApplicationMonitoringData]: [dates] is the pair of ISO strings of the
    start and end date, or the [RangeError] of an invalid date; the flow
    metrics are [Some] when the data of the flow response is an array. *)
Definition getApplicationMonitoringData (analyzeDays : number)
  (dates : outcome (string * string))
  (messageResponse : Fetch MessageData)
  (resourceResponse : Fetch ResourceData)
  (flowResponse : Fetch (option (list FlowMetric)))
  : option MonitoringData :=
  match try_catch
          (d <- dates ;;
           let messageData := payload messageResponse in
           let resourceData := payload resourceResponse in
           let flowMetrics := payload flowResponse in
           Returns (Some {| messageData := messageData;
                            resourceData := resourceData;
                            flowMetrics :=
                              match flowMetrics with
                              | Some (Some flows) => Some flows
                              | _ => None
                              end;
                            period := {| from := fst d; to := snd d;
                                         days := analyzeDays |} |}))
          (fun _ => Returns None) with
  | Returns r => r
  | Throws _ => None
  end.

(** A request is lost: it throws, answers without data, or answers with an
    error. *)
Definition lost {A : Type} (f : Fetch A) : Prop :=
  (exists e, f = Throws e) \/ f = Returns None \/
  (exists body, f = Returns (Some body) /\ error body = true).

Definition january : outcome (string * string) :=
  Returns ("2025-01-01T00:00:00.000Z", "2025-01-31T00:00:00.000Z").

End Monitoring.

(** ** [downloadApplicationJar] *)

Module Download.

(** The disk as [fs.existsSync] and [fs.statSync] see it: what is at a path,
    file or directory, with its size in bytes. *)
Definition Disk : Type := string -> option N.

(** A computation on the disk that returns or throws. *)
Definition M (A : Type) : Type := Disk -> outcome A * Disk.

Definition ret {A : Type} (a : A) : M A := fun disk => (Returns a, disk).

Definition lift {A : Type} (o : outcome A) : M A := fun disk => (o, disk).

Definition bindM {A B : Type} (m : M A) (k : A -> M B) : M B :=
  fun disk =>
    match m disk with
    | (Returns a, disk') => k a disk'
    | (Throws e, disk') => (Throws e, disk')
    end.

(** [try { body } catch (e) { handler(e) }], the handler running on the disk
    the body left. *)
Definition tryM {A : Type} (body : M A) (handler : string -> M A) : M A :=
  fun disk =>
    match body disk with
    | (Returns a, disk') => (Returns a, disk')
    | (Throws e, disk') => handler e disk'
    end.

Notation "x <~ m ;; k" := (bindM m (fun x => k))
  (at level 61, m at next level, right associativity).

Definition writeFile (disk : Disk) (path : string) (bytes : N) : Disk :=
  fun p => if String.eqb p path then Some bytes else disk p.

(** [fs.existsSync] and, on what exists, the size [fs.statSync] reads. *)
Definition existsSync (path : string) : M (option N) :=
  fun disk => (Returns (disk path), disk).

(** What [fs.mkdirSync(path, { recursive: true })] does to a disk. *)
Definition MkdirSync : Type := string -> M unit.

(** [ensureDirectoryExists] *)
Definition ensureDirectoryExists (mkdirSync : MkdirSync) (dirPath : string)
  : M unit :=
  fun disk =>
    match disk dirPath with
    | Some _ => (Returns tt, disk)
    | None => mkdirSync dirPath disk
    end.

(** What [fs.writeFileSync] does: it writes the file, or it throws and leaves
    at the path what [remains] says ([None]: the disk as it was). *)
Inductive WriteOutcome : Type :=
| Written
| Failed (remains : option N).

Definition writeFileSync (write : WriteOutcome) (path : string) (bytes : N)
  : M unit :=
  fun disk =>
    match write with
    | Written => (Returns tt, writeFile disk path bytes)
    | Failed (Some remains) =>
        (Throws "Error: write failed", writeFile disk path remains)
    | Failed None => (Throws "Error: write failed", disk)
    end.

(** A message that names [v] in a template literal. *)
Definition log (v : Api.value) : M unit := lift (Api.toStringOf v).

(** The object [downloadApplicationJar] returns. *)
Record JarInfo : Type := {
  jarPath : string;
  downloaded : bool;
  size : N;
  method : option string
}.

Section WithPaths.

(** [path.join] *)
Variable join : string -> string -> string.

Definition jarsDirPath : string := join "consumption-data" "application-jars".

(** [path.join(jarsDirPath, fileName)]: a [TypeError] unless the file name is
    a string. *)
Definition joinFileName (fileName : Api.value) : outcome string :=
  match fileName with
  | Api.JString s => Returns (join jarsDirPath s)
  | _ => Throws "TypeError: The path argument must be of type string"
  end.

(** [downloadApplicationJar]: [request] is the outcome of the request for
    the artifact (the length of its data, [None] for falsy data) and [write]
    what [fs.writeFileSync] does.  The result is the returned object, [None]
    for [null], or the exception, and the disk after the call.  Every
    message of the function names the domain, the messages of the two
    [catch] blocks included; the messages under [CONFIG.debug] are those
    guarded by [debug]. *)
Definition downloadApplicationJar (downloadJars debug : bool)
  (appDetails : Api.value) (mkdirSync : MkdirSync)
  (request : outcome (option N)) (write : WriteOutcome)
  : M (option JarInfo) :=
  if negb downloadJars then ret None
  else
    domain <~ lift (Api.member appDetails "domain") ;;
    fileName <~ lift (Api.member appDetails "fileName") ;;
    _ <~ (if Api.truthyValue fileName then ret tt else log domain) ;;
    tryM
      (_ <~ (if debug then log domain else ret tt) ;;
       if negb (Api.truthyValue fileName) then
         _ <~ log domain ;; ret None
       else
         _ <~ ensureDirectoryExists mkdirSync jarsDirPath ;;
         jarPath <~ lift (joinFileName fileName) ;;
         found <~ existsSync jarPath ;;
         match found with
         | Some bytes =>
             _ <~ log domain ;;
             ret (Some {| jarPath := jarPath; downloaded := false;
                          size := bytes; method := None |})
         | None =>
             _ <~ log domain ;;
             let applicationId := Api.property appDetails "versionId" in
             if negb (Api.truthyValue applicationId) then
               _ <~ log domain ;; ret None
             else
               _ <~ (if debug then log applicationId else ret tt) ;;
               tryM
                 (_ <~ log applicationId ;;
                  data <~ lift request ;;
                  match data with
                  | None => _ <~ log domain ;; ret None
                  | Some bytes =>
                      _ <~ writeFileSync write jarPath bytes ;;
                      _ <~ log domain ;;
                      ret (Some {| jarPath := jarPath; downloaded := true;
                                   size := bytes;
                                   method := Some "arm-api" |})
                  end)
                 (fun _ => _ <~ log domain ;; ret None)
         end)
      (fun _ => _ <~ log domain ;; ret None).

End WithPaths.

(** Joining with a slash, for paths that need no normalization. *)
Definition slashJoin (a b : string) : string := a ++ "/" ++ b.

Definition emptyDisk : Disk := fun _ => None.

(** A [mkdirSync] that makes the directory, of 4096 bytes. *)
Definition makesDirectory : MkdirSync :=
  fun path disk => (Returns tt, writeFile disk path 4096).

(** [mkdirSync] keeps its word: when it returns, something is at the path. *)
Definition makesWhatItReturns (mkdirSync : MkdirSync) : Prop :=
  forall path disk disk',
    mkdirSync path disk = (Returns tt, disk') -> disk' path <> None.

(** The details of an application with a file name and a version id. *)
Definition customerDetails : Api.value :=
  Api.JObject [ ("domain", Api.JString "customer-eapi");
                ("fileName", Api.JString "customer-eapi-salesforce-v1.jar");
                ("versionId", Api.JString "5f2c") ].

(** Details whose domain is an object with a [toString] property. *)
Definition unprintableDomain : Api.value :=
  Api.JObject [ ("domain", Api.JObject [ ("toString", Api.JNumber (num 1)) ]);
                ("fileName", Api.JString "customer-eapi-salesforce-v1.jar");
                ("versionId", Api.JString "5f2c") ].

End Download.

(** ** [getApplicationDetails] and the guard of the download *)

Module Details.

(** [getApplicationDetails]: the data of the response, [null] when the
    request fails or the data is falsy. *)
Definition getApplicationDetails (response : outcome Api.value) : Api.value :=
  match try_catch
          (data <- response ;;
           if negb (Api.truthyValue data) then Returns Api.JNull
           else Returns data)
          (fun _ => Returns Api.JNull) with
  | Returns details => details
  | Throws _ => Api.JNull
  end.

(** The download as the run calls it:
    [if (CONFIG.downloadJars && appDetails) jarInfo = await
    downloadApplicationJar(...)]. *)
Definition jarInfoFor (join : string -> string -> string)
  (downloadJars debug : bool) (appDetails : Api.value)
  (mkdirSync : Download.MkdirSync) (request : outcome (option N))
  (write : Download.WriteOutcome) : Download.M (option Download.JarInfo) :=
  if downloadJars && Api.truthyValue appDetails then
    Download.downloadApplicationJar join downloadJars debug appDetails
                                    mkdirSync request write
  else Download.ret None.

End Details.
(** * Properties *)

(** ** Arithmetic of the number model *)

Section NumberFacts.

Lemma Qred_inject_Z (z : Z) : Qred (inject_Z z) = inject_Z z.
Proof.
  unfold Qred, inject_Z.
  pose proof (Z.ggcd_gcd z 1) as Hg.
  pose proof (Z.ggcd_correct_divisors z 1) as Hd.
  destruct (Z.ggcd z 1) as [g [a b]]. simpl in *.
  rewrite Z.gcd_1_r in Hg. subst g. destruct Hd as [Ha Hb].
  rewrite Z.mul_1_l in Ha, Hb. subst a b. reflexivity.
Qed.

Lemma add_of_Z (a b : Z) : (of_Z a + of_Z b)%js = of_Z (a + b).
Proof.
  unfold add, of_Z. f_equal.
  rewrite <- (Qred_inject_Z (a + b)).
  apply Qred_complete. rewrite inject_Z_plus. reflexivity.
Qed.




Lemma Math_round_nonneg (q : Q) :
  (0 <= q)%Q -> exists z, (0 <= z)%Z /\ Math_round (Fin q) = of_Z z.
Proof.
  intros Hq. exists (Qfloor (q + (1 # 2))). split; [|reflexivity].
  change 0%Z with (Qfloor 0).
  apply Qfloor_resp_le. lra.
Qed.

End NumberFacts.

(** ** The primitives on concrete values *)

Example Math_round_half_up :
  Math_round (dec 5 2) = num 3 /\ Math_round (dec (-5) 2) = num (-2) /\
  Math_round (dec 46 10) = num 5 /\ Math_round NaN = NaN.
Proof. repeat split. Qed.

Example division_by_zero :
  (num 5 / num 0)%js = PosInf /\ (num 0 / num 0)%js = NaN /\
  (num (-5) / num 0)%js = NegInf.
Proof. repeat split. Qed.

Example parseInt_of_grep_output :
  parseInt (grepOutput 12) = num 12 /\ parseInt (grepOutput 0) = num 0 /\
  parseInt EmptyString = NaN /\ parseInt " 7 flows" = num 7.
Proof. repeat split. Qed.

Example toFixed2_of_sizes :
  toFixed2 (fileSizeInMB {| stat_size := twoPointThreeMB |}) = "2.30" /\
  toFixed2 (num 0) = "0.00" /\ toFixed2 (dec 1005 100) = "10.05".
Proof. repeat split. Qed.

Example includes_lowered :
  includes (toLowerCase "Customer-EAPI-Salesforce-v1.jar") "eapi" = true /\
  includes (toLowerCase "orders") "sapi" = false.
Proof. repeat split. Qed.

(** ** The message-volume estimator *)

Section MessageVolume.

Variable md : MonitoringData.

Lemma flowTier_fires :
  flowTierFires md = true ->
  flowTier md initialWorking =
  {| daily := (flowTotal md / days (period md))%js;
     workingConfidence := high;
     workingSource := "Flow-level message metrics" |}.
Proof.
  unfold flowTierFires, flowTier, flowTotal.
  destruct (flowMetrics md) as [flows|]; [|discriminate].
  destruct (sumFlows flows) as [t n]. simpl. intros ->. reflexivity.
Qed.

Lemma flowTier_idle :
  flowTierFires md = false -> flowTier md initialWorking = initialWorking.
Proof.
  unfold flowTierFires, flowTier.
  destruct (flowMetrics md) as [flows|]; [|reflexivity].
  destruct (sumFlows flows) as [t n]. simpl. intros ->. reflexivity.
Qed.

Lemma applicationTier_cases (w : Working) :
  applicationTier md w =
  match isZero (daily w), applicationCount md with
  | true, Some c =>
      {| daily := (c / days (period md))%js;
         workingConfidence := medium;
         workingSource := "Application-level message metrics" |}
  | _, _ => w
  end.
Proof.
  unfold applicationTier, applicationCount, isZero, numericCount.
  destruct (strict_eq (daily w) (num 0)); [|reflexivity].
  destruct (messageData md) as [[[[[c|]]|]]|]; reflexivity.
Qed.

Lemma cpuTier_cases (w : Working) :
  cpuTier md w =
  match isZero (daily w), cpuAverage md with
  | true, Some a =>
      {| daily := (a * num 100)%js;
         workingConfidence := low;
         workingSource := "CPU usage heuristic" |}
  | _, _ => w
  end.
Proof.
  unfold cpuTier, cpuAverage, isZero.
  destruct (strict_eq (daily w) (num 0)); [|reflexivity].
  destruct (resourceData md) as [[[[[a|]]|]]|]; reflexivity.
Qed.

End MessageVolume.

(** The result object in terms of the three variables. *)
Lemma estimateMessageVolume_working (md : MonitoringData) :
  estimateMessageVolume (Some md) =
  {| estimatedDailyMessages := Math_round (daily (workingEstimate md));
     estimatedMonthlyMessages :=
       Math_round (daily (workingEstimate md) * num 30);
     messageConfidence := workingConfidence (workingEstimate md);
     messageSource := workingSource (workingEstimate md) |}.
Proof. reflexivity. Qed.

(** The three variables after the three tiers, as one table. *)
Lemma workingEstimate_table (md : MonitoringData) :
  workingEstimate md =
  let w1 :=
    if flowTierFires md then
      {| daily := (flowTotal md / days (period md))%js;
         workingConfidence := high;
         workingSource := "Flow-level message metrics" |}
    else initialWorking in
  let w2 :=
    match isZero (daily w1), applicationCount md with
    | true, Some c =>
        {| daily := (c / days (period md))%js;
           workingConfidence := medium;
           workingSource := "Application-level message metrics" |}
    | _, _ => w1
    end in
  match isZero (daily w2), cpuAverage md with
  | true, Some a =>
      {| daily := (a * num 100)%js;
         workingConfidence := low;
         workingSource := "CPU usage heuristic" |}
  | _, _ => w2
  end.
Proof.
  unfold workingEstimate.
  rewrite cpuTier_cases, applicationTier_cases.
  destruct (flowTierFires md) eqn:F.
  - rewrite (flowTier_fires md F). reflexivity.
  - rewrite (flowTier_idle md F). reflexivity.
Qed.

(** C1 (as stated, refuted): with one flow of 15 messages over 30 days the
    unrounded daily estimate is 1/2, so the result carries daily 1 and
    monthly 15, and 15 is not [round (1 * 30)]. *)
Lemma monthly_differs_from_rounded_daily_times_30 :
  estimatedDailyMessages (estimateMessageVolume (Some halfMessageADay)) = num 1 /\
  estimatedMonthlyMessages (estimateMessageVolume (Some halfMessageADay)) = num 15 /\
  estimatedMonthlyMessages (estimateMessageVolume (Some halfMessageADay)) <>
  Math_round
    (estimatedDailyMessages (estimateMessageVolume (Some halfMessageADay))
     * num 30).
Proof.
  split; [reflexivity|]. split; [reflexivity|].
  vm_compute. discriminate.
Qed.

(** C1 (amended): the monthly value of every result is
    [round (d * 30)] and the daily value is [round d], for the daily estimate
    [d] before rounding (0 without monitoring data); the monthly value is
    [round (daily * 30)] of the returned daily value whenever [d] is already
    an integer. *)
Theorem monthly_is_round_of_unrounded_daily_times_30
  (monitoringData : option MonitoringData) :
  estimatedDailyMessages (estimateMessageVolume monitoringData) =
    Math_round (unroundedDaily monitoringData) /\
  estimatedMonthlyMessages (estimateMessageVolume monitoringData) =
    Math_round (unroundedDaily monitoringData * num 30) /\
  (Math_round (unroundedDaily monitoringData) = unroundedDaily monitoringData ->
   estimatedMonthlyMessages (estimateMessageVolume monitoringData) =
   Math_round (estimatedDailyMessages (estimateMessageVolume monitoringData)
               * num 30)).
Proof.
  destruct monitoringData as [md|].
  - rewrite estimateMessageVolume_working. simpl.
    split; [reflexivity|]. split; [reflexivity|].
    intros ->. reflexivity.
  - split; [reflexivity|]. split; [reflexivity|]. intros _. reflexivity.
Qed.

(** With 100 messages a day the monthly value is 30 times the daily one. *)
Lemma monthly_is_round_of_unrounded_daily_times_30_witness :
  Math_round (unroundedDaily (Some threeThousandMessages)) =
    unroundedDaily (Some threeThousandMessages) /\
  estimatedMonthlyMessages (estimateMessageVolume (Some threeThousandMessages)) =
  Math_round
    (estimatedDailyMessages (estimateMessageVolume (Some threeThousandMessages))
     * num 30).
Proof.
  split.
  - vm_compute. reflexivity.
  - apply (monthly_is_round_of_unrounded_daily_times_30
             (Some threeThousandMessages)).
    vm_compute. reflexivity.
Defined.



(** ** Division by the analysis period *)

Section PeriodDays.

Lemma Qred_nonneg (q : Q) : (0 <= q)%Q -> (0 <= Qred q)%Q.
Proof. intros H. rewrite Qred_correct. exact H. Qed.

Lemma nonnegFinite_add (a b : number) :
  nonnegFinite a -> nonnegFinite b -> nonnegFinite (a + b).
Proof.
  destruct a as [x| | |], b as [y| | |]; cbn [nonnegFinite add]; try tauto.
  intros Hx Hy. apply Qred_nonneg. lra.
Qed.

Lemma nonnegFinite_mul (a b : number) :
  nonnegFinite a -> nonnegFinite b -> nonnegFinite (a * b).
Proof.
  destruct a as [x| | |], b as [y| | |]; cbn [nonnegFinite mul]; try tauto.
  intros Hx Hy. apply Qred_nonneg. apply Qmult_le_0_compat; assumption.
Qed.

Lemma nonnegFinite_div (a d : number) :
  nonnegFinite a -> lt (num 0) d = true -> nonnegFinite (a / d).
Proof.
  destruct a as [x| | |], d as [y| | |];
    cbn [nonnegFinite div lt num of_Z]; try tauto; try discriminate;
    try (intros _ _; apply Qle_refl).
  intros Hx Hy.
  destruct (inject_Z 0 ?= y)%Q eqn:E; try discriminate.
  apply Qlt_alt in E. change (inject_Z 0) with 0%Q in E.
  destruct (Qeq_bool y 0) eqn:Ey.
  - apply Qeq_bool_eq in Ey. lra.
  - cbn [nonnegFinite]. apply Qred_nonneg.
    apply Qle_shift_div_l; [exact E | lra].
Qed.

Lemma nonnegFinite_round (a : number) :
  nonnegFinite a -> is_nonneg_integer (Math_round a).
Proof.
  destruct a as [x| | |]; simpl; try tauto.
  intros Hx. apply Math_round_nonneg. exact Hx.
Qed.

Lemma sumFlows_nonneg (flows : list FlowMetric) :
  Forall (fun f => forall c, numericCount (flowMessageCount f) = Some c ->
                             nonnegFinite c) flows ->
  nonnegFinite (fst (sumFlows flows)).
Proof.
  unfold sumFlows.
  assert (G : forall acc, nonnegFinite (fst acc) ->
            Forall (fun f => forall c,
                      numericCount (flowMessageCount f) = Some c ->
                      nonnegFinite c) flows ->
            nonnegFinite (fst (fold_left addFlow flows acc))).
  { induction flows as [|f rest IH]; intros [t n] Ht Hall; simpl; [exact Ht|].
    inversion Hall as [|? ? Hf Hrest]; subst.
    apply IH; [|exact Hrest].
    destruct (flowMessageCount f) as [[[c|]]|]; simpl; try exact Ht.
    apply nonnegFinite_add; [exact Ht|]. apply Hf. reflexivity. }
  apply G. simpl. apply Qle_refl.
Qed.

Lemma nonneg_integer_whole (a : number) :
  is_nonneg_integer a -> wholeNotNegative a.
Proof.
  intros (z & Hz & ->). split.
  - cbn [le num of_Z]. rewrite <- Zle_Qle. exact Hz.
  - unfold Math_round, of_Z. f_equal. f_equal.
    pose proof (Qfloor_le (inject_Z z + (1 # 2))) as Hle.
    pose proof (Qlt_floor (inject_Z z + (1 # 2))) as Hlt.
    set (f := Qfloor (inject_Z z + (1 # 2))) in *.
    assert (L : (inject_Z z < inject_Z (f + 1))%Q).
    { rewrite inject_Z_plus in *. change (inject_Z 1) with 1%Q in *. lra. }
    assert (U : (inject_Z f < inject_Z (z + 1))%Q).
    { rewrite inject_Z_plus in *. change (inject_Z 1) with 1%Q in *. lra. }
    rewrite <- Zlt_Qlt in L, U. lia.
Qed.

Lemma div_by_zero_not_finite (a : number) (q : Q) :
  (q == 0)%Q -> is_finite (a / Fin q) = false.
Proof.
  intros Hq. apply Qeq_bool_iff in Hq.
  destruct a as [x| | |]; simpl; try rewrite Hq; try reflexivity.
  destruct (x ?= 0)%Q; reflexivity.
Qed.

Lemma not_finite_result (a : number) :
  is_finite a = false ->
  isZero a = false /\ is_finite (Math_round a) = false /\
  is_finite (Math_round (a * num 30)) = false.
Proof.
  destruct a; simpl; try discriminate; intros _; repeat split.
Qed.

End PeriodDays.

(** C10 (as stated, refuted): over a period of 30 days, a positive number, a
    flow-level count of -30 gives daily -1 and monthly -30. *)
Lemma positive_days_do_not_exclude_negative_estimates :
  lt (num 0) (days (period negativeCount)) = true /\
  estimatedDailyMessages (estimateMessageVolume (Some negativeCount)) = num (-1) /\
  estimatedMonthlyMessages (estimateMessageVolume (Some negativeCount)) =
    num (-30) /\
  ~ is_nonneg_integer
      (estimatedDailyMessages (estimateMessageVolume (Some negativeCount))).
Proof.
  repeat split; try reflexivity.
  intros [z [Hz E]]. vm_compute in E. injection E as E. lia.
Qed.

(** C10 (amended): [estimateMessageVolume] divides by [period.days] without a
    guard.  When [period.days] is a positive finite number and every metric
    value read is finite and not negative, the returned daily and monthly
    values are whole numbers that are not negative: never [NaN], never below
    0, and integers unless the arithmetic overflows to [Infinity].  The
    positivity is needed: with [period.days = 0] and a flow-level or an
    application-level message count present, the division is by zero and
    neither returned value is finite. *)
Theorem period_days_must_be_positive (md : MonitoringData) :
  (forall d, days (period md) = Fin d -> (0 < d)%Q -> nonnegMetrics md ->
   wholeNotNegative
     (estimatedDailyMessages (estimateMessageVolume (Some md))) /\
   wholeNotNegative
     (estimatedMonthlyMessages (estimateMessageVolume (Some md)))) /\
  (forall q, days (period md) = Fin q -> (q == 0)%Q ->
   flowTierFires md = true \/ (exists c, applicationCount md = Some c) ->
   is_finite (estimatedDailyMessages (estimateMessageVolume (Some md))) = false /\
   is_finite (estimatedMonthlyMessages (estimateMessageVolume (Some md)))
     = false).
Proof.
  rewrite estimateMessageVolume_working. simpl.
  rewrite workingEstimate_table.
  split.
  - intros d Hdays Hpos (Hflows & Happ & Hcpu).
    assert (Hd : lt (num 0) (days (period md)) = true).
    { rewrite Hdays. unfold lt, num, of_Z.
      change (inject_Z 0) with 0%Q.
      apply Qlt_alt in Hpos. change ((0 ?= d)%Q = Lt) in Hpos.
      rewrite Hpos. reflexivity. }
    assert (N : nonnegFinite (daily
      (let w1 :=
         if flowTierFires md then
           {| daily := (flowTotal md / days (period md))%js;
              workingConfidence := high;
              workingSource := "Flow-level message metrics" |}
         else initialWorking in
       let w2 :=
         match isZero (daily w1), applicationCount md with
         | true, Some c =>
             {| daily := (c / days (period md))%js;
                workingConfidence := medium;
                workingSource := "Application-level message metrics" |}
         | _, _ => w1
         end in
       match isZero (daily w2), cpuAverage md with
       | true, Some a =>
           {| daily := (a * num 100)%js;
              workingConfidence := low;
              workingSource := "CPU usage heuristic" |}
       | _, _ => w2
       end))).
    { assert (N1 : nonnegFinite (flowTotal md / days (period md))).
      { apply nonnegFinite_div; [|exact Hd]. unfold flowTotal.
        destruct (flowMetrics md) as [flows|] eqn:E.
        - apply sumFlows_nonneg. apply Hflows. reflexivity.
        - simpl. apply Qle_refl. }
      assert (N0 : nonnegFinite (num 0)) by (simpl; apply Qle_refl).
      assert (N2 : forall c, applicationCount md = Some c ->
                             nonnegFinite (c / days (period md))).
      { intros c Hc. apply nonnegFinite_div; [apply Happ; exact Hc | exact Hd]. }
      assert (N3 : forall a, cpuAverage md = Some a ->
                             nonnegFinite (a * num 100)).
      { intros a Ha. apply nonnegFinite_mul; [apply Hcpu; exact Ha|].
        simpl. discriminate. }
      cbv zeta.
      destruct (flowTierFires md);
        destruct (applicationCount md) as [c|];
        destruct (cpuAverage md) as [a|]; simpl;
        repeat match goal with
               | |- context [isZero ?x] => destruct (isZero x); simpl
               end;
        auto. }
    split.
    + apply nonneg_integer_whole, nonnegFinite_round. exact N.
    + apply nonneg_integer_whole, nonnegFinite_round.
      apply nonnegFinite_mul; [exact N|].
      simpl. discriminate.
  - intros q Hq Hz Hdata. rewrite Hq. cbv zeta.
    assert (D : forall a, is_finite (a / Fin q) = false)
      by (intros a; apply div_by_zero_not_finite; exact Hz).
    destruct (flowTierFires md).
    + destruct (not_finite_result _ (D (flowTotal md))) as (Z & R1 & R2).
      simpl. rewrite Z.
      destruct (applicationCount md); simpl; rewrite Z; simpl; auto.
    + destruct Hdata as [Hf | [c Hc]]; [discriminate|].
      rewrite Hc. simpl. change (isZero (num 0)) with true. cbv iota.
      destruct (not_finite_result _ (D c)) as (Z & R1 & R2).
      simpl. rewrite Z. auto.
Qed.

(** Thirty days with counts that are not negative, and zero days. *)
Lemma period_days_must_be_positive_witness :
  (days (period threeThousandMessages) = Fin 30 /\ (0 < 30)%Q /\
   nonnegMetrics threeThousandMessages /\
   wholeNotNegative
     (estimatedDailyMessages
        (estimateMessageVolume (Some threeThousandMessages)))) /\
  (days (period zeroDays) = Fin 0 /\ flowTierFires zeroDays = true /\
   is_finite (estimatedDailyMessages (estimateMessageVolume (Some zeroDays)))
   = false).
Proof.
  assert (M : nonnegMetrics threeThousandMessages).
  { split; [|split].
    - intros flows H. injection H as <-.
      repeat constructor; intros c Hc; injection Hc as <-;
        simpl; discriminate.
    - intros c Hc. discriminate.
    - intros a Ha. discriminate. }
  split.
  - split; [reflexivity|]. split; [reflexivity|]. split; [exact M|].
    apply (proj1 (period_days_must_be_positive threeThousandMessages)
                 30%Q eq_refl eq_refl M).
  - split; [reflexivity|]. split; [reflexivity|].
    apply (proj2 (period_days_must_be_positive zeroDays) 0%Q eq_refl).
    + reflexivity.
    + left. reflexivity.
Defined.

(** ** The metadata estimator *)

Section Metadata.

Lemma fileNamePatterns_value (s : string) :
  fst (fileNamePatterns s (num 2, "Application metadata")) =
  of_Z (baseValue (FromFileName s) + integrationBonus (FromFileName s)).
Proof.
  unfold fileNamePatterns, baseValue, integrationBonus.
  destruct (includes s "eapi" || includes s "experience-api");
    [|destruct (includes s "papi" || includes s "process-api");
      [|destruct (includes s "sapi" || includes s "system-api")]];
    (destruct (includes s "salesforce" || includes s "sfdc");
     [|destruct (includes s "onbase" || includes s "database");
       [|destruct (includes s "splunk")]]);
    reflexivity.
Qed.

Lemma domainPatterns_value (s : string) :
  fst (domainPatterns s (num 2, "Application metadata")) =
  of_Z (baseValue (FromDomain s) + integrationBonus (FromDomain s)).
Proof.
  unfold domainPatterns, baseValue, integrationBonus.
  destruct (includes s "eapi" || includes s "experience");
    [|destruct (includes s "papi" || includes s "process");
      [|destruct (includes s "sapi" || includes s "system")]];
    (destruct (includes s "salesforce" || includes s "sfdc");
     [|destruct (includes s "onbase" || includes s "database");
       [|destruct (includes s "splunk")]]);
    reflexivity.
Qed.

Lemma workerHints_value (w : option Workers) (st : number * string) :
  fst (workerHints w st) =
  plusBonus (plusBonus (fst st) (multipleWorkersBonus w)) (workerSizeBonus w).
Proof.
  destruct st as [x s]. unfold workerHints, multipleWorkersBonus, workerSizeBonus.
  destruct w as [[[a|] [[[wt|]]|]]|]; cbn [amount type weight fst];
    try destruct (gt a (num 1)); try destruct (gt wt (dec 1 10));
    reflexivity.
Qed.

(** The estimate of the metadata path before the clamp. *)
Lemma estimateBasedOnAppDetails_value (d : AppDetails) :
  estimatedFlows (estimateBasedOnAppDetails (Some d)) =
  clamp (plusBonus
           (plusBonus
              (of_Z (baseValue (chosenName d) + integrationBonus (chosenName d)))
              (multipleWorkersBonus (workers d)))
           (workerSizeBonus (workers d))).
Proof.
  unfold estimateBasedOnAppDetails, chosenName.
  match goal with
  | |- context [workerHints ?w ?st] =>
      pose proof (workerHints_value w st) as H;
      destruct (workerHints w st) as [x s] eqn:E
  end.
  simpl in H. cbn [estimatedFlows]. rewrite H. f_equal. f_equal. f_equal.
  destruct (truthy_string (fileName d)) as [f|].
  - apply fileNamePatterns_value.
  - destruct (truthy_string (domain d)) as [n|].
    + apply domainPatterns_value.
    + reflexivity.
Qed.

Lemma estimateBasedOnAppDetails_low (d : option AppDetails) :
  confidence (estimateBasedOnAppDetails d) = low.
Proof.
  destruct d as [d|]; [|reflexivity].
  unfold estimateBasedOnAppDetails.
  match goal with
  | |- context [workerHints ?w ?st] => destruct (workerHints w st)
  end.
  reflexivity.
Qed.

End Metadata.

Lemma baseValue_cases (n : NameSource) :
  In (baseValue n) [5; 7; 3; 2]%Z.
Proof.
  destruct n as [s|s|]; unfold baseValue;
    repeat match goal with
           | |- context [if ?b then _ else _] => destruct b
           end;
    simpl; auto.
Qed.

Lemma integrationBonus_cases (n : NameSource) :
  In (integrationBonus n) [2; 1; 0]%Z.
Proof.
  destruct n as [s|s|]; unfold integrationBonus;
    repeat match goal with
           | |- context [if ?b then _ else _] => destruct b
           end;
    simpl; auto.
Qed.

(** C3: [estimateBasedOnAppDetails] looks the patterns up in the lower-cased
    artifact file name when it is present, else in the lower-cased domain.
    The base is 5 for eapi/experience, 7 for papi/process, 3 for sapi/system
    and 2 otherwise; at most one integration bonus is added, the first that
    matches of salesforce/sfdc (+2), onbase/database (+1) and splunk (+1);
    the confidence is [low].  Without worker bonuses the estimate is base
    plus bonus: the file name "customer-eapi-salesforce-v1.jar" yields 7, and
    the domain "order-papi-database" with one worker of weight 0 yields 8. *)
Theorem metadata_estimate_from_name_patterns (d : AppDetails) :
  (forall f, truthy_string (fileName d) = Some f ->
             chosenName d = FromFileName (toLowerCase f)) /\
  (forall n, truthy_string (fileName d) = None ->
             truthy_string (domain d) = Some n ->
             chosenName d = FromDomain (toLowerCase n)) /\
  In (baseValue (chosenName d)) [5; 7; 3; 2]%Z /\
  In (integrationBonus (chosenName d)) [2; 1; 0]%Z /\
  confidence (estimateBasedOnAppDetails (Some d)) = low /\
  estimatedFlows (estimateBasedOnAppDetails (Some d)) =
    clamp (plusBonus
             (plusBonus
                (of_Z (baseValue (chosenName d)
                       + integrationBonus (chosenName d)))
                (multipleWorkersBonus (workers d)))
             (workerSizeBonus (workers d))) /\
  (multipleWorkersBonus (workers d) = None ->
   workerSizeBonus (workers d) = None ->
   estimatedFlows (estimateBasedOnAppDetails (Some d)) =
     of_Z (baseValue (chosenName d) + integrationBonus (chosenName d))) /\
  estimateBasedOnAppDetails (Some customerEapi) =
    {| estimatedFlows := num 7;
       confidence := low;
       source := "EAPI filename pattern + Salesforce pattern";
       size := None;
       details := None |} /\
  estimateBasedOnAppDetails (Some orderPapi) =
    {| estimatedFlows := num 8;
       confidence := low;
       source := "PAPI domain pattern + Database pattern";
       size := None;
       details := None |}.
Proof.
  split; [intros f Hf; unfold chosenName; rewrite Hf; reflexivity|].
  split; [intros n Hf Hn; unfold chosenName; rewrite Hf, Hn; reflexivity|].
  split; [apply baseValue_cases|].
  split; [apply integrationBonus_cases|].
  split; [apply estimateBasedOnAppDetails_low|].
  split; [apply estimateBasedOnAppDetails_value|].
  split; [|split; reflexivity].
  intros Hm Hs. rewrite estimateBasedOnAppDetails_value, Hm, Hs.
  cbn [plusBonus].
  pose proof (baseValue_cases (chosenName d)) as Hb.
  pose proof (integrationBonus_cases (chosenName d)) as Hi.
  simpl in Hb, Hi.
  destruct Hb as [<-|[<-|[<-|[<-|[]]]]];
    destruct Hi as [<-|[<-|[<-|[]]]]; reflexivity.
Qed.

(** The domain scenario: base 7 and bonus 1. *)
Lemma metadata_estimate_from_name_patterns_witness :
  truthy_string (fileName orderPapi) = None /\
  truthy_string (domain orderPapi) = Some "order-papi-database" /\
  multipleWorkersBonus (workers orderPapi) = None /\
  workerSizeBonus (workers orderPapi) = None /\
  chosenName orderPapi = FromDomain "order-papi-database" /\
  estimatedFlows (estimateBasedOnAppDetails (Some orderPapi)) = of_Z (7 + 1).
Proof.
  do 4 (split; [reflexivity|]).
  split.
  - apply (proj1 (proj2 (metadata_estimate_from_name_patterns orderPapi))
             "order-papi-database"); reflexivity.
  - apply (proj1 (proj2 (proj2 (proj2 (proj2 (proj2 (proj2
             (metadata_estimate_from_name_patterns orderPapi))))))));
      reflexivity.
Defined.

(** ** The artifact flow counter *)

Section Artifact.

Lemma extractFlows_cases (ex : Extraction) :
  extractFlows ex =
  match ensureTempDir ex, muleConfigFiles ex with
  | Throws _, _ => None
  | Returns _, [] => None
  | Returns _, _ :: _ => Some (structuredCount ex, "XML analysis")
  end.
Proof.
  unfold extractFlows, structuredCount.
  destruct (ensureTempDir ex) as [u|e]; [|reflexivity].
  destruct (muleConfigFiles ex) as [|f rest]; [reflexivity|].
  cbn [bind try_catch].
  destruct (fold_left (countConfig ex) (f :: rest) (num 0, num 0, num 0))
    as [[a b] c].
  reflexivity.
Qed.


(** The result of [analyzeJarForFlows], path by path. *)
Lemma analyzeJarForFlows_cases (fs : FileSystem) (jarPath : option string)
  (appDetails : option AppDetails) :
  analyzeJarForFlows fs jarPath appDetails =
  Returns
    match truthy_string jarPath with
    | None => estimateBasedOnAppDetails appDetails
    | Some path =>
        if existsSync fs path then
          match statSync fs path with
          | Throws _ => estimateBasedOnAppDetails appDetails
          | Returns stats =>
              match extractFlows (extractJar fs path) with
              | Some (extractedFlows, flowSource) =>
                  structuredResult stats extractedFlows flowSource
              | None => sizeHeuristicResult stats
              end
          end
        else estimateBasedOnAppDetails appDetails
    end.
Proof.
  unfold analyzeJarForFlows.
  destruct (truthy_string jarPath) as [path|]; [|reflexivity].
  destruct (existsSync fs path); [|reflexivity].
  cbn [negb].
  destruct (statSync fs path) as [stats|e]; [|reflexivity].
  cbn [bind try_catch].
  destruct (extractFlows (extractJar fs path)) as [[v s]|]; reflexivity.
Qed.


End Artifact.



(** ** Parsing the output of [grep -c] *)

Section ParseCount.

Variable rest : string.

Lemma digits_acc (d : Decimal.uint) :
  forall acc : positive,
    digits (Some (Zpos acc)) (NilEmpty.string_of_uint d ++ rest) =
    digits (Some (Zpos (Pos.of_uint_acc d acc))) rest.
Proof.
  induction d; intros acc;
    cbn [NilEmpty.string_of_uint String.append digits Pos.of_uint_acc];
    try reflexivity;
    (change (digit_value _) with (Some 0%Z) ||
     change (digit_value _) with (Some 1%Z) ||
     change (digit_value _) with (Some 2%Z) ||
     change (digit_value _) with (Some 3%Z) ||
     change (digit_value _) with (Some 4%Z) ||
     change (digit_value _) with (Some 5%Z) ||
     change (digit_value _) with (Some 6%Z) ||
     change (digit_value _) with (Some 7%Z) ||
     change (digit_value _) with (Some 8%Z) ||
     change (digit_value _) with (Some 9%Z));
    cbv iota;
    match goal with
    | |- digits (Some ?z) _ = digits (Some (Zpos (Pos.of_uint_acc _ ?p))) _ =>
        replace z with (Zpos p) by lia
    end;
    apply IHd.
Qed.

Lemma digits_zero (d : Decimal.uint) :
  digits (Some 0%Z) (NilEmpty.string_of_uint d ++ rest) =
  digits (Some (Z.of_N (Pos.of_uint d))) rest.
Proof.
  induction d; cbn [NilEmpty.string_of_uint String.append digits Pos.of_uint];
    try reflexivity; try exact IHd; apply digits_acc.
Qed.

Lemma digits_numeral (d : Decimal.uint) :
  d <> Decimal.Nil ->
  digits None (NilEmpty.string_of_uint d ++ rest) =
  digits (Some (Z.of_N (Pos.of_uint d))) rest.
Proof.
  destruct d; intros H; try congruence;
    cbn [NilEmpty.string_of_uint String.append digits Pos.of_uint];
    try apply digits_zero; apply digits_acc.
Qed.

End ParseCount.

Lemma to_uint_nonnil (n : N) : N.to_uint n <> Decimal.Nil.
Proof.
  destruct n as [|p]; [discriminate|].
  apply DecimalPos.Unsigned.to_uint_nonnil.
Qed.

Lemma to_uint_digit (n : N) :
  exists c s, NilEmpty.string_of_uint (N.to_uint n) = String c s /\
              is_space c = false /\ c <> "-"%char /\ c <> "+"%char.
Proof.
  pose proof (to_uint_nonnil n) as H.
  destruct (N.to_uint n); try congruence;
    eexists; eexists; (split; [reflexivity|]); repeat split; discriminate.
Qed.

(** What [grep -c ... || echo 0] prints parses to the count. *)
Lemma parseInt_grepOutput (n : N) :
  parseInt (grepOutput n) = of_Z (Z.of_N n).
Proof.
  unfold grepOutput, parseInt.
  destruct (to_uint_digit n) as (c & s & E & Hs & Hm & Hp).
  unfold decimal. 
  assert (K : skip_spaces
    (NilEmpty.string_of_uint (N.to_uint n) ++
     String "010" (if (n =? 0)%N then String "0" (String "010" EmptyString)
                   else EmptyString)) =
    (NilEmpty.string_of_uint (N.to_uint n) ++
     String "010" (if (n =? 0)%N then String "0" (String "010" EmptyString)
                   else EmptyString))).
  { rewrite E. cbn [String.append skip_spaces]. rewrite Hs. reflexivity. }
  rewrite K. clear K.
  assert (S : forall r, match (NilEmpty.string_of_uint (N.to_uint n) ++ r)%string with
              | String "-" r0 => (true, r0)
              | String "+" r0 => (false, r0)
              | _ => (false, (NilEmpty.string_of_uint (N.to_uint n) ++ r)%string)
              end = (false, (NilEmpty.string_of_uint (N.to_uint n) ++ r)%string)).
  { intros r. rewrite E. cbn [String.append].
    destruct c as [[] [] [] [] [] [] [] []]; try reflexivity; congruence. }
  rewrite S. clear S.
  rewrite digits_numeral.
  - cbn [digits]. change (digit_value "010") with (@None Z). cbv iota.
    change (Pos.of_uint (N.to_uint n)) with (N.of_uint (N.to_uint n)).
    rewrite DecimalN.Unsigned.of_to. reflexivity.
  - apply to_uint_nonnil.
Qed.


(** ** Bounds of the flow estimates *)

Section FlowBounds.













End FlowBounds.




(** C6: the confidence of a flow estimate is [high] only when it comes from
    the structured extraction of an artifact (the archive exists, its size is
    read, the temporary directory is made and configuration files are found);
    every other path, the size heuristic and every metadata estimate, the
    default without metadata included, has confidence [low]. *)
Theorem high_confidence_only_from_structured_extraction
  (fs : FileSystem) (jarPath : option string) (appDetails : option AppDetails)
  (r : FlowEstimate) :
  analyzeJarForFlows fs jarPath appDetails = Returns r ->
  (confidence r = high <->
   exists path stats,
     truthy_string jarPath = Some path /\
     existsSync fs path = true /\
     statSync fs path = Returns stats /\
     ensureTempDir (extractJar fs path) = Returns tt /\
     muleConfigFiles (extractJar fs path) <> [] /\
     r = structuredResult stats (structuredCount (extractJar fs path))
                          "XML analysis") /\
  (confidence r <> high -> confidence r = low) /\
  (forall d, confidence (estimateBasedOnAppDetails d) = low) /\
  (forall stats, confidence (sizeHeuristicResult stats) = low).
Proof.
  intros H. rewrite analyzeJarForFlows_cases in H. injection H as <-.
  split; [|split; [|split; [apply estimateBasedOnAppDetails_low|reflexivity]]].
  - split.
    + destruct (truthy_string jarPath) as [path|];
        [|rewrite estimateBasedOnAppDetails_low; discriminate].
      destruct (existsSync fs path) eqn:He;
        [|rewrite estimateBasedOnAppDetails_low; discriminate].
      destruct (statSync fs path) as [stats|e] eqn:Hs;
        [|rewrite estimateBasedOnAppDetails_low; discriminate].
      rewrite extractFlows_cases.
      destruct (ensureTempDir (extractJar fs path)) as [[]|e] eqn:Ht;
        [|discriminate].
      destruct (muleConfigFiles (extractJar fs path)) as [|f rest] eqn:Hm;
        [discriminate|].
      intros _. exists path, stats. rewrite Hm.
      repeat split; auto. discriminate.
    + intros (path & stats & Hp & He & Hs & Ht & Hm & Hr).
      rewrite Hp, He, Hs, extractFlows_cases, Ht.
      destruct (muleConfigFiles (extractJar fs path)); [congruence|].
      reflexivity.
  - destruct (truthy_string jarPath) as [path|];
      [|intros _; apply estimateBasedOnAppDetails_low].
    destruct (existsSync fs path);
      [|intros _; apply estimateBasedOnAppDetails_low].
    destruct (statSync fs path) as [stats|e];
      [|intros _; apply estimateBasedOnAppDetails_low].
    destruct (extractFlows (extractJar fs path)) as [[v s]|]; simpl; congruence.
Qed.

(** The archive with two configuration files. *)
Lemma high_confidence_only_from_structured_extraction_witness :
  confidence
    (structuredResult {| stat_size := twoPointThreeMB |} (num 25)
                      "XML analysis") = high <->
  exists path stats,
    truthy_string (Some appJar) = Some path /\
    existsSync (jarOnDisk twoPointThreeMB twoConfigurations) path = true /\
    statSync (jarOnDisk twoPointThreeMB twoConfigurations) path
      = Returns stats /\
    ensureTempDir (extractJar (jarOnDisk twoPointThreeMB twoConfigurations) path)
      = Returns tt /\
    muleConfigFiles (extractJar (jarOnDisk twoPointThreeMB twoConfigurations) path)
      <> [] /\
    structuredResult {| stat_size := twoPointThreeMB |} (num 25) "XML analysis" =
    structuredResult stats
      (structuredCount
         (extractJar (jarOnDisk twoPointThreeMB twoConfigurations) path))
      "XML analysis".
Proof.
  apply (high_confidence_only_from_structured_extraction
           (jarOnDisk twoPointThreeMB twoConfigurations) (Some appJar) None).
  reflexivity.
Defined.

(** ** Details that are any value of a response *)

Section ParsedDetails.

Variable stringToNumber : string -> number.
Variable objectToNumber : Api.value -> outcome number.

Let toNumber := Parsed.toNumber stringToNumber objectToNumber.










End ParsedDetails.




(** ** The flattened hierarchy *)

Section Hierarchy.

(** The flat list has one entry per group of the hierarchy. *)
Lemma flattenBusinessGroups_length :
  forall g : Group, List.length (flattenBusinessGroups g) = groupCount g.
Proof.
  fix IH 1. intros [id name parentId [subs|]]; simpl; [|reflexivity].
  f_equal. induction subs as [|subOrg rest IHrest]; simpl; [reflexivity|].
  rewrite length_app, IH, IHrest. reflexivity.
Qed.

(** The entry of the root comes first and copies the [parentId] property. *)
Lemma flattenBusinessGroups_head (g : Group) :
  hd_error (flattenBusinessGroups g) =
  Some {| bgId := groupId g; bgName := groupName g;
          bgParentId := truthy_string (groupParentId g) |}.
Proof. destruct g as [id name parentId subs]. reflexivity. Qed.

Lemma flattenBusinessGroups_leaf (g : Group) :
  isLeaf g = true ->
  flattenBusinessGroups g =
  [ {| bgId := groupId g; bgName := groupName g;
       bgParentId := truthy_string (groupParentId g) |} ].
Proof.
  destruct g as [id name parentId [[|s rest]|]]; simpl; intros H;
    try discriminate; reflexivity.
Qed.

End Hierarchy.

(** C8 (as stated, refuted): a root with two child business groups flattens
    to 3 entries with the root first, but when the children carry no
    [parentId] property their entries have no parent id, not the id of the
    root. *)
Lemma children_without_parentId_do_not_point_at_root :
  flattenBusinessGroups (rootWithTwoChildren None) =
  [ {| bgId := "root-id"; bgName := "Root"; bgParentId := None |};
    {| bgId := "child-1"; bgName := "Child One"; bgParentId := None |};
    {| bgId := "child-2"; bgName := "Child Two"; bgParentId := None |} ] /\
  ~ (forall e, In e (tl (flattenBusinessGroups (rootWithTwoChildren None))) ->
               bgParentId e = Some (groupId (rootWithTwoChildren None))).
Proof.
  split; [reflexivity|].
  intros H.
  specialize (H {| bgId := "child-1"; bgName := "Child One";
                   bgParentId := None |}).
  simpl in H. discriminate H. left. reflexivity.
Qed.

(** C8 (amended): [flattenBusinessGroups] applied to a root with two child
    business groups returns exactly 3 entries, the root first and the
    children in order (pre-order), and the [parentId] of each entry is the
    [parentId] property its group carries in the hierarchy ([null] when it is
    missing or empty); so a child entry points at the root's id exactly when
    the child's own [parentId] property is that id. *)
Theorem flatten_root_with_two_children
  (id name : string) (parentId : option string) (c1 c2 : Group) :
  isLeaf c1 = true -> isLeaf c2 = true ->
  flattenBusinessGroups (mkGroup id name parentId (Some [c1; c2])) =
  [ {| bgId := id; bgName := name; bgParentId := truthy_string parentId |};
    {| bgId := groupId c1; bgName := groupName c1;
       bgParentId := truthy_string (groupParentId c1) |};
    {| bgId := groupId c2; bgName := groupName c2;
       bgParentId := truthy_string (groupParentId c2) |} ] /\
  List.length (flattenBusinessGroups (mkGroup id name parentId (Some [c1; c2])))
  = 3%nat /\
  (forall e,
     In e (tl (flattenBusinessGroups (mkGroup id name parentId (Some [c1; c2])))) ->
     (bgParentId e = Some id <->
      exists c, In c [c1; c2] /\ bgId e = groupId c /\ bgName e = groupName c /\
                truthy_string (groupParentId c) = Some id /\
                bgParentId e = truthy_string (groupParentId c))).
Proof.
  intros L1 L2.
  assert (E : flattenBusinessGroups (mkGroup id name parentId (Some [c1; c2])) =
              [ {| bgId := id; bgName := name;
                   bgParentId := truthy_string parentId |};
                {| bgId := groupId c1; bgName := groupName c1;
                   bgParentId := truthy_string (groupParentId c1) |};
                {| bgId := groupId c2; bgName := groupName c2;
                   bgParentId := truthy_string (groupParentId c2) |} ]).
  { cbn [flattenBusinessGroups].
    change ((fix each (l : list Group) : list BusinessGroup :=
               match l with
               | [] => []
               | subOrg :: rest => (flattenBusinessGroups subOrg ++ each rest)%list
               end) [c1; c2])
      with (flattenBusinessGroups c1 ++ flattenBusinessGroups c2 ++ [])%list.
    rewrite (flattenBusinessGroups_leaf c1 L1),
            (flattenBusinessGroups_leaf c2 L2).
    reflexivity. }
  rewrite E. split; [reflexivity|]. split; [reflexivity|].
  intros e He. cbn [tl] in He.
  split.
  - intros Hp. destruct He as [<-|[<-|[]]]; cbn [bgParentId] in Hp.
    + exists c1. repeat split; auto. left. reflexivity.
    + exists c2. repeat split; auto. right. left. reflexivity.
  - intros (c & _ & _ & _ & Hc & Hpe). rewrite Hpe. exact Hc.
Qed.

(** Children that carry the id of the root as their [parentId]. *)
Lemma flatten_root_with_two_children_witness :
  flattenBusinessGroups (rootWithTwoChildren (Some "root-id")) =
  [ {| bgId := "root-id"; bgName := "Root"; bgParentId := None |};
    {| bgId := "child-1"; bgName := "Child One"; bgParentId := Some "root-id" |};
    {| bgId := "child-2"; bgName := "Child Two"; bgParentId := Some "root-id" |} ].
Proof.
  apply (flatten_root_with_two_children "root-id" "Root" None
           (mkGroup "child-1" "Child One" (Some "root-id") None)
           (mkGroup "child-2" "Child Two" (Some "root-id") (Some []))).
  - reflexivity.
  - reflexivity.
Defined.

(** ** The summary counters and the organization report *)

Section Aggregation.

Variable cfg : Config.
Variable fs : FileSystem.

Lemma processApplication_returns (apps : list AppData) (s : Summary)
  (src : ApplicationSource) :
  exists a,
    processApplication cfg fs (apps, s) src =
    Returns ((apps ++ [a])%list,
             updateSummary s (flowAnalysis a) (messageAnalysis a)).
Proof.
  unfold processApplication.
  match goal with
  | |- context [bind ?m _] =>
      assert (R : exists r, m = Returns r)
  end.
  { repeat match goal with
           | |- context [match ?x with _ => _ end] => destruct x
           end;
      rewrite analyzeJarForFlows_cases; eexists; reflexivity. }
  destruct R as [r ->]. cbn [bind].
  eexists {| app := _; flowAnalysis := r |}. reflexivity.
Qed.

Lemma applications_loop (srcs : list ApplicationSource) :
  forall apps s, exists new,
    foldM (processApplication cfg fs) srcs (apps, s) =
    Returns ((apps ++ new)%list, accumulate new s).
Proof.
  induction srcs as [|src rest IH]; intros apps s.
  - exists []. simpl. rewrite app_nil_r. reflexivity.
  - destruct (processApplication_returns apps s src) as [a Ha].
    cbn [foldM]. rewrite Ha. cbn [bind].
    destruct (IH (apps ++ [a])%list
                 (updateSummary s (flowAnalysis a) (messageAnalysis a)))
      as [new Hnew].
    exists (a :: new). rewrite Hnew, <- app_assoc. reflexivity.
Qed.

Lemma accumulate_app (xs ys : list AppData) (s : Summary) :
  accumulate (xs ++ ys) s = accumulate ys (accumulate xs s).
Proof. unfold accumulate. apply fold_left_app. Qed.

Lemma environments_loop (p : list EnvironmentSource) :
  forall envs s, exists new,
    foldM (processEnvironment cfg fs) p (envs, s) =
    Returns ((envs ++ new)%list, accumulate (flat_map applications new) s).
Proof.
  induction p as [|env rest IH]; intros envs s.
  - exists []. simpl. rewrite app_nil_r. reflexivity.
  - cbn [foldM]. unfold processEnvironment at 1.
    destruct (applications_loop (envApplications env) [] s) as [apps Happs].
    rewrite Happs. cbn [bind List.app].
    match goal with
    | |- context [foldM _ rest (?e, ?s')] =>
        destruct (IH e s') as [new Hnew]
    end.
    rewrite Hnew, <- app_assoc. cbn [List.app].
    exists ({| environmentId := envId env;
               environmentName := envName env;
               isProduction := envIsProduction env;
               applications := apps |} :: new).
    cbn [flat_map applications].
    rewrite accumulate_app. reflexivity.
Qed.

Lemma groups_loop (p : Platform) (groups : list BusinessGroup) :
  forall inv, exists new,
    List.length new = List.length groups /\
    foldM (processGroup cfg fs p) groups inv =
    Returns {| businessGroups := (businessGroups inv ++ new)%list;
               summary :=
                 accumulate
                   (flat_map (fun g => flat_map applications (environments g)) new)
                   (summary inv) |}.
Proof.
  induction groups as [|g rest IH]; intros inv.
  - exists []. split; [reflexivity|].
    simpl. rewrite app_nil_r. destruct inv. reflexivity.
  - cbn [foldM]. unfold processGroup at 1.
    destruct (environments_loop (getEnvironments p (bgId g)) [] (summary inv))
      as [envs Henvs].
    rewrite Henvs. cbn [bind List.app].
    match goal with
    | |- context [foldM _ rest ?i] => destruct (IH i) as [new [Hlen Hnew]]
    end.
    rewrite Hnew. cbn [businessGroups summary]. rewrite <- app_assoc.
    cbn [List.app].
    exists ({| groupEntry := g; environments := envs |} :: new).
    split; [simpl; rewrite Hlen; reflexivity|].
    cbn [flat_map environments].
    rewrite accumulate_app. reflexivity.
Qed.

End Aggregation.

Section Totals.

Lemma add_one_of_Z (k : Z) : (of_Z k + num 1)%js = of_Z (k + 1).
Proof. apply add_of_Z. Qed.

(** The three counters after [accumulate]. *)
Lemma accumulate_counters (apps : list AppData) :
  forall (k : Z) (f m : number),
    accumulate apps {| totalApplications := of_Z k;
                       totalEstimatedFlows := f;
                       totalEstimatedMonthlyMessages := m |} =
    {| totalApplications := of_Z (k + Z.of_nat (List.length apps));
       totalEstimatedFlows :=
         fold_left (fun acc a => (acc + flowsOf a)%js) apps f;
       totalEstimatedMonthlyMessages :=
         fold_left (fun acc a => (acc + messagesOf a)%js) apps m |}.
Proof.
  induction apps as [|a rest IH]; intros k f m.
  - simpl. rewrite Z.add_0_r. reflexivity.
  - unfold accumulate in *. cbn [fold_left]. unfold updateSummary at 2.
    cbn [totalApplications totalEstimatedFlows totalEstimatedMonthlyMessages].
    rewrite add_one_of_Z, IH. cbn [List.length].
    f_equal. f_equal. lia.
Qed.

(** The three totals of the report after the applications of an
    environment. *)
Lemma reportApplication_totals (b : bool) (apps : list AppData) :
  forall t,
    totalApps (fold_left (reportApplication b) apps t) = totalApps t /\
    totalFlows (fold_left (reportApplication b) apps t) =
      fold_left (fun acc a => (acc + flowsOf a)%js) apps (totalFlows t) /\
    totalMonthlyMessages (fold_left (reportApplication b) apps t) =
      fold_left (fun acc a => (acc + messagesOf a)%js) apps
                (totalMonthlyMessages t).
Proof.
  induction apps as [|a rest IH]; intros t; [repeat split|].
  cbn [fold_left].
  destruct (IH (reportApplication b t a)) as (H1 & H2 & H3).
  rewrite H1, H2, H3. repeat split.
Qed.

Lemma reportEnvironment_totals (envs : list EnvironmentData) :
  forall t (k : Z),
    totalApps t = of_Z k ->
    totalApps (fold_left reportEnvironment envs t) =
      of_Z (k + Z.of_nat (List.length (flat_map applications envs))) /\
    totalFlows (fold_left reportEnvironment envs t) =
      fold_left (fun acc a => (acc + flowsOf a)%js)
                (flat_map applications envs) (totalFlows t) /\
    totalMonthlyMessages (fold_left reportEnvironment envs t) =
      fold_left (fun acc a => (acc + messagesOf a)%js)
                (flat_map applications envs) (totalMonthlyMessages t).
Proof.
  induction envs as [|env rest IH]; intros t k Hk.
  - simpl. rewrite Z.add_0_r. auto.
  - cbn [fold_left flat_map].
    destruct (reportApplication_totals (isProduction env) (applications env)
      {| totalApps := (totalApps t + of_nat (List.length (applications env)))%js;
         productionApps :=
           if isProduction env
           then (productionApps t + of_nat (List.length (applications env)))%js
           else productionApps t;
         sandboxApps :=
           if isProduction env then sandboxApps t
           else (sandboxApps t + of_nat (List.length (applications env)))%js;
         totalFlows := totalFlows t;
         productionFlows := productionFlows t;
         sandboxFlows := sandboxFlows t;
         totalMonthlyMessages := totalMonthlyMessages t;
         productionMonthlyMessages := productionMonthlyMessages t;
         sandboxMonthlyMessages := sandboxMonthlyMessages t |})
      as (H1 & H2 & H3).
    cbn [totalApps totalFlows totalMonthlyMessages] in H1, H2, H3.
    destruct (IH (reportEnvironment t env)
                 (k + Z.of_nat (List.length (applications env)))%Z)
      as (I1 & I2 & I3).
    { unfold reportEnvironment. rewrite H1, Hk. apply add_of_Z. }
    rewrite I1, I2, I3. unfold reportEnvironment at 1 2.
    rewrite H2, H3, length_app, !fold_left_app.
    repeat split. f_equal. lia.
Qed.

Lemma reportGroup_totals (groups : list BusinessGroupData) :
  forall t (k : Z),
    totalApps t = of_Z k ->
    let apps :=
      flat_map (fun g => flat_map applications (environments g)) groups in
    totalApps (fold_left reportGroup groups t) =
      of_Z (k + Z.of_nat (List.length apps)) /\
    totalFlows (fold_left reportGroup groups t) =
      fold_left (fun acc a => (acc + flowsOf a)%js) apps (totalFlows t) /\
    totalMonthlyMessages (fold_left reportGroup groups t) =
      fold_left (fun acc a => (acc + messagesOf a)%js) apps
                (totalMonthlyMessages t).
Proof.
  induction groups as [|g rest IH]; intros t k Hk.
  - simpl. rewrite Z.add_0_r. auto.
  - cbn zeta. cbn [fold_left flat_map].
    destruct (reportEnvironment_totals (environments g) t Hk) as (H1 & H2 & H3).
    destruct (IH (reportGroup t g) _ H1) as (I1 & I2 & I3).
    cbn zeta in I1, I2, I3.
    rewrite I1, I2, I3. unfold reportGroup at 1 2.
    rewrite H2, H3, length_app, !fold_left_app.
    repeat split. f_equal. lia.
Qed.

End Totals.

Section Run.

Variable cfg : Config.
Variable fs : FileSystem.
Variable p : Platform.

(** After any number of business groups the loop has returned an inventory
    whose counters are the recomputation from its leaves and agree with the
    totals of the report over it. *)
Lemma groups_loop_invariant (groups : list BusinessGroup) :
  exists inventory,
    foldM (processGroup cfg fs p) groups emptyInventory = Returns inventory /\
    List.length (businessGroups inventory) = List.length groups /\
    summary inventory = recomputeSummary inventory /\
    agree (fold_left reportGroup (businessGroups inventory) noTotals)
          (summary inventory).
Proof.
  destruct (groups_loop cfg fs p groups emptyInventory) as [new [Hlen Hnew]].
  eexists. split; [exact Hnew|].
  cbn [businessGroups summary emptyInventory List.app].
  change (num 0) with (of_Z 0). rewrite accumulate_counters.
  split; [exact Hlen|]. split; [reflexivity|].
  destruct (reportGroup_totals new noTotals (k := 0) eq_refl)
    as (H1 & H2 & H3).
  cbv zeta in H1, H2, H3. unfold agree.
  cbn [totalApplications totalEstimatedFlows totalEstimatedMonthlyMessages].
  rewrite H1, H2, H3. repeat split.
Qed.

End Run.

(** C7: the run returns an inventory whose incrementally maintained summary
    counters (total applications, total estimated flows, total estimated
    monthly messages) equal the recomputation that folds over all leaf
    applications, and the totals the organization summary report computes by
    traversing the inventory tree again equal these counters; the same holds
    after every business group the run has processed. *)
Theorem summary_counters_equal_recomputation
  (cfg : Config) (fs : FileSystem) (p : Platform) :
  (exists inventory,
     analyzeBillableConsumption cfg fs p = Returns inventory /\
     summary inventory = recomputeSummary inventory /\
     match generateOrganizationSummaryReport cfg inventory with
     | Some t =>
         totalApps t = totalApplications (summary inventory) /\
         totalFlows t = totalEstimatedFlows (summary inventory) /\
         totalMonthlyMessages t =
           totalEstimatedMonthlyMessages (summary inventory)
     | None => exportCsv cfg = false
     end) /\
  (forall k, exists inventory,
     foldM (processGroup cfg fs p)
           (firstn k (flattenBusinessGroups (hierarchy p))) emptyInventory
       = Returns inventory /\
     summary inventory = recomputeSummary inventory).
Proof.
  split.
  - destruct (groups_loop_invariant cfg fs p
                (flattenBusinessGroups (hierarchy p)))
      as (inventory & Hrun & _ & Hsum & Hagree).
    exists inventory. split; [exact Hrun|]. split; [exact Hsum|].
    unfold generateOrganizationSummaryReport.
    destruct (exportCsv cfg); [exact Hagree | reflexivity].
  - intros k.
    destruct (groups_loop_invariant cfg fs p
                (firstn k (flattenBusinessGroups (hierarchy p))))
      as (inventory & Hrun & _ & Hsum & _).
    exists inventory. split; assumption.
Qed.

(** The run over the sample platform: three applications, 25 + 8 + 2 flows
    and 3000 + 15 + 0 monthly messages, two of the applications in
    production. *)
Example sample_run_totals :
  exists inventory,
    analyzeBillableConsumption
      sampleConfig (jarOnDisk twoPointThreeMB twoConfigurations) samplePlatform
      = Returns inventory /\
    List.length (businessGroups inventory) = 3%nat /\
    summary inventory =
      {| totalApplications := num 3;
         totalEstimatedFlows := num 35;
         totalEstimatedMonthlyMessages := num 3015 |} /\
    generateOrganizationSummaryReport sampleConfig inventory =
      Some {| totalApps := num 3; productionApps := num 2; sandboxApps := num 1;
              totalFlows := num 35; productionFlows := num 33;
              sandboxFlows := num 2;
              totalMonthlyMessages := num 3015;
              productionMonthlyMessages := num 3015;
              sandboxMonthlyMessages := num 0 |}.
Proof.
  eexists. split; [vm_compute; reflexivity|].
  split; [reflexivity|]. split; vm_compute; reflexivity.
Qed.

(** * Further properties of the code *)

(** ** The message-volume estimator *)



Section ParsedMetrics.

Lemma addFlow_present (acc : number * nat) (flow : Api.value) :
  Api.nullish flow = false ->
  exists acc', Metrics.addFlow acc flow = Returns acc'.
Proof.
  intros H. destruct acc as [t n]. unfold Metrics.addFlow, Api.member.
  rewrite H. cbn [bind].
  destruct (Api.truthyValue (Api.property flow "messageCount"));
    [|eexists; reflexivity].
  destruct (Api.property (Api.property flow "messageCount") "count");
    eexists; reflexivity.
Qed.

Lemma addFlow_null (acc : number * nat) (flow : Api.value) :
  Api.nullish flow = true ->
  exists e, Metrics.addFlow acc flow = Throws e.
Proof.
  intros H. destruct acc as [t n]. unfold Metrics.addFlow, Api.member.
  rewrite H. eexists. reflexivity.
Qed.

Lemma addFlow_skip (acc : number * nat) (flow : Api.value) :
  Api.nullish flow = false -> Metrics.hasNumericCount flow = false ->
  Metrics.addFlow acc flow = Returns acc.
Proof.
  intros H Hc. destruct acc as [t n].
  unfold Metrics.addFlow, Api.member, Metrics.hasNumericCount in *.
  rewrite H. cbn [bind].
  destruct (Api.truthyValue (Api.property flow "messageCount"));
    [|reflexivity].
  destruct (Api.property (Api.property flow "messageCount") "count");
    try reflexivity; discriminate.
Qed.

Lemma addFlow_counts (t : number) (n : nat) (flow : Api.value) :
  Api.nullish flow = false -> Metrics.hasNumericCount flow = true ->
  exists t', Metrics.addFlow (t, n) flow = Returns (t', S n).
Proof.
  intros H Hc.
  unfold Metrics.addFlow, Api.member, Metrics.hasNumericCount in *.
  rewrite H. cbn [bind].
  destruct (Api.truthyValue (Api.property flow "messageCount"));
    [|discriminate].
  destruct (Api.property (Api.property flow "messageCount") "count");
    try discriminate.
  eexists. reflexivity.
Qed.

(** A [null] entry stops the loop with a [TypeError]. *)
Lemma foldM_addFlow_null (flows : list Api.value) :
  existsb Api.nullish flows = true ->
  forall acc, exists e, foldM Metrics.addFlow flows acc = Throws e.
Proof.
  induction flows as [|flow rest IH]; [discriminate|].
  cbn [existsb foldM]. intros H acc.
  destruct (Api.nullish flow) eqn:N.
  - destruct (addFlow_null acc flow N) as [e ->]. eexists. reflexivity.
  - destruct (addFlow_present acc flow N) as [acc' ->]. cbn [bind].
    apply IH. exact H.
Qed.

(** Without [null] entry the loop sees only the entries with a count. *)
Lemma foldM_addFlow_filter (flows : list Api.value) :
  existsb Api.nullish flows = false ->
  forall acc,
    foldM Metrics.addFlow flows acc =
    foldM Metrics.addFlow (filter Metrics.hasNumericCount flows) acc.
Proof.
  induction flows as [|flow rest IH]; [reflexivity|].
  cbn [existsb foldM filter]. intros H acc.
  apply Bool.orb_false_iff in H. destruct H as [N Hrest].
  destruct (Metrics.hasNumericCount flow) eqn:C.
  - cbn [foldM]. destruct (Metrics.addFlow acc flow) as [acc'|e];
      [|reflexivity].
    cbn [bind]. apply IH. exact Hrest.
  - rewrite (addFlow_skip acc flow N C). cbn [bind]. apply IH. exact Hrest.
Qed.

Lemma foldM_addFlow_count (flows : list Api.value) :
  existsb Api.nullish flows = false ->
  forall t n, exists t',
    foldM Metrics.addFlow flows (t, n) =
    Returns (t', (n + List.length (filter Metrics.hasNumericCount flows))%nat).
Proof.
  induction flows as [|flow rest IH]; intros H t n.
  - exists t. cbn. f_equal. f_equal. lia.
  - cbn [existsb] in H. apply Bool.orb_false_iff in H. destruct H as [N Hrest].
    cbn [foldM filter]. destruct (Metrics.hasNumericCount flow) eqn:C.
    + destruct (addFlow_counts t n flow N C) as [t1 ->]. cbn [bind].
      destruct (IH Hrest t1 (S n)) as [t' ->]. exists t'.
      cbn [List.length]. f_equal. f_equal. lia.
    + rewrite (addFlow_skip (t, n) flow N C). cbn [bind].
      apply IH. exact Hrest.
Qed.

(** On typed flow metrics the loop is the typed loop. *)
Lemma foldM_addFlow_typed (flows : list FlowMetric) :
  forall acc,
    foldM Metrics.addFlow (map ofFlowMetric flows) acc =
    Returns (fold_left addFlow flows acc).
Proof.
  induction flows as [|f rest IH]; intros acc; [reflexivity|].
  cbn [map foldM fold_left].
  assert (E : Metrics.addFlow acc (ofFlowMetric f) = Returns (addFlow acc f)).
  { destruct acc as [t n]. destruct f as [[[[c|]]|]]; reflexivity. }
  rewrite E. cbn [bind]. apply IH.
Qed.

Lemma flowTier_typed (md : MonitoringData) (w : Working) :
  Metrics.flowTier (ofMonitoringData md) w = Returns (flowTier md w).
Proof.
  unfold Metrics.flowTier, flowTier, sumFlows.
  cbn [ofMonitoringData Metrics.flowMetrics Metrics.period].
  destruct (flowMetrics md) as [flows|]; [|reflexivity].
  rewrite foldM_addFlow_typed. cbn [bind].
  destruct (fold_left addFlow flows (num 0, 0%nat)) as [t n].
  destruct (0 <? n)%nat; reflexivity.
Qed.

Lemma applicationTier_typed (md : MonitoringData) (w : Working) :
  Metrics.applicationTier (ofMonitoringData md) w = applicationTier md w.
Proof.
  unfold Metrics.applicationTier, applicationTier.
  cbn [ofMonitoringData Metrics.messageData Metrics.period].
  destruct (strict_eq (daily w) (num 0)); [|reflexivity].
  destruct (messageData md) as [[[[[c|]]|]]|]; reflexivity.
Qed.

Lemma cpuTier_typed (md : MonitoringData) (w : Working) :
  Metrics.cpuTier (ofMonitoringData md) w = cpuTier md w.
Proof.
  unfold Metrics.cpuTier, cpuTier.
  cbn [ofMonitoringData Metrics.resourceData Metrics.period].
  destruct (strict_eq (daily w) (num 0)); [|reflexivity].
  destruct (resourceData md) as [[[[[a|]]|]]|]; reflexivity.
Qed.

Lemma estimateMessageVolume_typed (typed : option MonitoringData) :
  Metrics.estimateMessageVolume (option_map ofMonitoringData typed) =
  Returns (estimateMessageVolume typed).
Proof.
  destruct typed as [md|]; [|reflexivity].
  cbn [option_map Metrics.estimateMessageVolume].
  rewrite flowTier_typed. cbn [bind].
  rewrite applicationTier_typed, cpuTier_typed. reflexivity.
Qed.

End ParsedMetrics.

(** X2: a [null] entry among the flow metrics makes [estimateMessageVolume]
    throw a [TypeError].  Without [null] entry a result is returned, and the
    entries without a numeric message count do not contribute: removing them
    leaves the result unchanged, and flow metrics none of whose entries has a
    numeric count give the result of absent flow metrics.  On typed
    monitoring data the function is [estimateMessageVolume] above. *)
Theorem null_flow_entry_throws_and_others_are_ignored
  (md : Metrics.MonitoringData) (flows : list Api.value) :
  Metrics.flowMetrics md = Api.JArray flows ->
  (existsb Api.nullish flows = true ->
   exists e, Metrics.estimateMessageVolume (Some md) = Throws e) /\
  (existsb Api.nullish flows = false ->
   (exists r, Metrics.estimateMessageVolume (Some md) = Returns r) /\
   Metrics.estimateMessageVolume (Some md) =
     Metrics.estimateMessageVolume
       (Some (Metrics.withFlowMetrics md
                (Api.JArray (filter Metrics.hasNumericCount flows)))) /\
   (filter Metrics.hasNumericCount flows = [] ->
    Metrics.estimateMessageVolume (Some md) =
      Metrics.estimateMessageVolume
        (Some (Metrics.withFlowMetrics md Api.JNull)))) /\
  (forall typed : option MonitoringData,
     Metrics.estimateMessageVolume (option_map ofMonitoringData typed) =
     Returns (estimateMessageVolume typed)).
Proof.
  intros Hf.
  assert (E : forall fl,
    Metrics.estimateMessageVolume (Some (Metrics.withFlowMetrics md fl)) =
    (w <- Metrics.flowTier (Metrics.withFlowMetrics md fl) initialWorking ;;
     let w := Metrics.cpuTier md (Metrics.applicationTier md w) in
     Returns {| estimatedDailyMessages := Math_round (daily w);
                estimatedMonthlyMessages := Math_round (daily w * num 30);
                messageConfidence := workingConfidence w;
                messageSource := workingSource w |})).
  { intros fl. reflexivity. }
  assert (M : md = Metrics.withFlowMetrics md (Api.JArray flows)).
  { destruct md as [m r f p]. cbn in Hf. subst f. reflexivity. }
  split; [|split; [|apply estimateMessageVolume_typed]].
  - intros Hnull. rewrite M, E.
    unfold Metrics.flowTier. cbn [Metrics.withFlowMetrics Metrics.flowMetrics].
    destruct (foldM_addFlow_null flows Hnull (num 0, 0%nat)) as [e ->].
    eexists. reflexivity.
  - intros Hnone.
    assert (F : Metrics.flowTier (Metrics.withFlowMetrics md (Api.JArray flows))
                                 initialWorking =
                Metrics.flowTier
                  (Metrics.withFlowMetrics md
                     (Api.JArray (filter Metrics.hasNumericCount flows)))
                  initialWorking).
    { unfold Metrics.flowTier.
      cbn [Metrics.withFlowMetrics Metrics.flowMetrics Metrics.period].
      rewrite (foldM_addFlow_filter flows Hnone). reflexivity. }
    split; [|split].
    + rewrite M, E. unfold Metrics.flowTier.
      cbn [Metrics.withFlowMetrics Metrics.flowMetrics Metrics.period].
      destruct (foldM_addFlow_count flows Hnone (num 0) 0) as [t ->].
      cbn [bind].
      destruct (0 <? 0 + List.length (filter Metrics.hasNumericCount flows))%nat;
        eexists; reflexivity.
    + rewrite M at 1. rewrite !E, F. reflexivity.
    + intros Hempty. rewrite M at 1. rewrite !E, F, Hempty. reflexivity.
Qed.

(** Five entries, one of them [null]: the estimate of the other four is that
    of the two with a count, 1500 messages over 30 days. *)
Lemma null_flow_entry_throws_and_others_are_ignored_witness :
  (exists e,
     Metrics.estimateMessageVolume
       (Some (Metrics.overThirtyDays Metrics.flowsWithNull)) = Throws e) /\
  Metrics.estimateMessageVolume
    (Some (Metrics.overThirtyDays
             (filter (fun flow => negb (Api.nullish flow))
                     Metrics.flowsWithNull))) =
  Metrics.estimateMessageVolume
    (Some (Metrics.overThirtyDays
             [ Metrics.flowWithCount (num 1200);
               Metrics.flowWithCount (num 300) ])).
Proof.
  split.
  - apply (proj1 (null_flow_entry_throws_and_others_are_ignored
                    (Metrics.overThirtyDays Metrics.flowsWithNull)
                    (flows := Metrics.flowsWithNull) eq_refl)).
    reflexivity.
  - apply (proj1 (proj2 (proj1 (proj2
             (null_flow_entry_throws_and_others_are_ignored
                (Metrics.overThirtyDays
                   (filter (fun flow => negb (Api.nullish flow))
                           Metrics.flowsWithNull))
                (flows := filter (fun flow => negb (Api.nullish flow))
                                 Metrics.flowsWithNull) eq_refl))
             eq_refl))).
Defined.

Section Rounding.

Lemma Qfloor_half_bounds (q : Q) :
  (inject_Z (Qfloor (q + (1 # 2))) <= q + (1 # 2))%Q /\
  (q - (1 # 2) < inject_Z (Qfloor (q + (1 # 2))))%Q.
Proof.
  pose proof (Qfloor_le (q + (1 # 2))) as Hle.
  pose proof (Qlt_floor (q + (1 # 2))) as Hlt.
  rewrite inject_Z_plus in Hlt. change (inject_Z 1) with 1%Q in Hlt.
  split; lra.
Qed.

(** Rounding a value and rounding thirty times the value differ by at most
    15 after scaling. *)
Lemma round_times_30 (q : Q) :
  (-15 <= Qfloor (Qred (q * 30) + (1 # 2)) - 30 * Qfloor (q + (1 # 2)) <= 15)%Z.
Proof.
  destruct (Qfloor_half_bounds q) as [A1 A2].
  destruct (Qfloor_half_bounds (Qred (q * 30))) as [B1 B2].
  pose proof (Qred_correct (q * 30)) as Hr.
  set (r := Qred (q * 30)) in *.
  set (a := Qfloor (q + (1 # 2))) in *.
  set (b := Qfloor (r + (1 # 2))) in *.
  assert (U : (inject_Z (b - 30 * a) < inject_Z 16)%Q).
  { unfold Z.sub. rewrite inject_Z_plus, inject_Z_opp, inject_Z_mult.
    change (inject_Z 30) with 30%Q. change (inject_Z 16) with 16%Q. lra. }
  assert (L : (inject_Z (-16) < inject_Z (b - 30 * a))%Q).
  { unfold Z.sub. rewrite inject_Z_plus, inject_Z_opp, inject_Z_mult.
    change (inject_Z 30) with 30%Q. change (inject_Z (-16)) with (-16)%Q. lra. }
  rewrite <- Zlt_Qlt in U, L. lia.
Qed.

End Rounding.

(** X3: whenever the returned daily value is an integer of magnitude at
    most [2^40], the returned monthly value is an integer that differs from
    30 times the daily value by at most 15; the difference 15 occurs. *)
Theorem monthly_within_15_of_30_times_daily
  (monitoringData : option MonitoringData) (dailyMessages : Z) :
  estimatedDailyMessages (estimateMessageVolume monitoringData)
    = of_Z dailyMessages ->
  (Z.abs dailyMessages <= 1099511627776)%Z ->
  (exists monthlyMessages : Z,
     estimatedMonthlyMessages (estimateMessageVolume monitoringData)
       = of_Z monthlyMessages /\
     (-15 <= monthlyMessages - 30 * dailyMessages <= 15)%Z) /\
  estimatedDailyMessages (estimateMessageVolume (Some halfMessageADay)) = of_Z 1 /\
  estimatedMonthlyMessages (estimateMessageVolume (Some halfMessageADay))
    = of_Z (30 * 1 - 15).
Proof.
  intros Hd _. split; [|split; reflexivity].
  assert (R : estimatedDailyMessages (estimateMessageVolume monitoringData)
              = Math_round (unroundedDaily monitoringData) /\
              estimatedMonthlyMessages (estimateMessageVolume monitoringData)
              = Math_round (unroundedDaily monitoringData * num 30)).
  { destruct monitoringData as [md|]; split; reflexivity. }
  destruct R as [Rd Rm]. rewrite Rd in Hd. rewrite Rm.
  destruct (unroundedDaily monitoringData) as [q| | |]; try discriminate.
  cbn [Math_round] in Hd. unfold of_Z in Hd.
  injection Hd as Hd. subst dailyMessages.
  exists (Qfloor (Qred (q * 30) + (1 # 2))).
  split; [reflexivity | apply round_times_30].
Qed.

(** The scenario of 3000 messages over 30 days. *)
Lemma monthly_within_15_of_30_times_daily_witness :
  exists monthlyMessages : Z,
    estimatedMonthlyMessages (estimateMessageVolume (Some threeThousandMessages))
      = of_Z monthlyMessages /\
    (-15 <= monthlyMessages - 30 * 100 <= 15)%Z.
Proof.
  apply (monthly_within_15_of_30_times_daily (Some threeThousandMessages)
           (dailyMessages := 100)).
  - reflexivity.
  - cbn. lia.
Defined.

(** ** The metadata estimator *)

Section MetadataRange.

(** A finite number between two rationals. *)
Let within (lo hi : Q) (x : number) : Prop :=
  exists q, x = Fin q /\ (lo <= q)%Q /\ (q <= hi)%Q.

Lemma lt_Fin (x y : Q) : lt (Fin x) (Fin y) = true <-> (x < y)%Q.
Proof.
  simpl. rewrite Qlt_alt. destruct (x ?= y)%Q; split; intros H;
    try discriminate; reflexivity.
Qed.

Lemma Math_min_3_within (lo : Q) (y : number) :
  (lo <= 3)%Q ->
  (exists q, y = Fin q /\ (lo <= q)%Q) \/ y = PosInf ->
  within lo 3 (Math_min (num 3) y).
Proof.
  intros Hlo [[q [-> Hq]]| ->].
  - unfold Math_min. destruct (lt (Fin q) (num 3)) eqn:E.
    + apply lt_Fin in E. change (inject_Z 3) with 3%Q in E.
      exists q. repeat split; [exact Hq | lra].
    + exists 3%Q. repeat split; [exact Hlo | lra].
  - exists 3%Q. repeat split; [exact Hlo | lra].
Qed.

Lemma multipleWorkersBonus_within (w : option Workers) (b : number) :
  multipleWorkersBonus w = Some b -> within 0 3 b.
Proof.
  unfold multipleWorkersBonus.
  destruct w as [[[a|] t]|]; try discriminate.
  destruct (gt a (num 1)) eqn:G; try discriminate.
  intros H. injection H as <-.
  apply Math_min_3_within; [lra|].
  destruct a as [x| | |]; try discriminate.
  - left. unfold gt in G. apply lt_Fin in G.
    change (inject_Z 1) with 1%Q in G.
    eexists. split; [reflexivity|].
    rewrite !Qred_correct. change (inject_Z 1) with 1%Q. lra.
  - right. reflexivity.
Qed.

Lemma workerSizeBonus_within (w : option Workers) (b : number) :
  workerSizeBonus w = Some b -> within 1 3 b.
Proof.
  unfold workerSizeBonus.
  destruct w as [[a [[[wt|]]|]]|]; try discriminate.
  destruct (gt wt (dec 1 10)) eqn:G; try discriminate.
  intros H. injection H as <-.
  apply Math_min_3_within; [lra|].
  destruct wt as [x| | |]; try discriminate.
  - left. unfold gt, dec in G. apply lt_Fin in G.
    rewrite Qred_correct in G.
    eexists. split; [reflexivity|].
    change 1%Q with (inject_Z (Qfloor (3 # 2))). rewrite <- Zle_Qle.
    apply Qfloor_resp_le. rewrite Qred_correct.
    change (inject_Z 10) with 10%Q. lra.
  - right. reflexivity.
Qed.

Lemma plusBonus_within (lo hi blo : Q) (x : number) (b : option number) :
  within lo hi x -> (0 <= blo)%Q ->
  (forall y, b = Some y -> within blo 3 y) ->
  within lo (hi + 3) (plusBonus x b).
Proof.
  intros (q & -> & H1 & H2) Hb Hy.
  destruct b as [y|]; cbn [plusBonus].
  - destruct (Hy y eq_refl) as (r & -> & R1 & R2).
    eexists. split; [reflexivity|]. rewrite Qred_correct. split; lra.
  - exists q. repeat split; lra.
Qed.

Lemma clamp_inside (q : Q) : (1 < q)%Q -> (q < 20)%Q -> clamp (Fin q) = Fin q.
Proof.
  intros H1 H20.
  assert (E20 : lt (Fin q) (num 20) = true) by (apply lt_Fin; exact H20).
  assert (E1 : lt (num 1) (Fin q) = true) by (apply lt_Fin; exact H1).
  unfold clamp, Math_min, Math_max, num, of_Z in *. cbv iota.
  rewrite E20. cbv iota. rewrite E1. reflexivity.
Qed.

Lemma name_value_within (n : NameSource) :
  within 2 9 (of_Z (baseValue n + integrationBonus n)).
Proof.
  pose proof (baseValue_cases n) as Hb.
  pose proof (integrationBonus_cases n) as Hi.
  simpl in Hb, Hi.
  destruct Hb as [<-|[<-|[<-|[<-|[]]]]];
    destruct Hi as [<-|[<-|[<-|[]]]];
    (eexists; split; [reflexivity|]; split; simpl; discriminate).
Qed.

(** The sum of the metadata path before the clamp lies in [[2, 15]]. *)
Lemma unclamped_estimate_within (d : AppDetails) :
  within 2 15
    (plusBonus
       (plusBonus
          (of_Z (baseValue (chosenName d) + integrationBonus (chosenName d)))
          (multipleWorkersBonus (workers d)))
       (workerSizeBonus (workers d))).
Proof.
  change 15%Q with (9 + 3 + 3)%Q.
  apply plusBonus_within with (blo := 1%Q);
    [|lra|apply workerSizeBonus_within].
  apply plusBonus_within with (blo := 0%Q);
    [|lra|apply multipleWorkersBonus_within].
  apply name_value_within.
Qed.

(** Every metadata estimate is a finite number of [[2, 15]]. *)
Lemma metadata_estimate_within (d : option AppDetails) :
  exists q, estimatedFlows (estimateBasedOnAppDetails d) = Fin q /\
            (2 <= q)%Q /\ (q <= 15)%Q.
Proof.
  destruct d as [d|].
  - rewrite estimateBasedOnAppDetails_value.
    destruct (unclamped_estimate_within d) as (q & E & H2 & H15).
    rewrite E, clamp_inside by lra. exists q. repeat split; assumption.
  - exists 2%Q. repeat split; lra.
Qed.

End MetadataRange.

(** X4: every metadata estimate is a finite number between 2 and 15, so the
    clamp to [[1, 20]] at the end of [estimateBasedOnAppDetails] never changes
    the value: the estimate is the base plus the bonuses. *)
Theorem metadata_estimate_between_2_and_15 (appDetails : option AppDetails) :
  (num 2 <= estimatedFlows (estimateBasedOnAppDetails appDetails))%js /\
  (estimatedFlows (estimateBasedOnAppDetails appDetails) <= num 15)%js /\
  is_finite (estimatedFlows (estimateBasedOnAppDetails appDetails)) = true /\
  (forall d, appDetails = Some d ->
     estimatedFlows (estimateBasedOnAppDetails appDetails) =
     plusBonus
       (plusBonus
          (of_Z (baseValue (chosenName d) + integrationBonus (chosenName d)))
          (multipleWorkersBonus (workers d)))
       (workerSizeBonus (workers d))).
Proof.
  destruct appDetails as [d|].
  - rewrite estimateBasedOnAppDetails_value.
    destruct (unclamped_estimate_within d) as (q & E & H2 & H15).
    rewrite E. rewrite clamp_inside by lra.
    repeat split; try assumption.
    intros d' Hd. injection Hd as <-. symmetry. exact E.
  - repeat split; try (simpl; discriminate); intros d Hd; discriminate.
Qed.

(** Four workers of weight 0.5 on top of a process API with Salesforce. *)
Lemma metadata_estimate_between_2_and_15_witness :
  estimatedFlows
    (estimateBasedOnAppDetails
       (Some {| domain := Some "order-papi-sfdc";
                fileName := None;
                workers := Some {| amount := Some (num 4);
                                   type := Some {| weight := Some (dec 1 2) |}
                                |} |})) = num 15.
Proof.
  rewrite (proj2 (proj2 (proj2
             (metadata_estimate_between_2_and_15
                (Some {| domain := Some "order-papi-sfdc";
                         fileName := None;
                         workers :=
                           Some {| amount := Some (num 4);
                                   type := Some {| weight := Some (dec 1 2) |}
                                |} |}))))
             _ eq_refl).
  reflexivity.
Defined.

Section LetterCase.

Lemma truthy_string_toLowerCase (s : option string) :
  truthy_string (option_map toLowerCase s) =
  option_map toLowerCase (truthy_string s).
Proof. destruct s as [[|c s]|]; reflexivity. Qed.

End LetterCase.

(** X5: the name patterns are matched without regard to letter case: two
    application details whose file names and whose domains agree up to the
    case of their letters, and whose workers are the same, get the same
    estimate, with the same source label. *)
Theorem name_matching_ignores_letter_case (d1 d2 : AppDetails) :
  option_map toLowerCase (fileName d1) = option_map toLowerCase (fileName d2) ->
  option_map toLowerCase (domain d1) = option_map toLowerCase (domain d2) ->
  workers d1 = workers d2 ->
  estimateBasedOnAppDetails (Some d1) = estimateBasedOnAppDetails (Some d2).
Proof.
  intros Hf Hd Hw.
  assert (Tf : option_map toLowerCase (truthy_string (fileName d1)) =
               option_map toLowerCase (truthy_string (fileName d2)))
    by (rewrite <- !truthy_string_toLowerCase; congruence).
  assert (Td : option_map toLowerCase (truthy_string (domain d1)) =
               option_map toLowerCase (truthy_string (domain d2)))
    by (rewrite <- !truthy_string_toLowerCase; congruence).
  unfold estimateBasedOnAppDetails. rewrite Hw.
  destruct (truthy_string (fileName d1)) as [f1|],
           (truthy_string (fileName d2)) as [f2|];
    cbn [option_map] in Tf; try discriminate.
  - injection Tf as ->. reflexivity.
  - destruct (truthy_string (domain d1)) as [n1|],
             (truthy_string (domain d2)) as [n2|];
      cbn [option_map] in Td; try discriminate.
    + injection Td as ->. reflexivity.
    + reflexivity.
Qed.

(** The file name of the scenario in upper case. *)
Lemma name_matching_ignores_letter_case_witness :
  estimateBasedOnAppDetails (Some customerEapiUpperCase) =
  estimateBasedOnAppDetails (Some customerEapi).
Proof.
  apply name_matching_ignores_letter_case; reflexivity.
Defined.

(** ** The size heuristic *)

Section SizeHeuristic.

Lemma lt_of_Z (a b : Z) : lt (of_Z a) (of_Z b) = (a <? b)%Z.
Proof.
  unfold lt, of_Z, Qcompare, inject_Z. cbn [Qnum Qden].
  rewrite !Z.mul_1_r. unfold Z.ltb. reflexivity.
Qed.

Lemma clamp_of_Z (z : Z) :
  clamp (of_Z z) = of_Z (Z.max 1 (Z.min 20 z)).
Proof.
  unfold clamp.
  assert (Hmin : Math_min (num 20) (of_Z z) = of_Z (Z.min 20 z)).
  { unfold Math_min, num. cbn [of_Z]. fold (of_Z z). fold (of_Z 20).
    rewrite lt_of_Z. destruct (z <? 20)%Z eqn:E.
    - apply Z.ltb_lt in E. rewrite Z.min_r by lia. reflexivity.
    - apply Z.ltb_ge in E. rewrite Z.min_l by lia. reflexivity. }
  rewrite Hmin.
  unfold Math_max, num. cbn [of_Z]. fold (of_Z (Z.min 20 z)). fold (of_Z 1).
  rewrite lt_of_Z. destruct (1 <? Z.min 20 z)%Z eqn:E.
  - apply Z.ltb_lt in E. rewrite Z.max_r by lia. reflexivity.
  - apply Z.ltb_ge in E. rewrite Z.max_l by lia. reflexivity.
Qed.

(** Rounding the size in half megabytes is an integer division of the size in
    bytes. *)
Lemma round_half_megabytes (bytes : N) :
  Math_round (fileSizeInMB {| stat_size := bytes |} / dec 1 2) =
  of_Z ((Z.of_N bytes + 262144) / 524288).
Proof.
  unfold fileSizeInMB. cbn [stat_size].
  set (n := Z.of_N bytes).
  assert (E : (of_Z n / (num 1024 * num 1024) / dec 1 2)%js =
              Fin (Qred (Qred (inject_Z n / 1048576) / (1 # 2))))
    by reflexivity.
  rewrite E. unfold Math_round. f_equal.
  assert (Q : (Qred (Qred (inject_Z n / 1048576) / (1 # 2)) + (1 # 2) ==
               (n + 262144) # 524288)%Q).
  { rewrite !Qred_correct. unfold Qeq, Qdiv, Qmult, Qplus, Qinv, inject_Z.
    cbn [Qnum Qden]. lia. }
  rewrite Q. unfold Qfloor. reflexivity.
Qed.

Lemma sizeHeuristic_closed_form (bytes : N) :
  sizeHeuristic (fileSizeInMB {| stat_size := bytes |}) =
  of_Z (Z.max 1 (Z.min 20 ((Z.of_N bytes + 262144) / 524288))).
Proof.
  change (sizeHeuristic (fileSizeInMB {| stat_size := bytes |}))
    with (clamp (Math_round (fileSizeInMB {| stat_size := bytes |} / dec 1 2))).
  rewrite round_half_megabytes. apply clamp_of_Z.
Qed.

End SizeHeuristic.

(** X6: the size heuristic is a step function of the size in bytes: it is
    [(bytes + 262144) / 524288] (integer division) cut to [[1, 20]], it never
    decreases when the archive grows, it is 1 exactly below 786432 bytes
    (0.75 MB) and 20 exactly from 10223616 bytes (9.75 MB) on. *)
Theorem size_heuristic_steps (bytes : N) :
  sizeHeuristic (fileSizeInMB {| stat_size := bytes |}) =
    of_Z (Z.max 1 (Z.min 20 ((Z.of_N bytes + 262144) / 524288))) /\
  (forall larger : N, (bytes <= larger)%N ->
     (sizeHeuristic (fileSizeInMB {| stat_size := bytes |}) <=
      sizeHeuristic (fileSizeInMB {| stat_size := larger |}))%js) /\
  (sizeHeuristic (fileSizeInMB {| stat_size := bytes |}) = num 1 <->
   (bytes < 786432)%N) /\
  (sizeHeuristic (fileSizeInMB {| stat_size := bytes |}) = num 20 <->
   (10223616 <= bytes)%N).
Proof.
  assert (D : forall n : N,
            (524288 * ((Z.of_N n + 262144) / 524288) <= Z.of_N n + 262144
             < 524288 * ((Z.of_N n + 262144) / 524288) + 524288)%Z).
  { intros n.
    pose proof (Z.mul_div_le (Z.of_N n + 262144) 524288 eq_refl).
    pose proof (Z.mul_succ_div_gt (Z.of_N n + 262144) 524288 eq_refl).
    lia. }
  assert (I : forall a b : Z, of_Z a = of_Z b <-> a = b).
  { intros a b. split; [|intros ->; reflexivity].
    unfold of_Z, inject_Z. intros H. injection H as H. exact H. }
  split; [apply sizeHeuristic_closed_form|]. split; [|split].
  - intros larger Hle. rewrite !sizeHeuristic_closed_form.
    cbn [le of_Z]. rewrite <- Zle_Qle.
    pose proof (D bytes). pose proof (D larger).
    assert ((Z.of_N bytes + 262144) / 524288
            <= (Z.of_N larger + 262144) / 524288)%Z
      by (apply Z.div_le_mono; lia).
    lia.
  - rewrite sizeHeuristic_closed_form. unfold num. rewrite I.
    pose proof (D bytes). lia.
  - rewrite sizeHeuristic_closed_form. unfold num. rewrite I.
    pose proof (D bytes). lia.
Qed.

(** An archive of 2.30 MB and one of twice the size. *)
Lemma size_heuristic_steps_witness :
  (sizeHeuristic (fileSizeInMB {| stat_size := twoPointThreeMB |}) <=
   sizeHeuristic (fileSizeInMB {| stat_size := 2 * twoPointThreeMB |}))%js.
Proof.
  apply (proj1 (proj2 (size_heuristic_steps twoPointThreeMB))).
  discriminate.
Defined.

(** ** The structured count *)

Section StructuredCount.

Variable ex : Extraction.
Variables flows subFlows others : string -> N.

Lemma countConfig_sums (files : list string) :
  (forall f, In f files ->
     grepFlows ex f = grepOutput (flows f) /\
     grepSubFlows ex f = grepOutput (subFlows f) /\
     grepOtherFlows ex f = grepOutput (others f)) ->
  forall a b c : Z,
    fold_left (countConfig ex) files (of_Z a, of_Z b, of_Z c) =
    (of_Z (a + sumOver flows files), of_Z (b + sumOver subFlows files),
     of_Z (c + sumOver others files)).
Proof.
  induction files as [|f rest IH]; intros Hall a b c.
  - simpl. rewrite !Z.add_0_r. reflexivity.
  - destruct (Hall f (or_introl eq_refl)) as (Ef & Es & Eo).
    cbn [fold_left countConfig sumOver fold_right].
    rewrite Ef, Es, Eo, !parseInt_grepOutput, !add_of_Z.
    rewrite IH by (intros g Hg; apply Hall; right; exact Hg).
    fold (sumOver flows rest). fold (sumOver subFlows rest).
    fold (sumOver others rest).
    f_equal; [f_equal|]; apply f_equal; lia.
Qed.

Lemma structuredCount_sum :
  (forall f, In f (muleConfigFiles ex) ->
     grepFlows ex f = grepOutput (flows f) /\
     grepSubFlows ex f = grepOutput (subFlows f) /\
     grepOtherFlows ex f = grepOutput (others f)) ->
  structuredCount ex =
  of_Z (sumOver flows (muleConfigFiles ex)
        + sumOver subFlows (muleConfigFiles ex)
        + sumOver others (muleConfigFiles ex)).
Proof.
  intros Hall. unfold structuredCount.
  change (num 0) with (of_Z 0).
  rewrite (countConfig_sums (muleConfigFiles ex) Hall 0 0 0).
  rewrite !add_of_Z. f_equal; lia.
Qed.

End StructuredCount.

(** X7: when the archive is present, the temporary directory is made and at
    least one Mule configuration file is found, each of the three
    [grep -c ... || echo 0] commands printing its count, the result of
    [analyzeJarForFlows] is the sum over the configuration files of the flow,
    sub-flow and other counts, with confidence [high] and source
    "XML analysis". *)
Theorem structured_estimate_is_sum_of_counts
  (fs : FileSystem) (jarPath : option string) (appDetails : option AppDetails)
  (path : string) (stats : Stats) (flows subFlows others : string -> N) :
  truthy_string jarPath = Some path ->
  existsSync fs path = true ->
  statSync fs path = Returns stats ->
  ensureTempDir (extractJar fs path) = Returns tt ->
  muleConfigFiles (extractJar fs path) <> [] ->
  (forall f, In f (muleConfigFiles (extractJar fs path)) ->
     grepFlows (extractJar fs path) f = grepOutput (flows f) /\
     grepSubFlows (extractJar fs path) f = grepOutput (subFlows f) /\
     grepOtherFlows (extractJar fs path) f = grepOutput (others f)) ->
  analyzeJarForFlows fs jarPath appDetails =
  Returns
    {| estimatedFlows :=
         of_Z (sumOver flows (muleConfigFiles (extractJar fs path))
               + sumOver subFlows (muleConfigFiles (extractJar fs path))
               + sumOver others (muleConfigFiles (extractJar fs path)));
       confidence := high;
       source := "XML analysis";
       size := Some (toFixed2 (fileSizeInMB stats) ++ " MB");
       details := Some {| actualAnalysis := true |} |}.
Proof.
  intros Hp He Hs Ht Hm Hall.
  rewrite analyzeJarForFlows_cases, Hp, He, Hs, extractFlows_cases, Ht.
  destruct (muleConfigFiles (extractJar fs path)) as [|f rest] eqn:E;
    [congruence|].
  rewrite <- E in *.
  rewrite (structuredCount_sum (extractJar fs path) flows subFlows others Hall).
  reflexivity.
Qed.

(** The archive with two configuration files: 12 + 9 flows, 3 sub-flows and
    1 other element. *)
Lemma structured_estimate_is_sum_of_counts_witness :
  analyzeJarForFlows (jarOnDisk twoPointThreeMB twoConfigurations)
                     (Some appJar) None =
  Returns {| estimatedFlows := num 25;
             confidence := high;
             source := "XML analysis";
             size := Some "2.30 MB";
             details := Some {| actualAnalysis := true |} |}.
Proof.
  apply (structured_estimate_is_sum_of_counts
           (jarOnDisk twoPointThreeMB twoConfigurations) (Some appJar) None
           (path := appJar) (stats := {| stat_size := twoPointThreeMB |})
           (fun f => if String.eqb f "api.xml" then 12%N else 9%N)
           (fun f => if String.eqb f "api.xml" then 3%N else 0%N)
           (fun f => if String.eqb f "api.xml" then 1%N else 0%N)).
  - reflexivity.
  - reflexivity.
  - reflexivity.
  - reflexivity.
  - discriminate.
  - intros f _. repeat split.
Defined.

(** ** The flattened hierarchy *)

Section ParentsFirst.

Lemma parentsFirst_weaken (l : list BusinessGroup) :
  forall seen seen',
    (forall x, In x seen -> In x seen') ->
    parentsFirst seen l -> parentsFirst seen' l.
Proof.
  induction l as [|e rest IH]; intros seen seen' Hsub H; [exact I|].
  destruct H as [(p & Hp & Hin) Hrest]. split.
  - exists p. split; [exact Hp | apply Hsub; exact Hin].
  - apply (IH (bgId e :: seen)); [|exact Hrest].
    intros x [->|Hx]; [left; reflexivity | right; apply Hsub; exact Hx].
Qed.

Lemma parentsFirst_app (l1 l2 : list BusinessGroup) :
  forall seen,
    parentsFirst seen l1 -> parentsFirst seen l2 ->
    parentsFirst seen (l1 ++ l2)%list.
Proof.
  induction l1 as [|e rest IH]; intros seen H1 H2; [exact H2|].
  destruct H1 as [Hp Hrest]. split; [exact Hp|].
  apply IH; [exact Hrest|].
  apply parentsFirst_weaken with (seen := seen); [|exact H2].
  intros x Hx. right. exact Hx.
Qed.

End ParentsFirst.

(** X8: the flat list has exactly one entry per group of the hierarchy, so
    it is never empty, and its first entry is the root. *)
Theorem flat_list_has_one_entry_per_group (group : Group) :
  List.length (flattenBusinessGroups group) = groupCount group /\
  (1 <= List.length (flattenBusinessGroups group))%nat /\
  option_map bgId (hd_error (flattenBusinessGroups group))
    = Some (groupId group).
Proof.
  pose proof (flattenBusinessGroups_length group) as H.
  split; [exact H|]. split.
  - rewrite H. destruct group. simpl. lia.
  - rewrite flattenBusinessGroups_head. reflexivity.
Qed.

(** X9: in a hierarchy where every sub-organization carries the id of the
    group it is listed under as its [parentId], every entry of the flat list
    after the root names as its parent the id of an entry that comes before
    it: parents are listed before their children. *)
Theorem parents_are_listed_before_children :
  forall (group : Group) (seen : list string),
    wellParented group = true ->
    parentsFirst (groupId group :: seen) (tl (flattenBusinessGroups group)).
Proof.
  fix IH 1. intros [id name parentId [subs|]] seen Hw; [|exact I].
  cbn [flattenBusinessGroups tl groupId]. cbn [wellParented] in Hw.
  induction subs as [|c rest IHrest]; [exact I|].
  apply andb_prop in Hw. destruct Hw as [Hw Hrest].
  apply andb_prop in Hw. destruct Hw as [Hp Hc].
  apply parentsFirst_app; [|apply IHrest; exact Hrest].
  pose proof (IH c (id :: seen) Hc) as Hsub.
  destruct c as [cid cname cparent csubs].
  cbn [groupParentId] in Hp. cbn [groupId] in Hsub.
  cbn [flattenBusinessGroups tl] in Hsub.
  cbn [flattenBusinessGroups]. split; [|exact Hsub].
  cbn [bgParentId].
  destruct (truthy_string cparent) as [p|]; [|discriminate].
  apply String.eqb_eq in Hp. subst p.
  exists id. split; [reflexivity | left; reflexivity].
Qed.

(** A hierarchy of three levels. *)
Lemma parents_are_listed_before_children_witness :
  parentsFirst [groupId threeLevels] (tl (flattenBusinessGroups threeLevels)).
Proof.
  apply (parents_are_listed_before_children threeLevels []). reflexivity.
Defined.

(** ** Production and sandbox totals *)

Section ReportInvariant.

(** An invariant of the report totals that the header of an environment
    keeps, and that an application satisfying [Q] keeps. *)
Variable Inv : OrganizationTotals -> Prop.
Variable Q : AppData -> Prop.

Hypothesis header_keeps :
  forall t (b : bool) (n : nat),
    Inv t ->
    Inv {| totalApps := (totalApps t + of_nat n)%js;
           productionApps :=
             if b then (productionApps t + of_nat n)%js else productionApps t;
           sandboxApps :=
             if b then sandboxApps t else (sandboxApps t + of_nat n)%js;
           totalFlows := totalFlows t;
           productionFlows := productionFlows t;
           sandboxFlows := sandboxFlows t;
           totalMonthlyMessages := totalMonthlyMessages t;
           productionMonthlyMessages := productionMonthlyMessages t;
           sandboxMonthlyMessages := sandboxMonthlyMessages t |}.

Hypothesis application_keeps :
  forall t b a, Inv t -> Q a -> Inv (reportApplication b t a).

Lemma reportApplications_keep (b : bool) (apps : list AppData) :
  forall t, Inv t -> Forall Q apps ->
            Inv (fold_left (reportApplication b) apps t).
Proof.
  induction apps as [|a rest IH]; intros t Ht Hall; [exact Ht|].
  inversion Hall as [|? ? Ha Hrest]; subst.
  cbn [fold_left]. apply IH; [|exact Hrest].
  apply application_keeps; assumption.
Qed.

Lemma reportEnvironments_keep (envs : list EnvironmentData) :
  forall t, Inv t -> Forall Q (flat_map applications envs) ->
            Inv (fold_left reportEnvironment envs t).
Proof.
  induction envs as [|env rest IH]; intros t Ht Hall; [exact Ht|].
  cbn [flat_map] in Hall. apply Forall_app in Hall. destruct Hall as [H1 H2].
  cbn [fold_left]. apply IH; [|exact H2].
  unfold reportEnvironment. apply reportApplications_keep; [|exact H1].
  apply header_keeps. exact Ht.
Qed.

Lemma reportGroups_keep (groups : list BusinessGroupData) :
  forall t, Inv t ->
            Forall Q (flat_map (fun g => flat_map applications (environments g))
                               groups) ->
            Inv (fold_left reportGroup groups t).
Proof.
  induction groups as [|g rest IH]; intros t Ht Hall; [exact Ht|].
  cbn [flat_map] in Hall. apply Forall_app in Hall. destruct Hall as [H1 H2].
  cbn [fold_left]. apply IH; [|exact H2].
  unfold reportGroup. apply reportEnvironments_keep; assumption.
Qed.

End ReportInvariant.

Section Partition.

(** The application counts split into production and sandbox. *)
Let appsSplit (t : OrganizationTotals) : Prop :=
  exists pa sa : Z,
    productionApps t = of_Z pa /\ sandboxApps t = of_Z sa /\
    totalApps t = of_Z (pa + sa).

(** The flow and message totals split into production and sandbox. *)
Let estimatesSplit (t : OrganizationTotals) : Prop :=
  exists pf sf pm sm : Z,
    productionFlows t = of_Z pf /\ sandboxFlows t = of_Z sf /\
    totalFlows t = of_Z (pf + sf) /\
    productionMonthlyMessages t = of_Z pm /\
    sandboxMonthlyMessages t = of_Z sm /\
    totalMonthlyMessages t = of_Z (pm + sm).

Let integerLeaf (a : AppData) : Prop :=
  (exists z, estimatedFlows (flowAnalysis a) = of_Z z) /\
  (exists z, estimatedMonthlyMessages (messageAnalysis a) = of_Z z).

Lemma or_zero_of_Z (z : Z) : or_zero (of_Z z) = of_Z z.
Proof.
  unfold or_zero, truthy, of_Z.
  destruct (Qeq_bool (inject_Z z) 0) eqn:E; [|reflexivity].
  apply Qeq_bool_eq in E. unfold Qeq, inject_Z in E. cbn in E.
  assert (z = 0%Z) by lia. subst z. reflexivity.
Qed.

Lemma appsSplit_report (groups : list BusinessGroupData) :
  appsSplit (fold_left reportGroup groups noTotals).
Proof.
  apply (@reportGroups_keep appsSplit (fun _ => True)).
  - intros t b n (pa & sa & Hp & Hs & Ht).
    unfold appsSplit. cbn [totalApps productionApps sandboxApps].
    unfold of_nat. rewrite Hp, Hs, Ht.
    destruct b; rewrite !add_of_Z.
    + exists (pa + Z.of_nat n)%Z, sa. repeat split. f_equal. lia.
    + exists pa, (sa + Z.of_nat n)%Z. repeat split. f_equal. lia.
  - intros t b a H _. exact H.
  - exists 0%Z, 0%Z. repeat split.
  - apply Forall_forall. intros a _. exact I.
Qed.

Lemma estimatesSplit_report (groups : list BusinessGroupData) :
  Forall integerLeaf
         (flat_map (fun g => flat_map applications (environments g)) groups) ->
  estimatesSplit (fold_left reportGroup groups noTotals).
Proof.
  apply (@reportGroups_keep estimatesSplit integerLeaf).
  - intros t b n H. exact H.
  - intros t b a (pf & sf & pm & sm & H1 & H2 & H3 & H4 & H5 & H6)
           ((f & Hf) & (m & Hm)).
    unfold estimatesSplit, reportApplication.
    cbn [totalFlows productionFlows sandboxFlows totalMonthlyMessages
         productionMonthlyMessages sandboxMonthlyMessages].
    rewrite Hf, Hm, !or_zero_of_Z, H1, H2, H3, H4, H5, H6.
    destruct b; rewrite !add_of_Z.
    + exists (pf + f)%Z, sf, (pm + m)%Z, sm.
      repeat split; f_equal; lia.
    + exists pf, (sf + f)%Z, pm, (sm + m)%Z.
      repeat split; f_equal; lia.
  - exists 0%Z, 0%Z, 0%Z, 0%Z. repeat split.
Qed.

End Partition.

(** X10: in the organization summary the number of applications is always
    the number of production applications plus the number of sandbox
    applications, and when the leaf estimates are integers whose magnitudes
    add up to at most [2^53] the totals of flows and of monthly messages are
    likewise the production total plus the sandbox total. *)
Theorem report_totals_split_into_production_and_sandbox
  (cfg : Config) (inventory : Inventory) (t : OrganizationTotals) :
  generateOrganizationSummaryReport cfg inventory = Some t ->
  totalApps t = (productionApps t + sandboxApps t)%js /\
  (exactEstimates inventory ->
   totalFlows t = (productionFlows t + sandboxFlows t)%js /\
   totalMonthlyMessages t =
     (productionMonthlyMessages t + sandboxMonthlyMessages t)%js).
Proof.
  unfold generateOrganizationSummaryReport.
  destruct (exportCsv cfg); [|discriminate].
  cbn [negb]. intros H. injection H as <-. split.
  - destruct (appsSplit_report (businessGroups inventory))
      as (pa & sa & Hp & Hs & Ht).
    rewrite Hp, Hs, Ht, add_of_Z. reflexivity.
  - intros [Hint _].
    destruct (estimatesSplit_report (businessGroups inventory) Hint)
      as (pf & sf & pm & sm & H1 & H2 & H3 & H4 & H5 & H6).
    rewrite H1, H2, H3, H4, H5, H6, !add_of_Z. split; reflexivity.
Qed.

(** The inventory of the sample run: 33 + 2 flows and 3015 + 0 messages. *)
Lemma report_totals_split_into_production_and_sandbox_witness :
  exists t,
    generateOrganizationSummaryReport sampleConfig sampleInventory = Some t /\
    exactEstimates sampleInventory /\
    totalApps t = (productionApps t + sandboxApps t)%js /\
    totalFlows t = (productionFlows t + sandboxFlows t)%js.
Proof.
  assert (Hint : exactEstimates sampleInventory).
  { split; [|split; vm_compute; discriminate].
    unfold integerEstimates.
    repeat constructor; eexists; vm_compute; reflexivity. }
  eexists. split; [reflexivity|]. split; [exact Hint|].
  pose proof (report_totals_split_into_production_and_sandbox
                sampleConfig sampleInventory eq_refl) as [Ha Hf].
  split; [exact Ha | exact (proj1 (Hf Hint))].
Defined.

(** ** The inventory against the platform *)

Section Mirror.

Variable cfg : Config.
Variable fs : FileSystem.

Lemma processApplication_carries (apps : list AppData) (s : Summary)
  (src : ApplicationSource) :
  exists a,
    processApplication cfg fs (apps, s) src =
    Returns ((apps ++ [a])%list,
             updateSummary s (flowAnalysis a) (messageAnalysis a)) /\
    carries cfg fs src a.
Proof.
  unfold processApplication, carries, chosenJarPath.
  destruct (applicationDetails src) as [d|];
    [destruct (downloadJars cfg);
     [destruct (downloadApplicationJar src) as [info|];
      [destruct (truthy_string (jarPath info)) as [path|] eqn:E|]|]|];
    rewrite analyzeJarForFlows_cases; cbn [bind];
    (eexists {| app := _ |}; split; [reflexivity|]);
    cbn [app flowAnalysis messageAnalysis monitoringData];
    rewrite ?analyzeJarForFlows_cases; repeat split.
Qed.

Lemma applications_loop_carries (srcs : list ApplicationSource) :
  forall apps s, exists new,
    foldM (processApplication cfg fs) srcs (apps, s) =
    Returns ((apps ++ new)%list, accumulate new s) /\
    Forall2 (carries cfg fs) srcs new.
Proof.
  induction srcs as [|src rest IH]; intros apps s.
  - exists []. split; [|constructor]. simpl. rewrite app_nil_r. reflexivity.
  - destruct (processApplication_carries apps s src) as [a [Ha Hc]].
    cbn [foldM]. rewrite Ha. cbn [bind].
    destruct (IH (apps ++ [a])%list
                 (updateSummary s (flowAnalysis a) (messageAnalysis a)))
      as [new [Hnew Hall]].
    exists (a :: new). split; [|constructor; assumption].
    rewrite Hnew, <- app_assoc. reflexivity.
Qed.

Lemma environments_loop_match (srcs : list EnvironmentSource) :
  forall envs s, exists new,
    foldM (processEnvironment cfg fs) srcs (envs, s) =
    Returns ((envs ++ new)%list, accumulate (flat_map applications new) s) /\
    Forall2 (environmentMatches cfg fs) srcs new.
Proof.
  induction srcs as [|env rest IH]; intros envs s.
  - exists []. split; [|constructor]. simpl. rewrite app_nil_r. reflexivity.
  - cbn [foldM]. unfold processEnvironment at 1.
    destruct (applications_loop_carries (envApplications env) [] s)
      as [apps [Happs Hall]].
    rewrite Happs. cbn [bind List.app].
    match goal with
    | |- context [foldM _ rest (?e, ?s')] =>
        destruct (IH e s') as [new [Hnew Hrest]]
    end.
    rewrite Hnew, <- app_assoc. cbn [List.app].
    exists ({| environmentId := envId env;
               environmentName := envName env;
               isProduction := envIsProduction env;
               applications := apps |} :: new).
    split.
    + cbn [flat_map applications]. rewrite accumulate_app. reflexivity.
    + constructor; [|exact Hrest]. repeat split. exact Hall.
Qed.

Lemma groups_loop_match (p : Platform) (groups : list BusinessGroup) :
  forall inv, exists new,
    foldM (processGroup cfg fs p) groups inv =
    Returns {| businessGroups := (businessGroups inv ++ new)%list;
               summary :=
                 accumulate
                   (flat_map (fun g => flat_map applications (environments g)) new)
                   (summary inv) |} /\
    Forall2 (groupMatches cfg fs p) groups new.
Proof.
  induction groups as [|g rest IH]; intros inv.
  - exists []. split; [|constructor].
    simpl. rewrite app_nil_r. destruct inv. reflexivity.
  - cbn [foldM]. unfold processGroup at 1.
    destruct (environments_loop_match (getEnvironments p (bgId g)) []
                (summary inv)) as [envs [Henvs Hall]].
    rewrite Henvs. cbn [bind List.app].
    match goal with
    | |- context [foldM _ rest ?i] => destruct (IH i) as [new [Hnew Hrest]]
    end.
    rewrite Hnew. cbn [businessGroups summary]. rewrite <- app_assoc.
    cbn [List.app].
    exists ({| groupEntry := g; environments := envs |} :: new).
    split.
    + cbn [flat_map environments]. rewrite accumulate_app. reflexivity.
    + constructor; [|exact Hrest]. split; [reflexivity | exact Hall].
Qed.

Lemma Forall2_flat_map {A B C D : Type} (R : C -> D -> Prop)
  (f : A -> list C) (g : B -> list D) (xs : list A) (ys : list B) :
  Forall2 (fun x y => Forall2 R (f x) (g y)) xs ys ->
  Forall2 R (flat_map f xs) (flat_map g ys).
Proof.
  induction 1 as [|x y xs' ys' H _ IH]; [constructor|].
  cbn [flat_map]. apply Forall2_app; assumption.
Qed.

(** The leaves of matching groups are the records of the listed
    applications. *)
Lemma leaves_carry (p : Platform) (groups : list BusinessGroup)
  (new : list BusinessGroupData) :
  Forall2 (groupMatches cfg fs p) groups new ->
  Forall2 (carries cfg fs)
    (flat_map (fun g => flat_map envApplications (getEnvironments p (bgId g)))
              groups)
    (flat_map (fun g => flat_map applications (environments g)) new).
Proof.
  intros H. apply Forall2_flat_map.
  induction H as [|g d gs ds [_ Henvs] _ IH]; constructor; [|exact IH].
  apply Forall2_flat_map.
  induction Henvs as [|e ed es eds (_ & _ & _ & Happs) _ IHe];
    constructor; assumption.
Qed.

End Mirror.

(** X11: the run loses, duplicates and reorders nothing: the inventory has
    one business-group record per entry of the flat hierarchy, in order, each
    with one environment record per environment of that group and each of
    these with one application record per listed application; every
    application record carries the listing entry, the flow estimate and the
    message estimate of its own application; and the summary counts exactly
    the listed applications. *)
Theorem inventory_mirrors_the_platform
  (cfg : Config) (fs : FileSystem) (p : Platform) :
  exists inventory,
    analyzeBillableConsumption cfg fs p = Returns inventory /\
    Forall2 (groupMatches cfg fs p)
            (flattenBusinessGroups (hierarchy p)) (businessGroups inventory) /\
    Forall2 (carries cfg fs) (listedApplications p) (leaves inventory) /\
    totalApplications (summary inventory) =
      of_nat (List.length (listedApplications p)).
Proof.
  destruct (groups_loop_match cfg fs p (flattenBusinessGroups (hierarchy p))
              emptyInventory) as [new [Hrun Hmatch]].
  eexists. split; [exact Hrun|].
  cbn [businessGroups summary emptyInventory List.app].
  pose proof (leaves_carry Hmatch) as Hleaves.
  split; [exact Hmatch|]. split; [exact Hleaves|].
  change (num 0) with (of_Z 0). rewrite accumulate_counters.
  cbn [totalApplications]. unfold of_nat, listedApplications.
  rewrite (Forall2_length Hleaves). reflexivity.
Qed.

(** X12: an application is estimated from its metadata alone, with
    confidence [low], whenever archive downloads are disabled, its details
    could not be fetched, or its download gave no archive; without details
    the estimate is the default of 2 flows. *)
Theorem applications_without_archive_get_metadata_estimate
  (cfg : Config) (fs : FileSystem) (p : Platform) :
  exists inventory,
    analyzeBillableConsumption cfg fs p = Returns inventory /\
    Forall2
      (fun src a =>
         (downloadJars cfg = false \/ applicationDetails src = None \/
          downloadApplicationJar src = None ->
          flowAnalysis a = estimateBasedOnAppDetails (applicationDetails src) /\
          confidence (flowAnalysis a) = low) /\
         (applicationDetails src = None ->
          estimatedFlows (flowAnalysis a) = num 2 /\
          source (flowAnalysis a) = "Default estimate (no metadata)"))
      (listedApplications p) (leaves inventory).
Proof.
  destruct (groups_loop_match cfg fs p (flattenBusinessGroups (hierarchy p))
              emptyInventory) as [new [Hrun Hmatch]].
  eexists. split; [exact Hrun|].
  cbn [businessGroups emptyInventory List.app].
  pose proof (leaves_carry Hmatch) as Hleaves.
  unfold listedApplications, leaves. cbn [businessGroups].
  apply Forall2_impl with (2 := Hleaves).
  intros src a (_ & Hflow & _).
  assert (M : chosenJarPath cfg src = None ->
              flowAnalysis a
              = estimateBasedOnAppDetails (applicationDetails src)).
  { intros E. rewrite E in Hflow. cbn in Hflow. injection Hflow as <-.
    reflexivity. }
  split.
  - intros H.
    assert (E : chosenJarPath cfg src = None).
    { unfold chosenJarPath. destruct H as [H|[H|H]]; rewrite H;
        destruct (applicationDetails src); try reflexivity;
        destruct (downloadJars cfg); reflexivity. }
    rewrite (M E). split; [reflexivity | apply estimateBasedOnAppDetails_low].
  - intros H.
    assert (E : chosenJarPath cfg src = None)
      by (unfold chosenJarPath; rewrite H; reflexivity).
    rewrite (M E), H. split; reflexivity.
Qed.

(** ** The business-group report against the organization summary *)

Section GroupRows.

Lemma zsum_cons {A : Type} (f : A -> Z) (a : A) (l : list A) :
  zsum f (a :: l) = (f a + zsum f l)%Z.
Proof. reflexivity. Qed.

Lemma zsum_app {A : Type} (f : A -> Z) (l1 l2 : list A) :
  zsum f (l1 ++ l2) = (zsum f l1 + zsum f l2)%Z.
Proof.
  induction l1 as [|a rest IH]; [reflexivity|].
  cbn [List.app zsum fold_right]. fold (zsum f (rest ++ l2)).
  fold (zsum f rest). rewrite IH. lia.
Qed.

Lemma toZ_of_Z (z : Z) : toZ (of_Z z) = z.
Proof. unfold toZ, of_Z. apply Qfloor_Z. Qed.

(** Adding integer values one after the other gives the integer sum. *)
Lemma fold_add_integers {A : Type} (v : A -> number) (l : list A) :
  Forall (fun a => exists z, v a = of_Z z) l ->
  forall k : Z,
    fold_left (fun acc a => (acc + v a)%js) l (of_Z k) =
    of_Z (k + zsum (fun a => toZ (v a)) l).
Proof.
  induction 1 as [|a rest [z Hz] _ IH]; intros k.
  - simpl. rewrite Z.add_0_r. reflexivity.
  - cbn [fold_left zsum fold_right]. rewrite Hz, add_of_Z, IH, toZ_of_Z.
    f_equal. fold (zsum (fun a0 => toZ (v a0)) rest). lia.
Qed.

Lemma rowApplication_totals (apps : list AppData) :
  forall ta pa sa f m,
    fold_left rowApplication apps (ta, pa, sa, f, m) =
    (ta, pa, sa,
     fold_left (fun acc a => (acc + flowsOf a)%js) apps f,
     fold_left (fun acc a => (acc + messagesOf a)%js) apps m).
Proof.
  induction apps as [|a rest IH]; intros ta pa sa f m; [reflexivity|].
  cbn [fold_left rowApplication]. apply IH.
Qed.

Lemma rowEnvironment_totals (envs : list EnvironmentData) :
  forall (pa sa : Z) (f m : number),
  exists pa' sa' : Z,
    (pa' + sa' =
     pa + sa + Z.of_nat (List.length (flat_map applications envs)))%Z /\
    fold_left rowEnvironment envs (of_Z (pa + sa), of_Z pa, of_Z sa, f, m) =
    (of_Z (pa' + sa'), of_Z pa', of_Z sa',
     fold_left (fun acc a => (acc + flowsOf a)%js)
               (flat_map applications envs) f,
     fold_left (fun acc a => (acc + messagesOf a)%js)
               (flat_map applications envs) m).
Proof.
  induction envs as [|env rest IH]; intros pa sa f m.
  - exists pa, sa. split; [simpl; lia | reflexivity].
  - cbn [fold_left flat_map]. unfold rowEnvironment at 2.
    unfold of_nat. rewrite length_app, !fold_left_app.
    destruct (isProduction env); rewrite !add_of_Z, rowApplication_totals.
    + replace (pa + sa + Z.of_nat (List.length (applications env)))%Z
        with ((pa + Z.of_nat (List.length (applications env))) + sa)%Z by lia.
      destruct (IH (pa + Z.of_nat (List.length (applications env)))%Z sa
                   (fold_left (fun acc a => (acc + flowsOf a)%js)
                              (applications env) f)
                   (fold_left (fun acc a => (acc + messagesOf a)%js)
                              (applications env) m))
        as (pa' & sa' & Hsum & Hfold).
      exists pa', sa'. split; [lia | exact Hfold].
    + replace (pa + sa + Z.of_nat (List.length (applications env)))%Z
        with (pa + (sa + Z.of_nat (List.length (applications env))))%Z by lia.
      destruct (IH pa (sa + Z.of_nat (List.length (applications env)))%Z
                   (fold_left (fun acc a => (acc + flowsOf a)%js)
                              (applications env) f)
                   (fold_left (fun acc a => (acc + messagesOf a)%js)
                              (applications env) m))
        as (pa' & sa' & Hsum & Hfold).
      exists pa', sa'. split; [lia | exact Hfold].
Qed.

(** The row of a business group in terms of its leaves. *)
Lemma groupRow_totals (g : BusinessGroupData) :
  exists pa sa : Z,
    rowProductionApps (groupRow g) = of_Z pa /\
    rowSandboxApps (groupRow g) = of_Z sa /\
    rowTotalApps (groupRow g) = of_Z (pa + sa) /\
    (pa + sa)%Z =
      Z.of_nat (List.length (flat_map applications (environments g))) /\
    rowTotalFlows (groupRow g) =
      fold_left (fun acc a => (acc + flowsOf a)%js)
                (flat_map applications (environments g)) (num 0) /\
    rowTotalMonthlyMessages (groupRow g) =
      fold_left (fun acc a => (acc + messagesOf a)%js)
                (flat_map applications (environments g)) (num 0).
Proof.
  destruct (rowEnvironment_totals (environments g) 0 0 (num 0) (num 0))
    as (pa & sa & Hsum & Hfold).
  unfold groupRow. change (num 0, num 0, num 0, num 0, num 0)
    with (of_Z (0 + 0), of_Z 0, of_Z 0, num 0, num 0).
  rewrite Hfold. exists pa, sa. repeat split. lia.
Qed.

End GroupRows.

Section ColumnSums.

Lemma fold_left_over_map {A B C : Type} (f : C -> B -> C) (g : A -> B)
  (l : list A) :
  forall c, fold_left f (map g l) c = fold_left (fun c a => f c (g a)) l c.
Proof.
  induction l as [|a rest IH]; intros c; [reflexivity|].
  cbn [map fold_left]. apply IH.
Qed.

Lemma zsum_flat_map {A B : Type} (f : B -> Z) (g : A -> list B) (l : list A) :
  zsum f (flat_map g l) = zsum (fun a => zsum f (g a)) l.
Proof.
  induction l as [|a rest IH]; [reflexivity|].
  cbn [flat_map]. rewrite zsum_app, IH. reflexivity.
Qed.

(** Summing per business group and then over the groups gives the sum over
    all leaves, for integer values. *)
Lemma column_adds_up (v : AppData -> number)
  (column : BusinessGroupData -> number) (groups : list BusinessGroupData) :
  (forall g, column g =
             fold_left (fun acc a => (acc + v a)%js)
                       (flat_map applications (environments g)) (num 0)) ->
  Forall (fun a => exists z, v a = of_Z z)
         (flat_map (fun g => flat_map applications (environments g)) groups) ->
  fold_left (fun acc g => (acc + column g)%js) groups (num 0) =
  fold_left (fun acc a => (acc + v a)%js)
            (flat_map (fun g => flat_map applications (environments g)) groups)
            (num 0).
Proof.
  intros Hcol Hint. change (num 0) with (of_Z 0) in *.
  rewrite (fold_add_integers v Hint).
  assert (G : Forall (fun g => exists z, column g = of_Z z) groups /\
              zsum (fun g => toZ (column g)) groups =
              zsum (fun a => toZ (v a))
                   (flat_map (fun g => flat_map applications (environments g))
                             groups)).
  { induction groups as [|g rest IH]; [split; [constructor|reflexivity]|].
    cbn [flat_map] in Hint. apply Forall_app in Hint.
    destruct Hint as [Hg Hrest]. destruct (IH Hrest) as [IH1 IH2].
    assert (E : column g =
                of_Z (zsum (fun a => toZ (v a))
                           (flat_map applications (environments g)))).
    { rewrite Hcol, (fold_add_integers v Hg). reflexivity. }
    split.
    - constructor; [eexists; exact E | exact IH1].
    - cbn [flat_map].
      rewrite zsum_cons, zsum_app, IH2, E, toZ_of_Z. reflexivity. }
  destruct G as [G1 G2].
  rewrite (fold_add_integers column G1), G2. reflexivity.
Qed.

End ColumnSums.

(** X13: the business-group report has one row per business group of the
    inventory, in order; in every row the applications are the production
    plus the sandbox applications; the application column adds up to the
    total of the organization summary, and so do the flow and the monthly
    message columns when the leaf estimates are integers whose magnitudes
    add up to at most [2^53]. *)
Theorem group_report_adds_up_to_organization_summary
  (cfg : Config) (inventory : Inventory) (rows : list GroupRow)
  (t : OrganizationTotals) :
  generateBusinessGroupCsvReport cfg inventory = Some rows ->
  generateOrganizationSummaryReport cfg inventory = Some t ->
  map rowId rows = map (fun g => bgId (groupEntry g)) (businessGroups inventory) /\
  Forall (fun r => rowTotalApps r = (rowProductionApps r + rowSandboxApps r)%js)
         rows /\
  columnSum rowTotalApps rows = totalApps t /\
  (exactEstimates inventory ->
   columnSum rowTotalFlows rows = totalFlows t /\
   columnSum rowTotalMonthlyMessages rows = totalMonthlyMessages t).
Proof.
  unfold generateBusinessGroupCsvReport, generateOrganizationSummaryReport.
  destruct (exportCsv cfg); [|discriminate]. cbn [negb].
  intros Hrows Ht. injection Hrows as <-. injection Ht as <-.
  destruct (reportGroup_totals (businessGroups inventory) noTotals (k := 0)
              eq_refl) as (T1 & T2 & T3).
  cbv zeta in T1, T2, T3. cbn [noTotals totalFlows totalMonthlyMessages] in T2, T3.
  unfold columnSum. rewrite !fold_left_over_map.
  split; [|split; [|split]].
  - rewrite map_map. apply map_ext. intros g. unfold groupRow.
    destruct (fold_left rowEnvironment (environments g)
                        (num 0, num 0, num 0, num 0, num 0))
      as [[[[ta pa] sa] f] m].
    reflexivity.
  - apply Forall_forall. intros r Hr. apply in_map_iff in Hr.
    destruct Hr as [g [<- _]].
    destruct (groupRow_totals g) as (pa & sa & Hp & Hs & Ha & _).
    rewrite Hp, Hs, Ha, add_of_Z. reflexivity.
  - rewrite T1.
    rewrite (column_adds_up (fun _ => num 1)
               (fun g => rowTotalApps (groupRow g))).
    + change (num 0) with (of_Z 0).
      rewrite (fold_add_integers (fun _ : AppData => num 1)).
      * f_equal. cbn [Z.add].
        generalize (flat_map (fun g => flat_map applications (environments g))
                             (businessGroups inventory)).
        induction l as [|a rest IH]; [reflexivity|].
        rewrite zsum_cons. cbn [List.length].
        change (toZ (num 1)) with 1%Z in *. lia.
      * apply Forall_forall. intros a _. exists 1%Z. reflexivity.
    + intros g. destruct (groupRow_totals g) as (pa & sa & _ & _ & Ha & Hl & _).
      rewrite Ha, Hl. change (num 0) with (of_Z 0).
      rewrite (fold_add_integers (fun _ : AppData => num 1)).
      * f_equal. cbn [Z.add].
        generalize (flat_map applications (environments g)).
        induction l as [|a rest IH]; [reflexivity|].
        rewrite zsum_cons. cbn [List.length].
        change (toZ (num 1)) with 1%Z in *. lia.
      * apply Forall_forall. intros a _. exists 1%Z. reflexivity.
    + apply Forall_forall. intros a _. exists 1%Z. reflexivity.
  - intros [Hint _]. unfold integerEstimates, leaves in Hint.
    rewrite T2, T3. split.
    + apply column_adds_up.
      * intros g. destruct (groupRow_totals g) as (pa & sa & _ & _ & _ & _ & Hf & _).
        exact Hf.
      * apply Forall_impl with (2 := Hint).
        intros a [[z Hz] _]. exists z. unfold flowsOf.
        rewrite Hz. apply or_zero_of_Z.
    + apply column_adds_up.
      * intros g. destruct (groupRow_totals g) as (pa & sa & _ & _ & _ & _ & _ & Hm).
        exact Hm.
      * apply Forall_impl with (2 := Hint).
        intros a [_ [z Hz]]. exists z. unfold messagesOf.
        rewrite Hz. apply or_zero_of_Z.
Qed.

(** The two reports over the inventory of the sample run. *)
Lemma group_report_adds_up_to_organization_summary_witness :
  exists rows t,
    generateBusinessGroupCsvReport sampleConfig sampleInventory = Some rows /\
    generateOrganizationSummaryReport sampleConfig sampleInventory = Some t /\
    exactEstimates sampleInventory /\
    columnSum rowTotalApps rows = totalApps t /\
    columnSum rowTotalFlows rows = totalFlows t.
Proof.
  assert (Hint : exactEstimates sampleInventory).
  { split; [|split; vm_compute; discriminate].
    unfold integerEstimates.
    repeat constructor; eexists; vm_compute; reflexivity. }
  eexists. eexists. split; [reflexivity|]. split; [reflexivity|].
  split; [exact Hint|].
  pose proof (group_report_adds_up_to_organization_summary
                sampleConfig sampleInventory eq_refl eq_refl)
    as (_ & _ & Ha & Hf).
  split; [exact Ha | exact (proj1 (Hf Hint))].
Defined.

(** ** The listings of the platform *)

Section Listings.

Import Api.

Lemma listApplication_returns (app : value) :
  nullish app = false -> listApplication app = Returns (listingOf app).
Proof.
  intros H. unfold listApplication, member. rewrite H. reflexivity.
Qed.

Lemma listApplication_throws (app : value) :
  nullish app = true -> exists e, listApplication app = Throws e.
Proof.
  intros H. unfold listApplication, member. rewrite H.
  eexists. reflexivity.
Qed.

Lemma mapM_listApplication (l : list value) :
  mapM listApplication l =
  if existsb nullish l
  then match mapM listApplication l with
       | Throws e => Throws e
       | Returns _ => Throws EmptyString
       end
  else Returns (map listingOf l).
Proof.
  induction l as [|app rest IH]; [reflexivity|].
  cbn [mapM existsb map].
  destruct (nullish app) eqn:N.
  - destruct (listApplication_throws app N) as [e ->]. reflexivity.
  - rewrite (listApplication_returns app N). cbn [bind orb].
    rewrite IH. destruct (existsb nullish rest).
    + destruct (mapM listApplication rest); reflexivity.
    + reflexivity.
Qed.

Lemma mapM_listApplication_result (l : list value) :
  match try_catch (mapM listApplication l) (fun _ => Returns []) with
  | Returns r => r
  | Throws _ => []
  end = if existsb nullish l then [] else map listingOf l.
Proof.
  rewrite mapM_listApplication.
  destruct (existsb nullish l); [|reflexivity].
  destruct (mapM listApplication l); reflexivity.
Qed.

Lemma listEnvironment_cases (env : value) :
  listEnvironment env =
  if nullish env then Throws "TypeError: Cannot read properties"
  else Returns (environmentOf env).
Proof.
  unfold listEnvironment, member. destruct (nullish env); reflexivity.
Qed.

Lemma mapM_listEnvironment_result (l : list value) :
  match try_catch (mapM listEnvironment l) (fun _ => Returns []) with
  | Returns r => r
  | Throws _ => []
  end = if existsb nullish l then [] else map environmentOf l.
Proof.
  assert (G : mapM listEnvironment l =
              if existsb nullish l
              then match mapM listEnvironment l with
                   | Throws e => Throws e
                   | Returns _ => Throws EmptyString
                   end
              else Returns (map environmentOf l)).
  { induction l as [|env rest IH]; [reflexivity|].
    cbn [mapM existsb map]. rewrite listEnvironment_cases.
    destruct (nullish env); [reflexivity|].
    cbn [bind orb]. rewrite IH. destruct (existsb nullish rest).
    - destruct (mapM listEnvironment rest); reflexivity.
    - reflexivity. }
  rewrite G. destruct (existsb nullish l); [|reflexivity].
  destruct (mapM listEnvironment l); reflexivity.
Qed.

End Listings.

(** The listing in terms of the recognized array. *)
Lemma getApplications_table (debug : bool) (data : Api.value) :
  Api.getApplications debug (Returns data) =
  match Api.recognizedArray data with
  | Some l => if existsb Api.nullish l then [] else map Api.listingOf l
  | None => []
  end.
Proof.
  unfold Api.getApplications, Api.recognizedArray.
  cbn [bind].
  destruct data as [| |b|n|s|l|fields];
    try (destruct debug; reflexivity).
  - destruct debug; destruct b; reflexivity.
  - destruct debug; cbn [Api.objectKeys Api.nullish bind Api.truthyValue];
      destruct (truthy n); reflexivity.
  - destruct debug; destruct s; reflexivity.
  - destruct debug;
      cbn [Api.objectKeys Api.nullish bind Api.truthyValue negb];
      apply mapM_listApplication_result.
  - destruct debug;
      cbn [Api.objectKeys Api.nullish bind Api.truthyValue negb Api.member];
      (destruct (Api.property (Api.JObject fields) "data");
       try apply mapM_listApplication_result;
       destruct (Api.property (Api.JObject fields) "applications");
       try apply mapM_listApplication_result; reflexivity).
Qed.

(** X14: [getApplications] never throws and answers with the empty list
    unless the response is recognized to carry an array: the response itself
    when it is an array, else its [data] property, else its [applications]
    property.  It then returns one entry per application, in order; but a
    single [null] entry in that array makes the callback throw and the whole
    listing of the environment empty. *)
Theorem getApplications_reads_three_shapes (debug : bool) :
  (forall e, Api.getApplications debug (Throws e) = []) /\
  (forall data,
     Api.truthyValue data = false ->
     Api.getApplications debug (Returns data) = []) /\
  (forall data,
     Api.recognizedArray data = None ->
     Api.getApplications debug (Returns data) = []) /\
  (forall data applications,
     Api.recognizedArray data = Some applications ->
     existsb Api.nullish applications = false ->
     Api.getApplications debug (Returns data) =
       map Api.listingOf applications /\
     List.length (Api.getApplications debug (Returns data)) =
       List.length applications) /\
  (forall data applications,
     Api.recognizedArray data = Some applications ->
     existsb Api.nullish applications = true ->
     Api.getApplications debug (Returns data) = []) /\
  (forall applications others,
     Api.recognizedArray
       (Api.JObject [ ("applications", Api.JArray others);
                      ("data", Api.JArray applications) ]) =
     Some applications).
Proof.
  pose proof (getApplications_table debug) as T.
  split; [reflexivity|]. split; [|split; [|split; [|split]]].
  - intros data H. rewrite T.
    destruct data as [| |b|n|s|l|fields]; try discriminate; reflexivity.
  - intros data H. rewrite T, H. reflexivity.
  - intros data applications H N. rewrite T, H, N.
    split; [reflexivity | apply length_map].
  - intros data applications H N. rewrite T, H, N. reflexivity.
  - intros applications others. reflexivity.
Qed.

(** Two applications in the [data] property of the response. *)
Lemma getApplications_reads_three_shapes_witness :
  List.length
    (Api.getApplications false
       (Returns (Api.JObject [ ("total", Api.JNumber (num 2));
                               ("data", Api.JArray Api.twoApplications) ])))
  = 2%nat.
Proof.
  apply (proj1 (proj2 (proj2 (proj2 (getApplications_reads_three_shapes false))))
           (Api.JObject [ ("total", Api.JNumber (num 2));
                          ("data", Api.JArray Api.twoApplications) ])
           Api.twoApplications eq_refl eq_refl).
Defined.

Section Defaults.

Import Api.

Lemma orElse_truthy (a d : value) :
  truthyValue d = true -> truthyValue (orElse a d) = true.
Proof.
  intros H. unfold orElse. destruct (truthyValue a) eqn:E; assumption.
Qed.

Lemma orElse_truthyOr (a d : value) : truthyOr d (orElse a d).
Proof.
  unfold truthyOr, orElse. destruct (truthyValue a) eqn:E; auto.
Qed.

End Defaults.

(** X15: every entry [getApplications] returns has its defaults filled in:
    the Mule version and the worker type are truthy ("Unknown" when the
    platform gave none), the file name is truthy or [null], and the worker
    size and the number of workers are truthy or the number 0, so none of
    them is [undefined], [NaN] or an empty string. *)
Theorem listed_applications_have_defaults
  (debug : bool) (response : outcome Api.value) (r : Api.ListedApplication) :
  In r (Api.getApplications debug response) ->
  Api.truthyValue (Api.muleVersion r) = true /\
  Api.truthyValue (Api.workerType r) = true /\
  Api.truthyOr Api.JNull (Api.fileName r) /\
  Api.truthyOr (Api.JNumber (num 0)) (Api.workerSize r) /\
  Api.truthyOr (Api.JNumber (num 0)) (Api.numberOfWorkers r) /\
  (forall v, In v [Api.workerSize r; Api.numberOfWorkers r] ->
             v <> Api.JUndefined /\ v <> Api.JNumber NaN /\ v <> Api.JNull).
Proof.
  intros Hin.
  assert (E : exists app, r = Api.listingOf app).
  { destruct response as [data|e]; [|destruct Hin].
    rewrite getApplications_table in Hin.
    destruct (Api.recognizedArray data) as [l|]; [|destruct Hin].
    destruct (existsb Api.nullish l); [destruct Hin|].
    apply in_map_iff in Hin. destruct Hin as [app [<- _]].
    exists app. reflexivity. }
  destruct E as [app ->]. cbn [Api.listingOf Api.muleVersion Api.workerType
    Api.fileName Api.workerSize Api.numberOfWorkers].
  split; [apply orElse_truthy; reflexivity|].
  split; [apply orElse_truthy; reflexivity|].
  split; [apply orElse_truthyOr|].
  split; [apply orElse_truthyOr|].
  split; [apply orElse_truthyOr|].
  intros v [<-|[<-|[]]];
    match goal with
    | |- context [Api.orElse ?a ?d] =>
        destruct (orElse_truthyOr a d) as [H|H]
    end;
    repeat split; intros C; rewrite C in H; discriminate.
Qed.

(** The application listed without file name and workers. *)
Lemma listed_applications_have_defaults_witness :
  Api.truthyValue
    (Api.muleVersion (Api.listingOf (Api.application "legacy" None None)))
  = true.
Proof.
  apply (listed_applications_have_defaults
           false
           (Returns (Api.JArray [Api.application "legacy" None None]))).
  left. reflexivity.
Defined.

(** X16: [getEnvironments] never throws: it returns one entry per
    environment, in order, when the [data] property of the response is an
    array without [null] entries, and the empty list in every other case: a
    failed request, a response without [data] array, or an array with a
    [null] entry. *)
Theorem getEnvironments_all_or_nothing :
  (forall e, Api.getEnvironments (Throws e) = []) /\
  (forall data environments,
     Api.nullish data = false ->
     Api.property data "data" = Api.JArray environments ->
     existsb Api.nullish environments = false ->
     Api.getEnvironments (Returns data) = map Api.environmentOf environments) /\
  (forall data environments,
     Api.property data "data" = Api.JArray environments ->
     existsb Api.nullish environments = true ->
     Api.getEnvironments (Returns data) = []) /\
  (forall data,
     (forall environments, Api.property data "data" <> Api.JArray environments) ->
     Api.getEnvironments (Returns data) = []) /\
  (forall response,
     (List.length (Api.getEnvironments response) <=
      match response with
      | Returns data =>
          match Api.property data "data" with
          | Api.JArray environments => List.length environments
          | _ => 0
          end
      | Throws _ => 0
      end)%nat).
Proof.
  assert (T : forall data,
            Api.getEnvironments (Returns data) =
            if Api.nullish data then []
            else match Api.property data "data" with
                 | Api.JArray l =>
                     if existsb Api.nullish l then []
                     else map Api.environmentOf l
                 | _ => []
                 end).
  { intros data. unfold Api.getEnvironments, Api.member. cbn [bind].
    destruct (Api.nullish data); [reflexivity|]. cbn [bind].
    destruct (Api.property data "data"); try reflexivity.
    apply mapM_listEnvironment_result. }
  split; [reflexivity|]. split; [|split; [|split]].
  - intros data l Hn Hd He. rewrite T, Hn, Hd, He. reflexivity.
  - intros data l Hd He. rewrite T, Hd, He.
    destruct (Api.nullish data); reflexivity.
  - intros data H. rewrite T.
    destruct (Api.nullish data); [reflexivity|].
    destruct (Api.property data "data") as [| | | | |l|] eqn:E;
      try reflexivity.
    exfalso. apply (H l). reflexivity.
  - intros [data|e]; [|simpl; lia]. rewrite T.
    destruct (Api.nullish data);
      [destruct (Api.property data "data"); simpl; lia|].
    destruct (Api.property data "data"); try (simpl; lia).
    destruct (existsb Api.nullish items); [simpl; lia|].
    rewrite length_map. lia.
Qed.

(** A response with two environments. *)
Lemma getEnvironments_all_or_nothing_witness :
  map Api.isProduction
    (Api.getEnvironments
       (Returns
          (Api.JObject
             [ ("data",
                Api.JArray
                  [ Api.JObject [ ("id", Api.JString "env-prod");
                                  ("isProduction", Api.JBool true) ];
                    Api.JObject [ ("id", Api.JString "env-dev") ] ]) ])))
  = [Api.JBool true; Api.JUndefined].
Proof.
  rewrite (proj1 (proj2 getEnvironments_all_or_nothing)
             (Api.JObject
                [ ("data",
                   Api.JArray
                     [ Api.JObject [ ("id", Api.JString "env-prod");
                                     ("isProduction", Api.JBool true) ];
                       Api.JObject [ ("id", Api.JString "env-dev") ] ]) ])
             [ Api.JObject [ ("id", Api.JString "env-prod");
                             ("isProduction", Api.JBool true) ];
               Api.JObject [ ("id", Api.JString "env-dev") ] ]
             eq_refl eq_refl eq_refl).
  reflexivity.
Defined.

(** ** The analysis period of the configuration *)

Section AnalyzeDays.

(** A decimal numeral followed by anything but a digit parses to its
    value. *)
Lemma parseInt_decimal (n : N) (rest : string) :
  Startup.noLeadingDigit rest ->
  parseInt (decimal n ++ rest) = of_Z (Z.of_N n).
Proof.
  intros Hrest. unfold parseInt, decimal.
  destruct (to_uint_digit n) as (c & s & E & Hs & Hm & Hp).
  assert (K : skip_spaces (NilEmpty.string_of_uint (N.to_uint n) ++ rest) =
              (NilEmpty.string_of_uint (N.to_uint n) ++ rest)%string).
  { rewrite E. cbn [String.append skip_spaces]. rewrite Hs. reflexivity. }
  rewrite K. clear K.
  assert (S : match (NilEmpty.string_of_uint (N.to_uint n) ++ rest)%string with
              | String "-" r0 => (true, r0)
              | String "+" r0 => (false, r0)
              | _ => (false,
                      (NilEmpty.string_of_uint (N.to_uint n) ++ rest)%string)
              end
              = (false, (NilEmpty.string_of_uint (N.to_uint n) ++ rest)%string)).
  { rewrite E. cbn [String.append].
    destruct c as [[] [] [] [] [] [] [] []]; try reflexivity; congruence. }
  rewrite S. clear S.
  rewrite digits_numeral by apply to_uint_nonnil.
  change (Pos.of_uint (N.to_uint n)) with (N.of_uint (N.to_uint n)).
  rewrite DecimalN.Unsigned.of_to.
  destruct rest as [|c' r']; [reflexivity|].
  cbn [digits]. cbn in Hrest. rewrite Hrest. reflexivity.
Qed.

Lemma append_empty (s : string) : (s ++ EmptyString)%string = s.
Proof. induction s as [|c s IH]; [reflexivity|]. simpl. rewrite IH. reflexivity. Qed.

Lemma decimal_truthy (n : N) (rest : string) :
  truthy_string (Some (decimal n ++ rest)%string) = Some (decimal n ++ rest)%string.
Proof.
  unfold decimal. destruct (to_uint_digit n) as (c & s & E & _).
  rewrite E. reflexivity.
Qed.

End AnalyzeDays.

(** X17: the analysis period is 30 days when [ANALYZE_DAYS] is unset or
    empty; when it is a decimal numeral of a number up to [2^53], possibly
    followed by text that does not start with a digit, the period is the
    number written, so it is 0 for "0" and positive for every other such
    numeral; the credentials of the
    environment take precedence over those of the command line, and without
    a client id or a client secret there is no configuration. *)
Theorem analysis_period_from_environment
  (env : string -> option string) (argv : list string) :
  (forall c, Startup.loadConfig env argv = Some c ->
     (truthy_string (env "ANALYZE_DAYS") = None ->
      Startup.analyzeDays c = num 30) /\
     (forall (n : N) (rest : string),
        env "ANALYZE_DAYS" = Some (decimal n ++ rest)%string ->
        Startup.noLeadingDigit rest ->
        (n <= 9007199254740992)%N ->
        Startup.analyzeDays c = of_Z (Z.of_N n) /\
        (lt (num 0) (Startup.analyzeDays c) = true <-> (0 < n)%N)) /\
     (forall id, truthy_string (env "ANYPOINT_CLIENT_ID") = Some id ->
                 Startup.clientId c = id) /\
     (Startup.exportCsv c = false <-> env "EXPORT_CSV" = Some "false")) /\
  (Startup.loadConfig env argv = None <->
   Startup.orString (env "ANYPOINT_CLIENT_ID") (nth_error argv 2) = None \/
   Startup.orString (env "ANYPOINT_CLIENT_ID") (nth_error argv 2)
     = Some EmptyString \/
   Startup.orString (env "ANYPOINT_CLIENT_SECRET") (nth_error argv 3) = None \/
   Startup.orString (env "ANYPOINT_CLIENT_SECRET") (nth_error argv 3)
     = Some EmptyString).
Proof.
  unfold Startup.loadConfig. split.
  - intros c Hc.
    destruct (truthy_string
                (Startup.orString (env "ANYPOINT_CLIENT_ID") (nth_error argv 2)))
      as [id|] eqn:Eid; [|discriminate].
    destruct (truthy_string
                (Startup.orString (env "ANYPOINT_CLIENT_SECRET")
                                  (nth_error argv 3)))
      as [secret|] eqn:Esec; [|discriminate].
    injection Hc as <-.
    cbn [Startup.analyzeDays Startup.clientId Startup.exportCsv].
    split; [|split; [|split]].
    + intros H. unfold Startup.orString. rewrite H. reflexivity.
    + intros n rest Hn Hrest _. unfold Startup.orString.
      rewrite Hn, decimal_truthy, (parseInt_decimal n rest Hrest).
      split; [reflexivity|].
      unfold num. rewrite lt_of_Z. rewrite Z.ltb_lt. lia.
    + intros id' H. unfold Startup.orString in Eid. rewrite H in Eid.
      destruct id' as [|ch r]; [destruct (env "ANYPOINT_CLIENT_ID") as [[|]|];
                                discriminate|].
      cbn in Eid. congruence.
    + unfold Startup.notFalse.
      destruct (env "EXPORT_CSV") as [s|]; [|split; discriminate].
      destruct (String.eqb s "false") eqn:E; cbn [negb].
      * apply String.eqb_eq in E. subst s. split; reflexivity.
      * split; [discriminate|]. intros H. injection H as ->.
        rewrite String.eqb_refl in E. discriminate.
  - destruct (Startup.orString (env "ANYPOINT_CLIENT_ID") (nth_error argv 2))
      as [[|c1 s1]|];
      destruct (Startup.orString (env "ANYPOINT_CLIENT_SECRET")
                                 (nth_error argv 3)) as [[|c2 s2]|];
      cbn [truthy_string]; split; intros H; auto; try discriminate;
      destruct H as [H|[H|[H|H]]]; discriminate.
Qed.

(** [ANALYZE_DAYS=60], as in the guide. *)
Lemma analysis_period_from_environment_witness :
  exists c,
    Startup.loadConfig (Startup.withAnalyzeDays (Some "60")) [] = Some c /\
    Startup.analyzeDays c = num 60.
Proof.
  eexists. split; [reflexivity|].
  apply (proj1 (proj2 (proj1 (analysis_period_from_environment
                                (Startup.withAnalyzeDays (Some "60")) [])
                             _ eq_refl))
           60%N EmptyString eq_refl I ltac:(vm_compute; discriminate)).
Defined.

(** ** Monitoring requests *)

Section MonitoringRequests.

Lemma payload_lost {A : Type} (f : Monitoring.Fetch A) :
  Monitoring.payload f = None <-> Monitoring.lost f.
Proof.
  unfold Monitoring.payload, Monitoring.lost.
  destruct f as [[[c err]|]|e]; cbn.
  - destruct err; cbn; split; intros H; try discriminate; try reflexivity.
    + right. right. eexists. split; reflexivity.
    + destruct H as [[e H]|[H|[body [H Herr]]]]; try discriminate.
      injection H as <-. discriminate.
  - split; intros _; [right; left|]; reflexivity.
  - split; intros _; [left; eexists|]; reflexivity.
Qed.

End MonitoringRequests.

(** X18: failures of the monitoring requests never abort the analysis of an
    application.  When the three requests are lost (they throw, answer
    without data or answer with an error) the message estimate is 0 with
    confidence [none]; when only the flow request is lost, the estimate is
    that of the remaining data; a request that is not lost hands its data on
    unchanged; and monitoring data, when there is any, always carries the
    configured number of days. *)
Theorem lost_monitoring_requests_give_no_estimate
  (analyzeDays : number) (dates : outcome (string * string))
  (messageResponse : Monitoring.Fetch MessageData)
  (resourceResponse : Monitoring.Fetch ResourceData)
  (flowResponse : Monitoring.Fetch (option (list FlowMetric))) :
  let monitoringData :=
    Monitoring.getApplicationMonitoringData
      analyzeDays dates messageResponse resourceResponse flowResponse in
  (Monitoring.lost messageResponse -> Monitoring.lost resourceResponse ->
   Monitoring.lost flowResponse ->
   estimatedDailyMessages (estimateMessageVolume monitoringData) = num 0 /\
   estimatedMonthlyMessages (estimateMessageVolume monitoringData) = num 0 /\
   messageConfidence (estimateMessageVolume monitoringData) = none) /\
  (Monitoring.lost flowResponse ->
   estimateMessageVolume monitoringData =
   estimateMessageVolume
     (Monitoring.getApplicationMonitoringData
        analyzeDays dates messageResponse resourceResponse (Returns None))) /\
  (forall md, monitoringData = Some md ->
     days (period md) = analyzeDays /\
     messageData md = Monitoring.payload messageResponse /\
     resourceData md = Monitoring.payload resourceResponse) /\
  (monitoringData = None <-> exists e, dates = Throws e).
Proof.
  cbv zeta. unfold Monitoring.getApplicationMonitoringData.
  split; [|split; [|split]].
  - intros Hm Hr Hf.
    apply payload_lost in Hm. apply payload_lost in Hr.
    apply payload_lost in Hf. rewrite Hm, Hr, Hf.
    destruct dates as [[from to]|e]; repeat split.
  - intros Hf. apply payload_lost in Hf. rewrite Hf.
    destruct dates as [[from to]|e]; reflexivity.
  - intros md H. destruct dates as [[from to]|e]; [|discriminate].
    cbn in H. injection H as <-. repeat split.
  - destruct dates as [[from to]|e]; cbn; split; intros H;
      try discriminate; try reflexivity.
    + destruct H as [e H]. discriminate.
    + eexists. reflexivity.
Qed.

(** The three requests fail with a status of 404. *)
Lemma lost_monitoring_requests_give_no_estimate_witness :
  messageConfidence
    (estimateMessageVolume
       (Monitoring.getApplicationMonitoringData
          (num 30) Monitoring.january
          (Throws "Request failed with status code 404")
          (Returns None)
          (Returns (Some {| Monitoring.content := None;
                            Monitoring.error := true |}))))
  = none.
Proof.
  apply (proj1 (lost_monitoring_requests_give_no_estimate
                  (num 30) Monitoring.january
                  (Throws "Request failed with status code 404")
                  (Returns None)
                  (Returns (Some {| Monitoring.content := None;
                                    Monitoring.error := true |})))).
  - left. eexists. reflexivity.
  - right. left. reflexivity.
  - right. right. eexists. split; reflexivity.
Defined.

(** ** Downloaded archives *)

Section Archive.

Variable join : string -> string -> string.

Lemma writeFile_same (disk : Download.Disk) (path : string) (bytes : N) :
  Download.writeFile disk path bytes path = Some bytes.
Proof. unfold Download.writeFile. rewrite String.eqb_refl. reflexivity. Qed.

(** Writing a file leaves the directory where it is. *)
Lemma writeFile_keeps (disk : Download.Disk) (path dir : string) (bytes : N) :
  disk dir <> None -> Download.writeFile disk path bytes dir <> None.
Proof.
  intros H. unfold Download.writeFile.
  destruct (String.eqb dir path); [discriminate | exact H].
Qed.

(** Where the directory is, [ensureDirectoryExists] does nothing. *)
Lemma ensureDirectoryExists_idle (mkdirSync : Download.MkdirSync)
  (dir : string) (disk : Download.Disk) :
  disk dir <> None ->
  Download.ensureDirectoryExists mkdirSync dir disk = (Returns tt, disk).
Proof.
  intros H. unfold Download.ensureDirectoryExists.
  destruct (disk dir); [reflexivity | contradiction].
Qed.

(** After [ensureDirectoryExists] has returned, the directory is there. *)
Lemma ensureDirectoryExists_made (mkdirSync : Download.MkdirSync)
  (dir : string) (disk disk1 : Download.Disk) :
  Download.makesWhatItReturns mkdirSync ->
  Download.ensureDirectoryExists mkdirSync dir disk = (Returns tt, disk1) ->
  disk1 dir <> None.
Proof.
  intros Hm. unfold Download.ensureDirectoryExists.
  destruct (disk dir) as [bytes|] eqn:E.
  - intros [= <-]. rewrite E. discriminate.
  - apply Hm.
Qed.

Lemma log_convertible (v : Api.value) :
  Api.convertible v = true -> Download.log v = Download.ret tt.
Proof.
  intros H. unfold Download.log, Api.toStringOf. rewrite H. reflexivity.
Qed.

Lemma log_inconvertible (v : Api.value) :
  Api.convertible v = false ->
  Download.log v =
    Download.lift (Throws "TypeError: Cannot convert object to primitive value").
Proof.
  intros H. unfold Download.log, Api.toStringOf. rewrite H. reflexivity.
Qed.

Ltac run :=
  cbv beta iota zeta delta
    [Download.bindM Download.tryM Download.lift Download.ret
     Download.existsSync Download.writeFileSync negb Api.truthyValue].

(** A call that finds the directory and the archive on disk returns the
    archive without a request. *)
Lemma download_cached (appDetails : Api.value) (s : string) (bytes : N)
  (disk : Download.Disk) (debug : bool) (mkdirSync : Download.MkdirSync)
  (request : outcome (option N)) (write : Download.WriteOutcome) :
  Api.nullish appDetails = false ->
  Api.property appDetails "fileName" = Api.JString s ->
  s <> EmptyString ->
  Api.convertible (Api.property appDetails "domain") = true ->
  disk (Download.jarsDirPath join) <> None ->
  disk (join (Download.jarsDirPath join) s) = Some bytes ->
  Download.downloadApplicationJar join true debug appDetails mkdirSync request
                                  write disk =
  (Returns (Some {| Download.jarPath := join (Download.jarsDirPath join) s;
                    Download.downloaded := false;
                    Download.size := bytes;
                    Download.method := None |}), disk).
Proof.
  intros Hn Hf Hs Hc Hdir Hd.
  unfold Download.downloadApplicationJar, Api.member.
  rewrite Hn, Hf. destruct s as [|c r]; [congruence|].
  run. rewrite !(log_convertible _ Hc).
  destruct debug; run;
    rewrite (@ensureDirectoryExists_idle mkdirSync _ _ Hdir);
    cbn [Download.joinFileName]; rewrite Hd; reflexivity.
Qed.

(** With a domain that cannot be converted to a string every call on details
    throws. *)
Lemma download_inconvertible (appDetails : Api.value)
  (disk : Download.Disk) (debug : bool) (mkdirSync : Download.MkdirSync)
  (request : outcome (option N)) (write : Download.WriteOutcome) :
  Api.nullish appDetails = false ->
  Api.convertible (Api.property appDetails "domain") = false ->
  exists e disk',
    Download.downloadApplicationJar join true debug appDetails mkdirSync
                                    request write disk = (Throws e, disk').
Proof.
  intros Hn Hc.
  unfold Download.downloadApplicationJar, Api.member.
  rewrite Hn.
  cbv beta iota zeta delta
    [Download.bindM Download.tryM Download.lift Download.ret
     Download.existsSync Download.writeFileSync negb].
  rewrite !(log_inconvertible _ Hc).
  destruct (Api.truthyValue (Api.property appDetails "fileName")) eqn:T;
    [|run; eexists; eexists; reflexivity].
  destruct debug; run; [eexists; eexists; reflexivity|].
  destruct (Download.ensureDirectoryExists mkdirSync
              (Download.jarsDirPath join) disk) as [[[]|e] disk1];
    [|eexists; eexists; reflexivity].
  destruct (Download.joinFileName join (Api.property appDetails "fileName"))
    as [path|e]; [|eexists; eexists; reflexivity].
  destruct (disk1 path); eexists; eexists; reflexivity.
Qed.

(** With a domain that can be converted every call on details returns. *)
Lemma download_convertible (appDetails : Api.value)
  (disk : Download.Disk) (debug : bool) (mkdirSync : Download.MkdirSync)
  (request : outcome (option N)) (write : Download.WriteOutcome) :
  Api.nullish appDetails = false ->
  Api.convertible (Api.property appDetails "domain") = true ->
  exists jarInfo disk',
    Download.downloadApplicationJar join true debug appDetails mkdirSync
                                    request write disk
    = (Returns jarInfo, disk').
Proof.
  intros Hn Hc.
  unfold Download.downloadApplicationJar, Api.member.
  rewrite Hn.
  cbv beta iota zeta delta
    [Download.bindM Download.tryM Download.lift Download.ret
     Download.existsSync Download.writeFileSync negb].
  rewrite !(log_convertible _ Hc).
  assert (L : Download.log (Api.property appDetails "versionId") =
              Download.ret tt \/
              Download.log (Api.property appDetails "versionId") =
              Download.lift
                (Throws "TypeError: Cannot convert object to primitive value")).
  { destruct (Api.convertible (Api.property appDetails "versionId")) eqn:V;
      [left; apply log_convertible | right; apply log_inconvertible];
      exact V. }
  destruct (Api.truthyValue (Api.property appDetails "fileName")) eqn:T;
    [|destruct debug; run; eexists; eexists; reflexivity].
  assert (D : (if debug then Download.ret tt else
               fun disk0 : Download.Disk => (Returns tt, disk0)) disk =
              (Returns tt, disk)) by (destruct debug; reflexivity).
  rewrite D. run.
  destruct (Download.ensureDirectoryExists mkdirSync
              (Download.jarsDirPath join) disk) as [[[]|e] disk1];
    [|eexists; eexists; reflexivity].
  destruct (Download.joinFileName join (Api.property appDetails "fileName"))
    as [path|e]; [|eexists; eexists; reflexivity].
  destruct (disk1 path) as [bytes|]; [eexists; eexists; reflexivity|].
  destruct (match Api.property appDetails "versionId" with
            | Api.JUndefined | Api.JNull => false
            | Api.JBool b => b
            | Api.JNumber n => truthy n
            | Api.JString EmptyString => false
            | _ => true
            end); [|eexists; eexists; reflexivity].
  destruct L as [L|L]; rewrite L.
  - destruct debug; run;
      (destruct request as [[bytes|]|e]; try (eexists; eexists; reflexivity);
       destruct write as [|[remains|]]; eexists; eexists; reflexivity).
  - destruct debug; run; eexists; eexists; reflexivity.
Qed.

End Archive.

(** X19: whenever [downloadApplicationJar] returns an archive, a file of the
    reported size is on disk at the returned path, which is the file name of
    the application joined to the directory of the archives; apart from the
    directory [ensureDirectoryExists] makes, the disk is changed only by a
    download, and only where there was nothing; and, [mkdirSync] making what
    it returns for, the next call for the same application returns the same
    archive from disk as not downloaded, whatever the request would
    answer. *)
Theorem returned_archive_is_on_disk
  (join : string -> string -> string) (downloadJars debug : bool)
  (appDetails : Api.value) (mkdirSync : Download.MkdirSync)
  (request : outcome (option N)) (write : Download.WriteOutcome)
  (disk disk' : Download.Disk) (info : Download.JarInfo) :
  Download.makesWhatItReturns mkdirSync ->
  Download.downloadApplicationJar join downloadJars debug appDetails mkdirSync
                                  request write disk
    = (Returns (Some info), disk') ->
  let ensured :=
    snd (Download.ensureDirectoryExists mkdirSync (Download.jarsDirPath join)
                                        disk) in
  downloadJars = true /\
  disk' (Download.jarPath info) = Some (Download.size info) /\
  (exists s, Api.property appDetails "fileName" = Api.JString s /\
             s <> EmptyString /\
             Download.jarPath info = join (Download.jarsDirPath join) s) /\
  (disk (Download.jarsDirPath join) <> None -> ensured = disk) /\
  (Download.downloaded info = false -> disk' = ensured) /\
  (Download.downloaded info = true ->
   ensured (Download.jarPath info) = None /\
   request = Returns (Some (Download.size info)) /\
   disk' = Download.writeFile ensured (Download.jarPath info)
                              (Download.size info)) /\
  (forall debug' mkdirSync' request' write',
     Download.downloadApplicationJar join true debug' appDetails mkdirSync'
                                     request' write' disk' =
     (Returns (Some {| Download.jarPath := Download.jarPath info;
                       Download.downloaded := false;
                       Download.size := Download.size info;
                       Download.method := None |}), disk')).
Proof.
  intros Hm H ensured.
  assert (Hidle : disk (Download.jarsDirPath join) <> None -> ensured = disk).
  { intros Hdir. unfold ensured.
    rewrite (@ensureDirectoryExists_idle mkdirSync _ _ Hdir). reflexivity. }
  destruct downloadJars; [|discriminate].
  destruct (Api.nullish appDetails) eqn:Hn.
  { unfold Download.downloadApplicationJar, Api.member in H.
    rewrite Hn in H. discriminate. }
  destruct (Api.convertible (Api.property appDetails "domain")) eqn:Hc.
  2:{ destruct (@download_inconvertible join appDetails disk debug mkdirSync
                                        request write Hn Hc) as (e & d & E).
      rewrite E in H. discriminate. }
  unfold Download.downloadApplicationJar, Api.member in H.
  rewrite Hn in H.
  cbv beta iota zeta delta
    [Download.bindM Download.tryM Download.lift Download.ret
     Download.existsSync Download.writeFileSync negb] in H.
  rewrite !(log_convertible _ Hc) in H.
  destruct (Api.truthyValue (Api.property appDetails "fileName")) eqn:Ht.
  2:{ destruct debug; cbv beta iota zeta delta [Download.ret] in H;
        discriminate. }
  assert (D : (if debug then Download.ret tt else
               fun disk0 : Download.Disk => (Returns tt, disk0)) disk =
              (Returns tt, disk)) by (destruct debug; reflexivity).
  rewrite D in H. clear D.
  cbv beta iota zeta delta [Download.ret] in H.
  destruct (Download.ensureDirectoryExists mkdirSync (Download.jarsDirPath join)
                                           disk) as [made disk1] eqn:He.
  cbn [snd] in ensured. subst ensured.
  destruct made as [[]|e]; [|discriminate].
  pose proof (@ensureDirectoryExists_made _ _ _ _ Hm He) as Hdir.
  destruct (Api.property appDetails "fileName") as [| |b|n|s|l|f] eqn:Hf;
    try discriminate.
  destruct s as [|c r]; [discriminate|].
  cbn [Download.joinFileName] in H.
  set (path := join (Download.jarsDirPath join) (String c r)) in *.
  assert (S : exists s, Api.JString (String c r) = Api.JString s /\
                        s <> EmptyString /\ path = join (Download.jarsDirPath join) s)
    by (exists (String c r); repeat split; discriminate).
  destruct (disk1 path) as [bytes|] eqn:Hd.
  - injection H as <- <-.
    cbn [Download.jarPath Download.size Download.downloaded].
    split; [reflexivity|]. split; [exact Hd|]. split; [exact S|].
    split; [exact Hidle|].
    split; [reflexivity|]. split; [discriminate|].
    intros debug' mkdirSync' request' write'.
    apply download_cached;
      [exact Hn | exact Hf | discriminate | exact Hc | exact Hdir | exact Hd].
  - destruct (Api.truthyValue (Api.property appDetails "versionId"));
      [|discriminate].
    assert (L : Download.log (Api.property appDetails "versionId") =
                Download.ret tt \/
                Download.log (Api.property appDetails "versionId") =
                Download.lift
                  (Throws "TypeError: Cannot convert object to primitive value")).
    { destruct (Api.convertible (Api.property appDetails "versionId")) eqn:V;
        [left; apply log_convertible | right; apply log_inconvertible];
        exact V. }
    destruct L as [L|L]; rewrite L in H;
      [|destruct debug;
        cbv beta iota zeta delta [Download.ret Download.lift] in H;
        discriminate].
    assert (D : (if debug then Download.ret tt else
                 fun disk0 : Download.Disk => (Returns tt, disk0)) disk1 =
                (Returns tt, disk1)) by (destruct debug; reflexivity).
    rewrite D in H. clear D.
    cbv beta iota zeta delta [Download.ret] in H.
    destruct request as [[bytes|]|e]; try discriminate.
    destruct write as [|[remains|]]; try discriminate.
    injection H as <- <-.
    cbn [Download.jarPath Download.size Download.downloaded].
    split; [reflexivity|]. split; [apply writeFile_same|]. split; [exact S|].
    split; [exact Hidle|].
    split; [discriminate|].
    split; [intros _; repeat split; exact Hd|].
    intros debug' mkdirSync' request' write'.
    apply download_cached;
      [exact Hn | exact Hf | discriminate | exact Hc
      | apply writeFile_keeps; exact Hdir | apply writeFile_same].
Qed.

(** A first download of 2.30 MB into an empty disk. *)
Lemma returned_archive_is_on_disk_witness :
  Download.makesWhatItReturns Download.makesDirectory /\
  Download.writeFile
    (Download.writeFile Download.emptyDisk
                        "consumption-data/application-jars" 4096)
    "consumption-data/application-jars/customer-eapi-salesforce-v1.jar"
    twoPointThreeMB
    "consumption-data/application-jars/customer-eapi-salesforce-v1.jar"
  = Some twoPointThreeMB.
Proof.
  assert (Hm : Download.makesWhatItReturns Download.makesDirectory).
  { intros path disk disk' [= <-]. unfold Download.writeFile.
    rewrite String.eqb_refl. discriminate. }
  split; [exact Hm|].
  apply (proj1 (proj2 (@returned_archive_is_on_disk
           Download.slashJoin true false Download.customerDetails
           Download.makesDirectory
           (Returns (Some twoPointThreeMB)) Download.Written
           Download.emptyDisk
           (Download.writeFile
              (Download.writeFile Download.emptyDisk
                                  "consumption-data/application-jars" 4096)
              "consumption-data/application-jars/customer-eapi-salesforce-v1.jar"
              twoPointThreeMB)
           {| Download.jarPath :=
                "consumption-data/application-jars/customer-eapi-salesforce-v1.jar";
              Download.downloaded := true;
              Download.size := twoPointThreeMB;
              Download.method := Some "arm-api" |}
           Hm eq_refl))).
Defined.

(** X20: [downloadApplicationJar] throws as the run calls it exactly when
    the domain of the details cannot be converted to a string.  The function
    reads the details before its [try] and so throws on [null] details; but
    [getApplicationDetails] answers with truthy details or [null], and the
    run calls the download only for truthy details.  On such details every
    message of the function, those of its [catch] blocks included, converts
    the domain: with a domain that cannot be converted the call throws, and
    with any other domain the call returns, an object or [null], whatever
    fails inside the download (the directory, a file name that is no string,
    the version id, the request, the write). *)
Theorem download_throws_only_for_inconvertible_domain
  (join : string -> string -> string) (debug : bool)
  (response : outcome Api.value) (mkdirSync : Download.MkdirSync)
  (request : outcome (option N)) (write : Download.WriteOutcome)
  (disk : Download.Disk) :
  (exists e,
     Download.downloadApplicationJar join true debug Api.JNull mkdirSync
                                     request write disk
     = (Throws e, disk)) /\
  (Details.getApplicationDetails response = Api.JNull \/
   Api.truthyValue (Details.getApplicationDetails response) = true) /\
  (forall downloadJars appDetails,
     downloadJars && Api.truthyValue appDetails = false ->
     Details.jarInfoFor join downloadJars debug appDetails mkdirSync request
                        write disk
     = (Returns None, disk)) /\
  (forall appDetails,
     Api.truthyValue appDetails = true ->
     Api.convertible (Api.property appDetails "domain") = true ->
     exists jarInfo disk',
       Details.jarInfoFor join true debug appDetails mkdirSync request write
                          disk
       = (Returns jarInfo, disk')) /\
  (forall appDetails,
     Api.truthyValue appDetails = true ->
     Api.convertible (Api.property appDetails "domain") = false ->
     exists e disk',
       Details.jarInfoFor join true debug appDetails mkdirSync request write
                          disk
       = (Throws e, disk')).
Proof.
  assert (N : forall appDetails,
            Api.truthyValue appDetails = true ->
            Api.nullish appDetails = false)
    by (intros [] H; try reflexivity; discriminate).
  split; [eexists; reflexivity|].
  split.
  { unfold Details.getApplicationDetails.
    destruct response as [data|e]; cbn; [|left; reflexivity].
    destruct (Api.truthyValue data) eqn:E; cbn;
      [right; exact E | left; reflexivity]. }
  split.
  { intros downloadJars appDetails H. unfold Details.jarInfoFor.
    rewrite H. reflexivity. }
  split.
  { intros appDetails Ht Hc. unfold Details.jarInfoFor.
    rewrite Ht. cbn [andb].
    apply download_convertible; [apply N; exact Ht | exact Hc]. }
  intros appDetails Ht Hc. unfold Details.jarInfoFor.
  rewrite Ht. cbn [andb].
  apply download_inconvertible; [apply N; exact Ht | exact Hc].
Qed.

(** Details whose domain is an object with a [toString] property: the
    download throws although the archive could be fetched and written. *)
Lemma download_throws_only_for_inconvertible_domain_witness :
  exists e disk',
    Details.jarInfoFor Download.slashJoin true false
                       Download.unprintableDomain Download.makesDirectory
                       (Returns (Some twoPointThreeMB)) Download.Written
                       Download.emptyDisk
    = (Throws e, disk').
Proof.
  apply (proj2 (proj2 (proj2 (proj2
           (download_throws_only_for_inconvertible_domain
              Download.slashJoin false (Returns Download.unprintableDomain)
              Download.makesDirectory (Returns (Some twoPointThreeMB))
              Download.Written Download.emptyDisk))))
           Download.unprintableDomain);
    reflexivity.
Defined.

(** ** The total of a run without archives *)

Section MetadataOnly.

Lemma Forall2_right {A B : Type} (R : A -> B -> Prop) (P : B -> Prop)
  (l : list A) (l' : list B) :
  Forall2 R l l' -> (forall x y, R x y -> P y) -> Forall P l'.
Proof.
  intros H HP. induction H as [|x y xs ys Hxy _ IH]; constructor.
  - apply (HP x y Hxy).
  - exact IH.
Qed.

(** Adding values of [[2, 15]] one after the other stays between 2 and 15
    times their number. *)
Lemma fold_add_within (l : list AppData) :
  Forall (fun a => exists q, flowsOf a = Fin q /\ (2 <= q)%Q /\ (q <= 15)%Q) l ->
  forall k : Q, exists q,
    fold_left (fun acc a => (acc + flowsOf a)%js) l (Fin k) = Fin q /\
    (k + 2 * inject_Z (Z.of_nat (List.length l)) <= q)%Q /\
    (q <= k + 15 * inject_Z (Z.of_nat (List.length l)))%Q.
Proof.
  induction 1 as [|a rest (r & Hr & H2 & H15) _ IH]; intros k.
  - exists k. cbn [fold_left List.length Z.of_nat].
    change (inject_Z 0) with 0%Q. repeat split; lra.
  - cbn [fold_left]. rewrite Hr. cbn [add].
    destruct (IH (Qred (k + r))) as (q & Hq & L & U).
    exists q. split; [exact Hq|].
    rewrite Qred_correct in L, U.
    cbn [List.length]. rewrite Nat2Z.inj_succ. unfold Z.succ.
    rewrite inject_Z_plus. change (inject_Z 1) with 1%Q.
    split; lra.
Qed.

Lemma or_zero_within (x : number) (q : Q) :
  x = Fin q -> (2 <= q)%Q -> or_zero x = Fin q.
Proof.
  intros -> H. unfold or_zero, truthy.
  destruct (Qeq_bool q 0) eqn:E; [|reflexivity].
  apply Qeq_bool_eq in E. lra.
Qed.

End MetadataOnly.

(** X21: when archive downloads are disabled the run estimates every
    application from its metadata, so the total of estimated flows of the
    summary is a finite number between 2 and 15 times the number of listed
    applications. *)
Theorem total_without_downloads_is_bounded
  (cfg : Config) (fs : FileSystem) (p : Platform) :
  downloadJars cfg = false ->
  exists inventory q,
    analyzeBillableConsumption cfg fs p = Returns inventory /\
    totalEstimatedFlows (summary inventory) = Fin q /\
    (2 * inject_Z (Z.of_nat (List.length (listedApplications p))) <= q)%Q /\
    (q <= 15 * inject_Z (Z.of_nat (List.length (listedApplications p))))%Q.
Proof.
  intros Hoff.
  destruct (groups_loop_match cfg fs p (flattenBusinessGroups (hierarchy p))
              emptyInventory) as [new [Hrun Hmatch]].
  pose proof (leaves_carry Hmatch) as Hleaves.
  assert (W : Forall (fun a => exists q, flowsOf a = Fin q /\
                                         (2 <= q)%Q /\ (q <= 15)%Q)
                     (flat_map (fun g => flat_map applications (environments g))
                               new)).
  { apply Forall2_right with (1 := Hleaves). intros src a (_ & Hflow & _).
    assert (E : chosenJarPath cfg src = None).
    { unfold chosenJarPath. rewrite Hoff.
      destruct (applicationDetails src); reflexivity. }
    rewrite E in Hflow. cbn in Hflow. injection Hflow as Hflow.
    destruct (metadata_estimate_within (applicationDetails src))
      as (q & Hq & H2 & H15).
    exists q. unfold flowsOf. rewrite <- Hflow.
    split; [apply or_zero_within; assumption | split; assumption]. }
  destruct (fold_add_within W 0) as (q & Hq & L & U).
  eexists. exists q. split; [exact Hrun|].
  cbn [businessGroups summary emptyInventory List.app].
  change (num 0) with (of_Z 0). rewrite accumulate_counters.
  cbn [totalEstimatedFlows]. split; [exact Hq|].
  unfold listedApplications. rewrite (Forall2_length Hleaves).
  split; lra.
Qed.

(** The sample platform with downloads disabled: 7 + 8 + 2 flows for three
    applications. *)
Lemma total_without_downloads_is_bounded_witness :
  exists inventory q,
    analyzeBillableConsumption
      {| downloadJars := false; exportCsv := true |}
      (jarOnDisk twoPointThreeMB twoConfigurations) samplePlatform
      = Returns inventory /\
    totalEstimatedFlows (summary inventory) = Fin q /\
    (2 * inject_Z (Z.of_nat (List.length (listedApplications samplePlatform)))
     <= q)%Q /\
    (q <= 15 * inject_Z (Z.of_nat (List.length (listedApplications samplePlatform))))%Q.
Proof.
  apply (total_without_downloads_is_bounded
           {| downloadJars := false; exportCsv := true |}
           (jarOnDisk twoPointThreeMB twoConfigurations) samplePlatform).
  reflexivity.
Defined.
